(** * TensorWrapper: level-tagged proxy tensors of functorch

    A shallow embedding of [functorch/csrc/TensorWrapper.cpp].  Tensors are
    handles to reference-counted implementation objects, so the model keeps
    an explicit store of implementation objects and of the shared liveness
    flags ([std::shared_ptr<bool>]); every function of the source becomes
    a computation in a small state-and-failure monad over that store. *)

From Stdlib Require Import ZArith Lia DecimalString.
From stdpp Require Import base decidable countable functions gmap sets list strings.

Local Open Scope Z_scope.

(** ** Dispatch keys and key sets *)

(** The fragment of [c10::DispatchKey] that the source names (the three
    Autograd backend keys and the wrapper key behind [kGradWrapperKey] /
    [FT_GRAD_WRAPPER_KEY]) together with a few backend keys that ordinary
    tensors carry. *)
Inductive DispatchKey : Set :=
| CPU | CUDA | XLA
| Negative | Conjugate
| FuncTorchBatched
| FuncTorchGradWrapper
| AutogradCPU | AutogradCUDA | AutogradXLA.

Global Instance DispatchKey_eq_dec : EqDecision DispatchKey.
Proof. solve_decision. Defined.

Definition DispatchKey_index (k : DispatchKey) : nat :=
  match k with
  | CPU => 0 | CUDA => 1 | XLA => 2
  | Negative => 3 | Conjugate => 4
  | FuncTorchBatched => 5
  | FuncTorchGradWrapper => 6
  | AutogradCPU => 7 | AutogradCUDA => 8 | AutogradXLA => 9
  end%nat.

Definition DispatchKey_of_index (n : nat) : option DispatchKey :=
  match n with
  | 0 => Some CPU | 1 => Some CUDA | 2 => Some XLA
  | 3 => Some Negative | 4 => Some Conjugate
  | 5 => Some FuncTorchBatched
  | 6 => Some FuncTorchGradWrapper
  | 7 => Some AutogradCPU | 8 => Some AutogradCUDA | 9 => Some AutogradXLA
  | _ => None
  end%nat.

Global Instance DispatchKey_countable : Countable DispatchKey.
Proof.
  refine (inj_countable DispatchKey_index DispatchKey_of_index _).
  by intros [].
Defined.

(** [c10::DispatchKeySet]: a set of dispatch keys; [|] is union, [&] is
    intersection, [add] inserts one key and [has] tests membership. *)
Abbreviation DispatchKeySet := (gset DispatchKey).

Definition DispatchKeySet_has (ks : DispatchKeySet) (k : DispatchKey) : bool :=
  bool_decide (k ∈ ks).

Definition DispatchKeySet_add (ks : DispatchKeySet) (k : DispatchKey) : DispatchKeySet :=
  ks ∪ {[ k ]}.

(** Modelled from the spec: [kGradWrapperKey] is declared in a header that
    is not part of this file; it is the single fixed is-a-proxy marker, the
    key under which the handlers at the end of the source are registered. *)
Definition kGradWrapperKey : DispatchKey := FuncTorchGradWrapper.

(** The key set literal that both factory functions build:
    [DispatchKeySet({AutogradCPU, AutogradCUDA, AutogradXLA})]. *)
Definition autograd_backend_keys : DispatchKeySet :=
  {[ AutogradCPU; AutogradCUDA; AutogradXLA ]}.

(** ** Tensors, implementation objects and the store *)

(** Address of a [TensorImpl] object. *)
Abbreviation addr := nat (only parsing).

(** [at::Tensor]: a handle that is either undefined or points to an
    implementation object.  Copying a handle shares the object. *)
Inductive Tensor : Set :=
| UndefinedTensor
| TensorRef (a : addr).

Global Instance Tensor_eq_dec : EqDecision Tensor.
Proof. solve_decision. Defined.

Definition defined (t : Tensor) : bool :=
  match t with UndefinedTensor => false | TensorRef _ => true end.

(** [std::shared_ptr<bool>]: the shared liveness flag.

    Modelled from the spec: [getLifeHandleForLevel] is declared outside this
    file; the spec gives every level one handle, shared by all proxies that
    are created at that level ([LevelHandle]).  [OwnedHandle] names the
    cells that [std::make_shared<bool>(false)] allocates. *)
Inductive LifeHandle : Set :=
| LevelHandle (level : Z)
| OwnedHandle (n : nat).

Global Instance LifeHandle_eq_dec : EqDecision LifeHandle.
Proof. solve_decision. Defined.

Definition getLifeHandleForLevel (level : Z) : LifeHandle := LevelHandle level.

(** The members of the [c10::TensorImpl] base class that the source reads or
    writes.  [sizes_and_strides_] keeps one (size, stride) pair per
    dimension, as [c10::impl::SizesAndStrides] does. *)
Record TensorImplBase : Type := mkBase {
  key_set_ : DispatchKeySet;
  sizes_and_strides_ : list (Z * Z);
  storage_offset_ : Z;
  numel_ : Z;
  is_contiguous_ : bool;
  version_counter_ : nat;
  allow_tensor_metadata_change_ : bool;
  storage_access_should_throw_ : bool
}.

(** The members that [TensorWrapper] adds to its base. *)
Record TensorWrapper : Type := mkWrapper {
  base_ : TensorImplBase;
  value_ : Tensor;
  level_ : Z;
  is_alive_ : LifeHandle
}.

(** An implementation object is an ordinary tensor (base members and its
    elements) or a [TensorWrapper]. *)
Inductive TensorImpl : Type :=
| DenseImpl (b : TensorImplBase) (data : list Z)
| WrapperImpl (tw : TensorWrapper).

Definition impl_base (i : TensorImpl) : TensorImplBase :=
  match i with
  | DenseImpl b _ => b
  | WrapperImpl tw => base_ tw
  end.

(** The store: implementation objects by address with the next free
    address, the liveness flags with the next free owned cell, and the
    diagnostics that [TORCH_WARN] has emitted so far. *)
Record World : Type := mkWorld {
  impls : addr -> TensorImpl;
  next_impl : addr;
  flags : LifeHandle -> bool;
  next_flag : nat;
  warnings : list string
}.

(** ** Failure and state *)

(** Outcome of a call: a value, a failed [TORCH_INTERNAL_ASSERT] (which
    throws), or undefined behaviour (a member access through a
    [TensorWrapper*] that does not point to a wrapper, an access outside a
    vector). *)
Inductive result (A : Type) : Type :=
| Ok (a : A)
| AssertionFailure (msg : string)
| UndefinedBehaviour.

Arguments Ok {A} a.
Arguments AssertionFailure {A} msg.
Arguments UndefinedBehaviour {A}.

Definition is_Ok {A} (r : result A) : bool :=
  match r with Ok _ => true | _ => false end.

Definition is_AssertionFailure {A} (r : result A) : bool :=
  match r with AssertionFailure _ => true | _ => false end.

Definition M (A : Type) : Type := World -> result (A * World).

Definition ret {A} (a : A) : M A := fun w => Ok (a, w).

Definition bind {A B} (m : M A) (k : A -> M B) : M B :=
  fun w =>
    match m w with
    | Ok (a, w') => k a w'
    | AssertionFailure msg => AssertionFailure msg
    | UndefinedBehaviour => UndefinedBehaviour
    end.

Global Instance M_ret : MRet M := @ret.
Global Instance M_bind : MBind M := fun A B k m => bind m k.

Definition get_world : M World := fun w => Ok (w, w).

Definition fail_assert {A} (msg : string) : M A := fun _ => AssertionFailure msg.

Definition undefined_behaviour {A} : M A := fun _ => UndefinedBehaviour.

Definition TORCH_INTERNAL_ASSERT (cond : bool) (msg : string) : M unit :=
  if cond then ret tt else fail_assert msg.

(** The store after a diagnostic has been emitted. *)
Definition warned (w : World) (msg : string) : World :=
  mkWorld (impls w) (next_impl w) (flags w) (next_flag w) (warnings w ++ [msg]).

(** [TORCH_WARN]: non-fatal; the call goes on. *)
Definition TORCH_WARN (msg : string) : M unit :=
  fun w => Ok (tt, warned w msg).

(** ** Reading tensors *)

(** Base members of [UndefinedTensorImpl]: an empty key set and the default
    one-dimensional empty shape. *)
Definition undefined_base : TensorImplBase :=
  mkBase ∅ [(0, 1)] 0 0 true 0%nat false false.

Definition tensor_base (w : World) (t : Tensor) : TensorImplBase :=
  match t with
  | UndefinedTensor => undefined_base
  | TensorRef a => impl_base (impls w a)
  end.

(** [tensor.key_set()]. *)
Definition key_set (w : World) (t : Tensor) : DispatchKeySet :=
  key_set_ (tensor_base w t).

(** [tensor.sizes()], [tensor.strides()], [tensor.dim()],
    [tensor.storage_offset()]. *)
Definition sizes (w : World) (t : Tensor) : list Z :=
  (sizes_and_strides_ (tensor_base w t)).*1.

Definition strides (w : World) (t : Tensor) : list Z :=
  (sizes_and_strides_ (tensor_base w t)).*2.

Definition dim (w : World) (t : Tensor) : nat :=
  length (sizes_and_strides_ (tensor_base w t)).

Definition storage_offset (w : World) (t : Tensor) : Z :=
  storage_offset_ (tensor_base w t).

(** [maybeGetTensorWrapper]: null unless the key set has the wrapper key;
    otherwise the implementation pointer, cast to [TensorWrapper*]. *)
Definition maybeGetTensorWrapper (w : World) (tensor : Tensor) : option addr :=
  if negb (DispatchKeySet_has (key_set w tensor) kGradWrapperKey) then None
  else
    match tensor with
    | TensorRef a => Some a
    | UndefinedTensor => None
    end.

(** Member access through a [TensorWrapper*]. *)
Definition as_wrapper (this : addr) : M TensorWrapper :=
  fun w =>
    match impls w this with
    | WrapperImpl tw => Ok (tw, w)
    | DenseImpl _ _ => UndefinedBehaviour
    end.

(** [TensorWrapper::is_alive]: [return *is_alive_;]. *)
Definition TensorWrapper_is_alive (this : addr) : M bool :=
  tw ← as_wrapper this;
  w ← get_world;
  ret (flags w (is_alive_ tw)).

(** [TensorWrapper::value]: the stored handle, not a clone. *)
Definition TensorWrapper_value (this : addr) : M Tensor :=
  tw ← as_wrapper this;
  ret (value_ tw).

(** Modelled from the spec: [TensorWrapper::level] is defined in the header,
    which is not part of this file.  It returns the creation level if the
    proxy is alive, else an absent value. *)
Definition TensorWrapper_level (this : addr) : M (option Z) :=
  alive ← TensorWrapper_is_alive this;
  tw ← as_wrapper this;
  ret (if alive : bool then Some (level_ tw) else None).

(** Comparisons of [optional<int64_t>]: an absent value is smaller than
    every value, and two optionals differ unless both are absent or both
    hold the same value. *)
Definition optional_lt (o : option Z) (v : Z) : bool :=
  match o with
  | Some x => bool_decide (x < v)
  | None => true
  end.

Definition optional_ne (a b : option Z) : bool :=
  negb (bool_decide (a = b)).

(** ** The host library

    What the source takes from its collaborators: the propagation mask
    [kKeysToPropagateToWrapper], the base class's recomputation of the
    element count and of the contiguity flag from sizes and strides
    ([refresh_numel], [refresh_contiguous]), the dispatcher's entry point
    for [Tensor::copy_] and its boxed re-invocation [op.callBoxed]. *)

(** An argument on the interpreter stack ([c10::IValue]): a tensor or a
    value of another kind, which the handlers never inspect. *)
Inductive IValue : Type :=
| IVTensor (t : Tensor)
| IVOther (payload : Z).

(** [c10::OperatorHandle]: the operator's name and
    [op.schema().arguments().size()]. *)
Record OperatorHandle : Type := mkOp {
  op_name : string;
  schema_arguments_size : nat
}.

(** [compute_numel] and [compute_contiguous] are what [refresh_numel] and
    [refresh_contiguous] store; both are functions of the sizes and strides
    alone.  [Tensor_copy_ self src non_blocking] is [self.copy_(src,
    non_blocking)], a call through the dispatcher that returns a tensor
    reference.  [callBoxed op stack] is [op.callBoxed(stack)]. *)
Class Host : Type := mkHost {
  kKeysToPropagateToWrapper : DispatchKeySet;
  compute_numel : list (Z * Z) -> Z;
  compute_contiguous : list (Z * Z) -> bool;
  Tensor_copy_ : Tensor -> Tensor -> bool -> M Tensor;
  callBoxed : OperatorHandle -> list IValue -> M (list IValue)
}.

(** ** Store updates *)

Definition install (w : World) (i : TensorImpl) : World :=
  mkWorld (<[next_impl w := i]> (impls w)) (S (next_impl w))
          (flags w) (next_flag w) (warnings w).

Definition alloc_impl (i : TensorImpl) : M addr :=
  fun w => Ok (next_impl w, install w i).

Definition new_cell (w : World) (b : bool) : World :=
  mkWorld (impls w) (next_impl w)
          (<[OwnedHandle (next_flag w) := b]> (flags w))
          (S (next_flag w)) (warnings w).

(** [std::make_shared<bool>(b)]: a fresh cell that nobody else holds. *)
Definition make_shared_bool (b : bool) : M LifeHandle :=
  fun w => Ok (OwnedHandle (next_flag w), new_cell w b).

Definition set_base (f : TensorImplBase -> TensorImplBase) (i : TensorImpl) : TensorImpl :=
  match i with
  | DenseImpl b d => DenseImpl (f b) d
  | WrapperImpl tw =>
      WrapperImpl (mkWrapper (f (base_ tw)) (value_ tw) (level_ tw) (is_alive_ tw))
  end.

(** Write to base members of the object at [this]. *)
Definition update_base (this : addr) (f : TensorImplBase -> TensorImplBase) : M unit :=
  fun w =>
    Ok (tt,
        mkWorld (<[this := set_base f (impls w this)]> (impls w)) (next_impl w)
                (flags w) (next_flag w) (warnings w)).

(** ** Metadata mirroring *)

(** [SizesAndStrides::resize]: keeps the leading entries, zero-fills new
    ones. *)
Definition SizesAndStrides_resize (n : nat) (ss : list (Z * Z)) : list (Z * Z) :=
  take n ss ++ replicate (n - length ss)%nat (0, 0).

Definition set_size_at (i : nat) (v : Z) (ss : list (Z * Z)) : list (Z * Z) :=
  alter (fun p => (v, p.2)) i ss.

Definition set_stride_at (i : nat) (v : Z) (ss : list (Z * Z)) : list (Z * Z) :=
  alter (fun p => (p.1, v)) i ss.

(** The loop of [refreshMetadata]:
    [for (i = 0; i < dim; i++) { size_at(i) = sizes[i]; stride_at(i) = strides[i]; }] *)
Definition refresh_loop (dim_ : nat) (sizes_ strides_ : list Z)
    (ss : list (Z * Z)) : list (Z * Z) :=
  foldl (fun acc i => set_stride_at i (strides_ !!! i) (set_size_at i (sizes_ !!! i) acc))
        ss (seq 0 dim_).

Section WithHost.
Context `{host : Host}.

(** [TensorImpl::refresh_numel] and [TensorImpl::refresh_contiguous]. *)
Definition refresh_numel (b : TensorImplBase) : TensorImplBase :=
  mkBase (key_set_ b) (sizes_and_strides_ b) (storage_offset_ b)
         (compute_numel (sizes_and_strides_ b)) (is_contiguous_ b)
         (version_counter_ b) (allow_tensor_metadata_change_ b)
         (storage_access_should_throw_ b).

Definition refresh_contiguous (b : TensorImplBase) : TensorImplBase :=
  mkBase (key_set_ b) (sizes_and_strides_ b) (storage_offset_ b)
         (numel_ b) (compute_contiguous (sizes_and_strides_ b))
         (version_counter_ b) (allow_tensor_metadata_change_ b)
         (storage_access_should_throw_ b).

(** [TensorWrapper::refreshMetadata], on the object under construction. *)
Definition TensorWrapper_refreshMetadata (tw : TensorWrapper) : M TensorWrapper :=
  w ← get_world;
  let dim_ := dim w (value_ tw) in
  let sizes_ := sizes w (value_ tw) in
  let strides_ := strides w (value_ tw) in
  let b := base_ tw in
  let b1 := mkBase (key_set_ b)
              (refresh_loop dim_ sizes_ strides_
                 (SizesAndStrides_resize (dim w (value_ tw)) (sizes_and_strides_ b)))
              (storage_offset w (value_ tw))
              (numel_ b) (is_contiguous_ b) (version_counter_ b)
              (allow_tensor_metadata_change_ b) (storage_access_should_throw_ b) in
  ret (mkWrapper (refresh_contiguous (refresh_numel b1))
                 (value_ tw) (level_ tw) (is_alive_ tw)).

(** Modelled from the spec: the base-class constructor
    [TensorImpl(key_set, dtype, device)] belongs to the host library; the
    proxy carries the key set it was given, and starts with the default
    one-dimensional empty shape and metadata changes allowed. *)
Definition TensorImpl_ctor (key_set0 : DispatchKeySet) : TensorImplBase :=
  mkBase key_set0 [(0, 1)] 0 0 true 0%nat true false.

Definition set_storage_access_should_throw (b : TensorImplBase) : TensorImplBase :=
  mkBase (key_set_ b) (sizes_and_strides_ b) (storage_offset_ b)
         (numel_ b) (is_contiguous_ b) (version_counter_ b)
         (allow_tensor_metadata_change_ b) true.

(** [TensorWrapper::TensorWrapper]: the member initialisers, then the two
    assertions, [refreshMetadata] and [set_storage_access_should_throw]. *)
Definition TensorWrapper_ctor (key_set0 : DispatchKeySet) (value0 : Tensor)
    (level0 : Z) (is_alive0 : LifeHandle) (use_value_sizes_strides : bool)
    : M TensorWrapper :=
  let this := mkWrapper (TensorImpl_ctor key_set0) value0 level0 is_alive0 in
  TORCH_INTERNAL_ASSERT (defined (value_ this)) "value_.defined()";;
  TORCH_INTERNAL_ASSERT use_value_sizes_strides "use_value_sizes_strides";;
  this1 ← TensorWrapper_refreshMetadata this;
  ret (mkWrapper (set_storage_access_should_throw (base_ this1))
                 (value_ this1) (level_ this1) (is_alive_ this1)).

(** [c10::make_intrusive<TensorWrapper>(...)]: run the constructor and
    place the object in the store. *)
Definition make_intrusive (ctor : M TensorWrapper) : M addr :=
  tw ← ctor;
  alloc_impl (WrapperImpl tw).

(** [at::detail::make_tensor<TensorWrapper>(...)]. *)
Definition make_tensor (ctor : M TensorWrapper) : M Tensor :=
  a ← make_intrusive ctor;
  ret (TensorRef a).

(** Modelled from the spec: [getKeysToPropagateToWrapper] is defined in a
    header that is not part of this file; it filters the value's own tag
    set against the mask that the caller supplies, then unions in the fixed
    set of differentiation-capable backend tags.  The is-a-proxy tag is
    added by the callers, with [add]. *)
Definition getKeysToPropagateToWrapper (w : World) (tensor : Tensor)
    (to_propagate : DispatchKeySet) : DispatchKeySet :=
  (key_set w tensor ∩ to_propagate) ∪ autograd_backend_keys.

(** [makeTensorWrapperPtr].  The constructor's last parameter,
    [use_value_sizes_strides], takes its default, [true], here and in
    [makeTensorWrapper]. *)
Definition makeTensorWrapperPtr (tensor : Tensor) (level0 : Z)
    (should_be_alive : bool) : M addr :=
  w ← get_world;
  let keys_to_propagate := kKeysToPropagateToWrapper ∪ autograd_backend_keys in
  let key_set0 := getKeysToPropagateToWrapper w tensor keys_to_propagate in
  let key_set1 := DispatchKeySet_add key_set0 kGradWrapperKey in
  if should_be_alive then
    make_intrusive
      (TensorWrapper_ctor key_set1 tensor level0 (getLifeHandleForLevel level0) true)
  else
    h ← make_shared_bool false;
    make_intrusive (TensorWrapper_ctor key_set1 tensor level0 h true).

(** [makeTensorWrapper]. *)
Definition makeTensorWrapper (tensor : Tensor) (level0 : Z) : M Tensor :=
  w ← get_world;
  match maybeGetTensorWrapper w tensor with
  | Some wrapped =>
      lvl ← TensorWrapper_level wrapped;
      TORCH_INTERNAL_ASSERT (optional_lt lvl level0) "wrapped->level() < level"
  | None => ret tt
  end;;
  let keys_to_propagate := kKeysToPropagateToWrapper ∪ autograd_backend_keys in
  let key_set0 := getKeysToPropagateToWrapper w tensor keys_to_propagate in
  let key_set1 := DispatchKeySet_add key_set0 kGradWrapperKey in
  let life_handle := getLifeHandleForLevel level0 in
  result0 ← make_tensor (TensorWrapper_ctor key_set1 tensor level0 life_handle true);
  w' ← get_world;
  TORCH_INTERNAL_ASSERT (DispatchKeySet_has (key_set w' result0) kGradWrapperKey)
    "result.key_set().has(kGradWrapperKey)";;
  ret result0.

(** [TensorImpl::set_version_counter] and
    [TensorImpl::set_allow_tensor_metadata_change]. *)
Definition set_version_counter (vc : nat) (b : TensorImplBase) : TensorImplBase :=
  mkBase (key_set_ b) (sizes_and_strides_ b) (storage_offset_ b)
         (numel_ b) (is_contiguous_ b) vc
         (allow_tensor_metadata_change_ b) (storage_access_should_throw_ b).

Definition set_allow_tensor_metadata_change (v : bool) (b : TensorImplBase) : TensorImplBase :=
  mkBase (key_set_ b) (sizes_and_strides_ b) (storage_offset_ b)
         (numel_ b) (is_contiguous_ b) (version_counter_ b)
         v (storage_access_should_throw_ b).

(** [TensorWrapper::shallow_copy_and_detach]; the overload that takes the
    version counter by rvalue reference has the same body. *)
Definition TensorWrapper_shallow_copy_and_detach (this : addr)
    (version_counter : nat) (allow_tensor_metadata_change : bool) : M addr :=
  v ← TensorWrapper_value this;
  tw ← as_wrapper this;
  alive ← TensorWrapper_is_alive this;
  dest_impl ← makeTensorWrapperPtr v (level_ tw) alive;
  update_base dest_impl (set_version_counter version_counter);;
  update_base dest_impl (set_allow_tensor_metadata_change allow_tensor_metadata_change);;
  ret dest_impl.

(** The inherited methods that the wrapper does not support. *)
Definition TensorWrapper_shallow_copy_from (this : addr) (impl : addr) : M unit :=
  TORCH_INTERNAL_ASSERT false "NYI".

Definition TensorWrapper_set_size (this : addr) (dim0 new_size : Z) : M unit :=
  TORCH_INTERNAL_ASSERT false "Can't set_size for TensorWrapper".

Definition TensorWrapper_set_stride (this : addr) (dim0 new_stride : Z) : M unit :=
  TORCH_INTERNAL_ASSERT false "Can't set_stride for TensorWrapper".

Definition TensorWrapper_set_storage_offset (this : addr) (storage_offset0 : Z) : M unit :=
  TORCH_INTERNAL_ASSERT false "Can't set_storage_offset for TensorWrapper".

(** ** The dead-wrapper fallback *)

(** Arithmetic of [size_t] and its conversion to [int64_t]. *)
Definition size_t_sub (a b : Z) : Z := (a - b) mod 2 ^ 64.

Definition to_int64 (x : Z) : Z := if bool_decide (x < 2 ^ 63) then x else x - 2 ^ 64.

(** Modelled from the spec: [foreachTensorInplace] is defined in another
    file of the repository; it scans the arguments in [begin, end) in order
    and replaces every tensor argument by [func] of it.  [s] is the state
    that the callback captures by reference. *)
Fixpoint foreachTensorInplace_loop {S : Type} (n : nat) (idx : Z)
    (func : Tensor -> S -> M (Tensor * S)) (args : list IValue) (s : S)
    : M (list IValue * S) :=
  match n with
  | O => ret (args, s)
  | Datatypes.S n' =>
      if bool_decide (0 <= idx) then
        match args !! Z.to_nat idx with
        | Some (IVTensor t) =>
            r ← func t s;
            foreachTensorInplace_loop n' (idx + 1) func
              (<[Z.to_nat idx := IVTensor r.1]> args) r.2
        | Some (IVOther _) => foreachTensorInplace_loop n' (idx + 1) func args s
        | None => undefined_behaviour
        end
      else undefined_behaviour
  end.

Definition foreachTensorInplace {S : Type} (args : list IValue) (begin end_ : Z)
    (func : Tensor -> S -> M (Tensor * S)) (s : S) : M (list IValue * S) :=
  foreachTensorInplace_loop (Z.to_nat (end_ - begin)) begin func args s.

(** The lambda of [dead_tensor_wrapper_fallback]; [unwrapped_count] is the
    counter it captures by reference. *)
Definition unwrapIfDeadAndIncrement (tensor : Tensor) (unwrapped_count : Z)
    : M (Tensor * Z) :=
  w ← get_world;
  match maybeGetTensorWrapper w tensor with
  | None => ret (tensor, unwrapped_count)
  | Some wrapped =>
      alive ← TensorWrapper_is_alive wrapped;
      if alive : bool then ret (tensor, unwrapped_count)
      else
        v ← TensorWrapper_value wrapped;
        ret (v, unwrapped_count + 1)
  end.

(** [dead_tensor_wrapper_fallback]. *)
Definition dead_tensor_wrapper_fallback (op : OperatorHandle) (stack : list IValue)
    : M (list IValue) :=
  let args_size := Z.of_nat (schema_arguments_size op) in
  let stack_size := Z.of_nat (length stack) in
  r ← foreachTensorInplace stack
        (to_int64 (size_t_sub stack_size args_size)) (to_int64 stack_size)
        unwrapIfDeadAndIncrement 0;
  TORCH_INTERNAL_ASSERT (bool_decide (r.2 > 0)) "Should have at least one dead wrapper";;
  callBoxed op r.1.

(** ** The handler of [copy_] *)

Definition copy_warning : string :=
  "The functionalization pass encountered a function that mutated its inputs                 and it was unable to preserve the mutations. Inputs to the function                 will not be mutated".

(** [copy_wrapper_tensor_]. *)
Definition copy_wrapper_tensor_ (self src : Tensor) (non_blocking : bool) : M Tensor :=
  w ← get_world;
  let self_impl := maybeGetTensorWrapper w self in
  let src_impl := maybeGetTensorWrapper w src in
  let reject : M Tensor := TORCH_WARN copy_warning;; ret self in
  match self_impl, src_impl with
  | Some self_impl, Some src_impl =>
      self_level ← TensorWrapper_level self_impl;
      src_level ← TensorWrapper_level src_impl;
      if optional_ne self_level src_level then reject
      else
        self_value ← TensorWrapper_value self_impl;
        src_value ← TensorWrapper_value src_impl;
        Tensor_copy_ self_value src_value non_blocking
  | _, _ => reject
  end.

End WithHost.

(** ** The liveness handle *)

(** Modelled from the spec: the transformation stack, which is not part of
    this file, marks a level's handle dead when its scope exits;
    [markDead] sets the flag to false. *)
Definition markDead (h : LifeHandle) : M unit :=
  fun w =>
    Ok (tt, mkWorld (impls w) (next_impl w) (<[h := false]> (flags w))
                    (next_flag w) (warnings w)).

(** ** Vocabulary of the statements *)

(** The wrapper object behind a tensor: present if the handle carries the
    wrapper key and points to a wrapper. *)
Definition proxy_view (w : World) (t : Tensor) : option TensorWrapper :=
  match maybeGetTensorWrapper w t with
  | Some a =>
      match impls w a with
      | WrapperImpl tw => Some tw
      | DenseImpl _ _ => None
      end
  | None => None
  end.

(** The cast of [maybeGetTensorWrapper] is sound for [t]: if the handle
    carries the wrapper key, the object is a wrapper. *)
Definition cast_ok (w : World) (t : Tensor) : bool :=
  match maybeGetTensorWrapper w t with
  | Some a =>
      match impls w a with
      | WrapperImpl _ => true
      | DenseImpl _ _ => false
      end
  | None => true
  end.

(** What [is_alive()] and [level()] return for a wrapper object in a
    given store. *)
Definition alive_in (w : World) (tw : TensorWrapper) : bool :=
  flags w (is_alive_ tw).

Definition level_in (w : World) (tw : TensorWrapper) : option Z :=
  if alive_in w tw then Some (level_ tw) else None.

(** The outcome of the check [wrapped->level() < level] that
    [makeTensorWrapper] makes when its argument is a wrapper. *)
Definition level_check (w : World) (t : Tensor) (l : Z) : bool :=
  match proxy_view w t with
  | Some tw => optional_lt (level_in w tw) l
  | None => true
  end.

Section Vocabulary.
Context `{host : Host}.

(** Base members of a freshly constructed wrapper of [v] with key set
    [ks]: the metadata of [v], read in store [w]. *)
Definition mirrored_base (ks : DispatchKeySet) (w : World) (v : Tensor) : TensorImplBase :=
  let ss := sizes_and_strides_ (tensor_base w v) in
  mkBase ks ss (storage_offset w v) (compute_numel ss) (compute_contiguous ss)
         0%nat true true.

(** The key set that both factories compute for a wrapper of [t]. *)
Definition wrapper_key_set (w : World) (t : Tensor) : DispatchKeySet :=
  (key_set w t ∩ (kKeysToPropagateToWrapper ∪ autograd_backend_keys))
  ∪ autograd_backend_keys ∪ {[ kGradWrapperKey ]}.

(** The cached element count and contiguity flag of a base agree with its
    sizes and strides. *)
Definition base_consistent (b : TensorImplBase) : Prop :=
  numel_ b = compute_numel (sizes_and_strides_ b)
  /\ is_contiguous_ b = compute_contiguous (sizes_and_strides_ b).

End Vocabulary.

(** [tensor.numel()] and [tensor.is_contiguous()]: the cached members. *)
Definition numel (w : World) (t : Tensor) : Z := numel_ (tensor_base w t).

Definition is_contiguous (w : World) (t : Tensor) : bool :=
  is_contiguous_ (tensor_base w t).

(** Operands of the fallback. *)
Definition operand_cast_ok (w : World) (iv : IValue) : bool :=
  match iv with
  | IVTensor t => cast_ok w t
  | IVOther _ => true
  end.

Definition is_dead_proxy (w : World) (iv : IValue) : bool :=
  match iv with
  | IVTensor t =>
      match proxy_view w t with
      | Some tw => negb (alive_in w tw)
      | None => false
      end
  | IVOther _ => false
  end.

(** What the fallback is to do with one operand: a dead proxy gives way
    to its underlying value, anything else stays. *)
Definition unwrap_if_dead (w : World) (iv : IValue) : IValue :=
  match iv with
  | IVTensor t =>
      match proxy_view w t with
      | Some tw => if alive_in w tw then iv else IVTensor (value_ tw)
      | None => iv
      end
  | IVOther _ => iv
  end.

(** Number of dead proxies among operands. *)
Definition count_dead (w : World) (ivs : list IValue) : Z :=
  foldr (fun iv n => if is_dead_proxy w iv then n + 1 else n) 0 ivs.

(** No flag that is false in [w] is true in [w']. *)
Definition keeps_dead (w w' : World) : Prop :=
  forall h, flags w h = false -> flags w' h = false.

(** The members of a wrapper that no function of the source assigns
    after construction. *)
Definition same_proxy (tw tw' : TensorWrapper) : Prop :=
  value_ tw' = value_ tw /\ level_ tw' = level_ tw /\ is_alive_ tw' = is_alive_ tw.

(** Every wrapper object of [w] is in [w'] the same wrapper, at the same
    address. *)
Definition keeps_proxies (w w' : World) : Prop :=
  (next_impl w <= next_impl w')%nat
  /\ forall a tw, (a < next_impl w)%nat -> impls w a = WrapperImpl tw ->
       exists tw', impls w' a = WrapperImpl tw' /\ same_proxy tw tw'.

Section Behaviour.
Context `{host : Host}.

(** [Tensor::copy_] returns its receiver. *)
Definition host_copy_returns_receiver : Prop :=
  forall dst src nb w r w', Tensor_copy_ dst src nb w = Ok (r, w') -> r = dst.

(** The host's entry points do not revive a liveness flag. *)
Definition host_keeps_dead : Prop :=
  (forall dst src nb w r w', Tensor_copy_ dst src nb w = Ok (r, w') -> keeps_dead w w')
  /\ (forall op st w r w', callBoxed op st w = Ok (r, w') -> keeps_dead w w').

(** The host's entry points leave the wrapper objects in place. *)
Definition host_keeps_proxies : Prop :=
  (forall dst src nb w r w', Tensor_copy_ dst src nb w = Ok (r, w') -> keeps_proxies w w')
  /\ (forall op st w r w', callBoxed op st w = Ok (r, w') -> keeps_proxies w w').

(** One call into this file, or the end of a transformation scope. *)
Inductive step : World -> World -> Prop :=
| step_markDead h w w' :
    markDead h w = Ok (tt, w') -> step w w'
| step_makeTensorWrapper t l w r w' :
    makeTensorWrapper t l w = Ok (r, w') -> step w w'
| step_makeTensorWrapperPtr t l b w a w' :
    makeTensorWrapperPtr t l b w = Ok (a, w') -> step w w'
| step_shallow_copy_and_detach this vc allow w a w' :
    TensorWrapper_shallow_copy_and_detach this vc allow w = Ok (a, w') -> step w w'
| step_copy_wrapper_tensor_ self src nb w r w' :
    copy_wrapper_tensor_ self src nb w = Ok (r, w') -> step w w'
| step_dead_tensor_wrapper_fallback op st w r w' :
    dead_tensor_wrapper_fallback op st w = Ok (r, w') -> step w w'.

(** The invariant of wrapper objects that both factories establish: the
    underlying value is defined, and a wrapper that is alive holds the
    handle of its own level. *)
Definition proxy_inv (w : World) (tw : TensorWrapper) : Prop :=
  defined (value_ tw) = true
  /\ (alive_in w tw = true -> is_alive_ tw = getLifeHandleForLevel (level_ tw)).

End Behaviour.

(** ** A host and stores for the examples *)

Definition product_of_sizes (ss : list (Z * Z)) : Z :=
  foldr (fun p acc => p.1 * acc) 1 ss.

Fixpoint row_major_from (ss_rev : list (Z * Z)) (z : Z) : bool :=
  match ss_rev with
  | [] => true
  | (size, stride) :: rest =>
      if bool_decide (size = 1) then row_major_from rest z
      else if bool_decide (stride = z) then row_major_from rest (z * size)
      else false
  end.

Definition row_major (ss : list (Z * Z)) : bool :=
  if bool_decide (product_of_sizes ss = 0) then true
  else row_major_from (rev ss) 1.

(** A [copy_] for dense tensors: overwrite the elements of the receiver
    and return the receiver, as [Tensor::copy_] does. *)
Definition dense_copy_ (dst src : Tensor) (non_blocking : bool) : M Tensor :=
  fun w =>
    match dst, src with
    | TensorRef a, TensorRef b =>
        match impls w a, impls w b with
        | DenseImpl ba _, DenseImpl _ d =>
            Ok (dst, mkWorld (<[a := DenseImpl ba d]> (impls w)) (next_impl w)
                             (flags w) (next_flag w) (warnings w))
        | _, _ => Ok (dst, w)
        end
    | _, _ => Ok (dst, w)
    end.

Definition demo_host : Host :=
  mkHost {[ CPU; CUDA; XLA; Negative; Conjugate ]} product_of_sizes row_major
         dense_copy_ (fun _ st => ret st).

Definition dense (ks : DispatchKeySet) (ss : list (Z * Z)) (data : list Z) : TensorImpl :=
  DenseImpl (mkBase ks ss 0 (product_of_sizes ss) (row_major ss) 0%nat true false) data.

(** Two dense CPU tensors of shape [2,3]; every level is alive. *)
Definition w_demo : World :=
  mkWorld
    (fun a =>
       match a with
       | O => dense {[ CPU ]} [(2, 3); (3, 1)] [1; 2; 3; 4; 5; 6]
       | _ => dense {[ CPU; AutogradCPU ]} [(2, 3); (3, 1)] [7; 8; 9; 10; 11; 12]
       end)
    2 (fun _ => true) 0 [].

(** The store of a computation that succeeds (the start store otherwise). *)
Definition store_after {A} (m : M A) (w : World) : World :=
  match m w with
  | Ok (_, w') => w'
  | _ => w
  end.

(** ** The diagnostic dump *)

(** [TensorWrapper::tensorimpl_type_name]. *)
Definition TensorWrapper_tensorimpl_type_name : string := "TensorWrapper".

(** What [dumpTensor] reads of a [BatchedTensorImpl]: [level()], [bdim()]
    and [value()]. *)
Record BatchedView : Type := mkBatched {
  batched_level : Z;
  batched_bdim : Z;
  batched_value : Tensor
}.

Definition stream_close (r : option (result string)) : option (result string) :=
  match r with
  | Some (Ok ss) => Some (Ok (ss +:+ "]"))
  | other => other
  end.

(** The stream text [ss], put in front of what a dump has written. *)
Definition stream_prefix (ss : string) (r : option (result string))
    : option (result string) :=
  match r with
  | Some (Ok out) => Some (Ok (ss +:+ out))
  | other => other
  end.

Section Dump.

(** [maybeGetBatchedImpl] is declared in [BatchedTensorImpl.h]; [show_int64]
    and [show_sizes] are [operator<<] for [int64_t] and for the
    [IntArrayRef] that [tensor.sizes()] returns. *)
Variable maybeGetBatchedImpl : Tensor -> option BatchedView.
Variable show_int64 : Z -> string.
Variable show_sizes : list Z -> string.

(** [dumpTensor]: the text of the stream [ss] after the call.  The function
    recurses through [value()]; [fuel] bounds the depth, and the result is
    [None] when it does not suffice. *)
Fixpoint dumpTensor (fuel : nat) (w : World) (ss : string) (tensor : Tensor)
    : option (result string) :=
  match fuel with
  | O => None
  | S fuel' =>
      match maybeGetTensorWrapper w tensor with
      | None =>
          match maybeGetBatchedImpl tensor with
          | Some batched =>
              let ss1 := (((ss +:+ "Batched[lvl=") +:+ show_int64 (batched_level batched))
                          +:+ " dim=") +:+ show_int64 (batched_bdim batched) in
              let ss2 := ss1 +:+ ", " in
              stream_close (dumpTensor fuel' w ss2 (batched_value batched))
          | None => Some (Ok ((ss +:+ "Tensor") +:+ show_sizes (sizes w tensor)))
          end
      | Some wrapped =>
          let ss1 := ss +:+ "Wrapper[" in
          match TensorWrapper_level wrapped w with
          | Ok (lvl, _) =>
              let ss2 :=
                match lvl with
                | Some l => ((ss1 +:+ "lvl=") +:+ show_int64 l) +:+ ", "
                | None => ss1 +:+ "dead, "
                end in
              match TensorWrapper_value wrapped w with
              | Ok (v, _) => stream_close (dumpTensor fuel' w ss2 v)
              | AssertionFailure msg => Some (AssertionFailure msg)
              | UndefinedBehaviour => Some UndefinedBehaviour
              end
          | AssertionFailure msg => Some (AssertionFailure msg)
          | UndefinedBehaviour => Some UndefinedBehaviour
          end
      end
  end.

(** [dumpTensorCout]: the dump, then [std::endl]. *)
Definition dumpTensorCout (fuel : nat) (w : World) (cout : string) (tensor : Tensor)
    : option (result string) :=
  match dumpTensor fuel w cout tensor with
  | Some (Ok ss) => Some (Ok (ss +:+ String (Ascii.ascii_of_nat 10) EmptyString))
  | other => other
  end.

(** What the dump writes for the level of a wrapper. *)
Definition level_text (lvl : option Z) : string :=
  match lvl with
  | Some l => "lvl=" +:+ show_int64 l +:+ ", "
  | None => "dead, "
  end.

End Dump.

(** ** Shape of the store *)

(** Age of a tensor handle: objects are allocated at increasing
    addresses. *)
Definition rank (t : Tensor) : nat :=
  match t with
  | UndefinedTensor => 0
  | TensorRef a => S a
  end.

(** The handle points to an object that has been allocated. *)
Definition allocated (w : World) (t : Tensor) : Prop :=
  (rank t <= next_impl w)%nat.

(** Every wrapper in the store wraps a defined tensor that is older than
    itself, and only wrappers carry the wrapper key. *)
Definition store_ok (w : World) : Prop :=
  (forall a tw, (a < next_impl w)%nat -> impls w a = WrapperImpl tw ->
     defined (value_ tw) = true /\ (rank (value_ tw) <= a)%nat)
  /\ (forall a, (a < next_impl w)%nat -> cast_ok w (TensorRef a) = true).

(** The value of a batched tensor is older than the tensor. *)
Definition batched_older (maybeGetBatchedImpl : Tensor -> option BatchedView) : Prop :=
  forall t bv, maybeGetBatchedImpl t = Some bv -> (rank (batched_value bv) < rank t)%nat.

(** Printers for the examples: decimal integers, and [[a, b, c]] for
    sizes. *)
Definition show_decimal (z : Z) : string :=
  DecimalString.NilZero.string_of_int (Z.to_int z).

Fixpoint show_list_from (first : bool) (l : list Z) : string :=
  match l with
  | [] => ""
  | x :: rest =>
      (if first then "" else ", ") +:+ show_decimal x +:+ show_list_from false rest
  end.

Definition show_array (l : list Z) : string := "[" +:+ show_list_from true l +:+ "]".

(** * Properties *)

(** ** Running computations *)

Ltac unfold_monad :=
  unfold TORCH_INTERNAL_ASSERT in *;
  unfold mbind, M_bind, bind, mret, M_ret, ret, get_world,
    fail_assert, undefined_behaviour in *.

Lemma bind_Ok {A B} (m : M A) (k : A -> M B) (w w' : World) (a : A) :
  m w = Ok (a, w') -> (m ≫= k) w = k a w'.
Proof. intros Hm. unfold_monad. by rewrite Hm. Qed.

Lemma bind_AssertionFailure {A B} (m : M A) (k : A -> M B) (w : World) msg :
  m w = AssertionFailure msg -> (m ≫= k) w = AssertionFailure msg.
Proof. intros Hm. unfold_monad. by rewrite Hm. Qed.

(** ** The mirroring loop *)

Lemma SizesAndStrides_resize_length (n : nat) (ss : list (Z * Z)) :
  length (SizesAndStrides_resize n ss) = n.
Proof.
  unfold SizesAndStrides_resize.
  rewrite length_app, length_take, length_replicate. lia.
Qed.

Lemma refresh_step_length (i : nat) (a b : Z) (acc : list (Z * Z)) :
  length (set_stride_at i b (set_size_at i a acc)) = length acc.
Proof. unfold set_stride_at, set_size_at. by rewrite !length_alter. Qed.

Lemma refresh_loop_length (k : nat) (ss1 ss2 : list Z) (acc : list (Z * Z)) :
  length (refresh_loop k ss1 ss2 acc) = length acc.
Proof.
  unfold refresh_loop. generalize 0%nat. revert acc.
  induction k as [|k IH]; intros acc s; simpl; [done|].
  by rewrite IH, refresh_step_length.
Qed.

(** After [k] rounds the first [k] entries are those of the source and the
    others are untouched. *)
Lemma refresh_loop_lookup (ss acc : list (Z * Z)) (k i : nat) :
  (k <= length ss)%nat -> length acc = length ss ->
  refresh_loop k ss.*1 ss.*2 acc !! i
  = if decide (i < k)%nat then ss !! i else acc !! i.
Proof.
  intros Hk Hlen. induction k as [|k IH].
  - unfold refresh_loop. simpl. destruct (decide (i < 0)%nat); [lia | done].
  - unfold refresh_loop in *. rewrite seq_S, foldl_app. simpl.
    set (prev := foldl _ acc (seq 0 k)) in *.
    assert (Hprev : length prev = length ss).
    { subst prev. rewrite <- Hlen. apply (refresh_loop_length k ss.*1 ss.*2 acc). }
    specialize (IH ltac:(lia)).
    unfold set_stride_at, set_size_at.
    destruct (decide (i = k)) as [->|Hne].
    + rewrite decide_True by lia.
      destruct (lookup_lt_is_Some_2 ss k ltac:(lia)) as [[a b] Hab].
      destruct (lookup_lt_is_Some_2 prev k ltac:(lia)) as [[c d] Hcd].
      rewrite !list_lookup_alter, Hcd. simpl.
      assert (H1 : ss.*1 !!! k = a)
        by (apply list_lookup_total_correct; by rewrite list_lookup_fmap, Hab).
      assert (H2 : ss.*2 !!! k = b)
        by (apply list_lookup_total_correct; by rewrite list_lookup_fmap, Hab).
      rewrite H1, H2, Hab, !decide_True by done. done.
    + rewrite !list_lookup_alter_ne by done.
      rewrite IH. repeat case_decide; (done || lia).
Qed.

Lemma refresh_loop_mirror (ss acc : list (Z * Z)) :
  length acc = length ss ->
  refresh_loop (length ss) ss.*1 ss.*2 acc = ss.
Proof.
  intros Hlen. apply list_eq. intros i.
  rewrite refresh_loop_lookup by (done || lia).
  case_decide as Hi; [done|].
  rewrite !lookup_ge_None_2; (done || lia).
Qed.

(** ** Construction *)

Section Construction.
Context `{host : Host}.

Lemma TensorWrapper_refreshMetadata_spec (tw : TensorWrapper) (w : World) :
  TensorWrapper_refreshMetadata tw w
  = Ok (mkWrapper
          (mkBase (key_set_ (base_ tw))
                  (sizes_and_strides_ (tensor_base w (value_ tw)))
                  (storage_offset w (value_ tw))
                  (compute_numel (sizes_and_strides_ (tensor_base w (value_ tw))))
                  (compute_contiguous (sizes_and_strides_ (tensor_base w (value_ tw))))
                  (version_counter_ (base_ tw))
                  (allow_tensor_metadata_change_ (base_ tw))
                  (storage_access_should_throw_ (base_ tw)))
          (value_ tw) (level_ tw) (is_alive_ tw), w).
Proof.
  unfold TensorWrapper_refreshMetadata. unfold_monad.
  unfold refresh_contiguous, refresh_numel, dim, sizes, strides. simpl.
  rewrite refresh_loop_mirror by apply SizesAndStrides_resize_length.
  reflexivity.
Qed.

(** The constructor in closed form. *)
Lemma TensorWrapper_ctor_spec (ks : DispatchKeySet) (v : Tensor) (l : Z)
    (h : LifeHandle) (use_value_sizes_strides : bool) (w : World) :
  TensorWrapper_ctor ks v l h use_value_sizes_strides w
  = if defined v then
      if use_value_sizes_strides
      then Ok (mkWrapper (mirrored_base ks w v) v l h, w)
      else AssertionFailure "use_value_sizes_strides"
    else AssertionFailure "value_.defined()".
Proof.
  unfold TensorWrapper_ctor. cbn [value_].
  destruct (defined v), use_value_sizes_strides;
    unfold_monad; cbv beta iota; try reflexivity.
  rewrite TensorWrapper_refreshMetadata_spec. reflexivity.
Qed.

(** Member functions, called on an object that is a wrapper. *)
Lemma as_wrapper_ok (a : addr) (tw : TensorWrapper) (w : World) :
  impls w a = WrapperImpl tw -> as_wrapper a w = Ok (tw, w).
Proof. intros Ha. unfold as_wrapper. by rewrite Ha. Qed.

Lemma TensorWrapper_is_alive_ok (a : addr) (tw : TensorWrapper) (w : World) :
  impls w a = WrapperImpl tw -> TensorWrapper_is_alive a w = Ok (alive_in w tw, w).
Proof.
  intros Ha. unfold TensorWrapper_is_alive.
  rewrite (bind_Ok _ _ _ _ _ (as_wrapper_ok _ _ _ Ha)). reflexivity.
Qed.

Lemma TensorWrapper_value_ok (a : addr) (tw : TensorWrapper) (w : World) :
  impls w a = WrapperImpl tw -> TensorWrapper_value a w = Ok (value_ tw, w).
Proof.
  intros Ha. unfold TensorWrapper_value.
  rewrite (bind_Ok _ _ _ _ _ (as_wrapper_ok _ _ _ Ha)). reflexivity.
Qed.

Lemma TensorWrapper_level_ok (a : addr) (tw : TensorWrapper) (w : World) :
  impls w a = WrapperImpl tw -> TensorWrapper_level a w = Ok (level_in w tw, w).
Proof.
  intros Ha. unfold TensorWrapper_level.
  rewrite (bind_Ok _ _ _ _ _ (TensorWrapper_is_alive_ok _ _ _ Ha)).
  rewrite (bind_Ok _ _ _ _ _ (as_wrapper_ok _ _ _ Ha)). reflexivity.
Qed.

Lemma cast_ok_view (w : World) (t : Tensor) (a : addr) :
  cast_ok w t = true -> maybeGetTensorWrapper w t = Some a ->
  exists tw, impls w a = WrapperImpl tw /\ proxy_view w t = Some tw.
Proof.
  unfold cast_ok, proxy_view. intros Hc Hm. rewrite Hm in *.
  destruct (impls w a) as [|tw]; [done|]. by exists tw.
Qed.

Lemma proxy_view_None (w : World) (t : Tensor) :
  maybeGetTensorWrapper w t = None -> proxy_view w t = None.
Proof. unfold proxy_view. by intros ->. Qed.

Lemma wrapper_key_set_has_key (w : World) (t : Tensor) :
  DispatchKeySet_has (wrapper_key_set w t) kGradWrapperKey = true.
Proof.
  unfold DispatchKeySet_has, wrapper_key_set.
  apply bool_decide_eq_true_2. set_solver.
Qed.

(** [makeTensorWrapperPtr] in closed form. *)
Lemma makeTensorWrapperPtr_spec (t : Tensor) (l : Z) (should_be_alive : bool) (w : World) :
  makeTensorWrapperPtr t l should_be_alive w
  = if defined t then
      if should_be_alive then
        Ok (next_impl w,
            install w (WrapperImpl
              (mkWrapper (mirrored_base (wrapper_key_set w t) w t) t l (LevelHandle l))))
      else
        Ok (next_impl w,
            install (new_cell w false) (WrapperImpl
              (mkWrapper (mirrored_base (wrapper_key_set w t) w t) t l
                         (OwnedHandle (next_flag w)))))
    else AssertionFailure "value_.defined()".
Proof.
  unfold makeTensorWrapperPtr, make_intrusive, make_shared_bool, alloc_impl,
    getKeysToPropagateToWrapper, DispatchKeySet_add, getLifeHandleForLevel.
  unfold_monad. cbv beta iota.
  destruct should_be_alive; rewrite TensorWrapper_ctor_spec;
    destruct (defined t); reflexivity.
Qed.

(** [makeTensorWrapper] in closed form. *)
Lemma makeTensorWrapper_spec (t : Tensor) (l : Z) (w : World) :
  cast_ok w t = true ->
  makeTensorWrapper t l w
  = if level_check w t l then
      if defined t then
        Ok (TensorRef (next_impl w),
            install w (WrapperImpl
              (mkWrapper (mirrored_base (wrapper_key_set w t) w t) t l (LevelHandle l))))
      else AssertionFailure "value_.defined()"
    else AssertionFailure "wrapped->level() < level".
Proof.
  intros Hcast.
  assert (Hcheck :
    (match maybeGetTensorWrapper w t with
     | Some wrapped =>
         lvl ← TensorWrapper_level wrapped;
         TORCH_INTERNAL_ASSERT (optional_lt lvl l) "wrapped->level() < level"
     | None => ret ()
     end) w
    = if level_check w t l then Ok (tt, w)
      else AssertionFailure "wrapped->level() < level").
  { unfold level_check.
    destruct (maybeGetTensorWrapper w t) as [a|] eqn:Hm.
    - destruct (cast_ok_view _ _ _ Hcast Hm) as (tw & Ha & ->).
      rewrite (bind_Ok _ _ _ _ _ (TensorWrapper_level_ok _ _ _ Ha)).
      unfold_monad. by destruct (optional_lt _ _).
    - by rewrite proxy_view_None. }
  unfold makeTensorWrapper.
  unfold mbind at 1. unfold M_bind, bind at 1. unfold get_world at 1.
  cbv beta iota.
  destruct (level_check w t l).
  - rewrite (bind_Ok _ _ _ _ _ Hcheck).
    unfold make_tensor, make_intrusive, alloc_impl,
      getKeysToPropagateToWrapper, DispatchKeySet_add, getLifeHandleForLevel.
    unfold mbind at 1. unfold M_bind, bind at 1.
    unfold mbind at 1. unfold M_bind, bind at 1.
    unfold mbind at 1. unfold M_bind, bind at 1.
    rewrite TensorWrapper_ctor_spec.
    destruct (defined t); [|reflexivity].
    unfold_monad. cbv beta iota.
    replace (key_set _ (TensorRef (next_impl w))) with (wrapper_key_set w t).
    + by rewrite wrapper_key_set_has_key.
    + unfold key_set, tensor_base, install. cbn [impls].
      by rewrite fn_lookup_insert.
  - by rewrite (bind_AssertionFailure _ _ _ _ Hcheck).
Qed.

(** A member access through a bad cast is undefined behaviour. *)
Lemma makeTensorWrapper_bad_cast (t : Tensor) (l : Z) (w : World) :
  cast_ok w t = false -> makeTensorWrapper t l w = UndefinedBehaviour.
Proof.
  unfold cast_ok. intros Hc.
  destruct (maybeGetTensorWrapper w t) as [a|] eqn:Hm; [|done].
  destruct (impls w a) as [b d|] eqn:Ha; [|done].
  unfold makeTensorWrapper.
  unfold mbind at 1. unfold M_bind, bind at 1. unfold get_world at 1.
  cbv beta iota. rewrite Hm.
  unfold TensorWrapper_level, TensorWrapper_is_alive, as_wrapper.
  unfold_monad. by rewrite Ha.
Qed.

Lemma makeTensorWrapper_Ok_inv (t : Tensor) (l : Z) (w w' : World) (r : Tensor) :
  makeTensorWrapper t l w = Ok (r, w') ->
  cast_ok w t = true /\ level_check w t l = true /\ defined t = true
  /\ r = TensorRef (next_impl w)
  /\ w' = install w (WrapperImpl
             (mkWrapper (mirrored_base (wrapper_key_set w t) w t) t l (LevelHandle l))).
Proof.
  intros Hok.
  destruct (cast_ok w t) eqn:Hc;
    [|by rewrite (makeTensorWrapper_bad_cast _ _ _ Hc) in Hok].
  rewrite (makeTensorWrapper_spec _ _ _ Hc) in Hok.
  destruct (level_check w t l), (defined t); try done.
  by inversion Hok.
Qed.

(** The tensor that [install] has just put into the store, seen through
    [maybeGetTensorWrapper]. *)
Lemma view_of_installed (w : World) (tw : TensorWrapper) :
  DispatchKeySet_has (key_set_ (base_ tw)) kGradWrapperKey = true ->
  impls (install w (WrapperImpl tw)) (next_impl w) = WrapperImpl tw
  /\ maybeGetTensorWrapper (install w (WrapperImpl tw)) (TensorRef (next_impl w))
     = Some (next_impl w)
  /\ proxy_view (install w (WrapperImpl tw)) (TensorRef (next_impl w)) = Some tw
  /\ cast_ok (install w (WrapperImpl tw)) (TensorRef (next_impl w)) = true.
Proof.
  intros Hkey.
  assert (Hi : impls (install w (WrapperImpl tw)) (next_impl w) = WrapperImpl tw)
    by (unfold install; cbn [impls]; apply fn_lookup_insert).
  assert (Hm : maybeGetTensorWrapper (install w (WrapperImpl tw))
                 (TensorRef (next_impl w)) = Some (next_impl w)).
  { unfold maybeGetTensorWrapper, key_set, tensor_base. by rewrite Hi; cbn; rewrite Hkey. }
  unfold proxy_view, cast_ok. by rewrite Hm, Hi.
Qed.

Lemma maybeGetTensorWrapper_None (w : World) (t : Tensor) :
  maybeGetTensorWrapper w t = None
  <-> DispatchKeySet_has (key_set w t) kGradWrapperKey = false.
Proof.
  unfold maybeGetTensorWrapper.
  destruct (DispatchKeySet_has (key_set w t) kGradWrapperKey) eqn:Hk; cbn.
  - destruct t as [|a]; [|done].
    unfold key_set, DispatchKeySet_has in Hk. cbn in Hk.
    apply bool_decide_eq_true_1 in Hk. set_solver.
  - done.
Qed.

(** C10: if [makeTensorWrapper v l] succeeds, the key set of its result has
    the wrapper key, so [maybeGetTensorWrapper] of the result is a non-null
    pointer to a wrapper whose [value()] is [v] and whose stored level is
    [l]; and [maybeGetTensorWrapper] returns null exactly for the tensors
    whose key set lacks the wrapper key. *)
Theorem C10_wrap_then_view (v : Tensor) (l : Z) (w w' : World) (r : Tensor) :
  makeTensorWrapper v l w = Ok (r, w') ->
  (exists a tw,
      DispatchKeySet_has (key_set w' r) kGradWrapperKey = true
      /\ maybeGetTensorWrapper w' r = Some a
      /\ impls w' a = WrapperImpl tw
      /\ TensorWrapper_value a w' = Ok (v, w')
      /\ value_ tw = v /\ level_ tw = l)
  /\ (forall w0 t,
        maybeGetTensorWrapper w0 t = None
        <-> DispatchKeySet_has (key_set w0 t) kGradWrapperKey = false).
Proof.
  intros Hok. split; [|apply maybeGetTensorWrapper_None].
  destruct (makeTensorWrapper_Ok_inv _ _ _ _ _ Hok) as (_ & _ & _ & -> & ->).
  set (tw := mkWrapper _ v l _).
  assert (Hkey : DispatchKeySet_has (key_set_ (base_ tw)) kGradWrapperKey = true)
    by apply wrapper_key_set_has_key.
  destruct (view_of_installed w tw Hkey) as (Hi & Hm & _ & _).
  exists (next_impl w), tw. repeat split; try done.
  - unfold key_set, tensor_base. by rewrite Hi.
  - by rewrite (TensorWrapper_value_ok _ _ _ Hi).
Qed.

Lemma level_check_false (w : World) (t : Tensor) (l : Z) :
  level_check w t l = false
  <-> exists tw, proxy_view w t = Some tw /\ alive_in w tw = true /\ ~ level_ tw < l.
Proof.
  unfold level_check, level_in. split.
  - destruct (proxy_view w t) as [tw|]; [|done].
    destruct (alive_in w tw) eqn:Ha; cbn; [|done].
    intros Hlt. exists tw. repeat split; try done.
    by apply bool_decide_eq_false_1 in Hlt.
  - intros (tw & -> & -> & Hlt). cbn. by apply bool_decide_eq_false_2.
Qed.

Lemma level_check_mono (w : World) (t : Tensor) (l1 l2 : Z) :
  l1 < l2 -> level_check w t l1 = true -> level_check w t l2 = true.
Proof.
  unfold level_check, level_in. intros Hlt.
  destruct (proxy_view w t) as [tw|]; [|done].
  destruct (alive_in w tw); cbn; [|done].
  intros H%bool_decide_eq_true_1. apply bool_decide_eq_true_2. lia.
Qed.

(** Wrapping the tensor that a first wrap at level [l] has produced. *)
Lemma makeTensorWrapper_again (t : Tensor) (l l' : Z) (w w1 : World) (r1 : Tensor) :
  makeTensorWrapper t l w = Ok (r1, w1) ->
  makeTensorWrapper r1 l' w1
  = if optional_lt (if flags w (LevelHandle l) then Some l else None) l'
    then Ok (TensorRef (next_impl w1),
             install w1 (WrapperImpl
               (mkWrapper (mirrored_base (wrapper_key_set w1 r1) w1 r1) r1 l'
                          (LevelHandle l'))))
    else AssertionFailure "wrapped->level() < level".
Proof.
  intros Hok.
  destruct (makeTensorWrapper_Ok_inv _ _ _ _ _ Hok) as (_ & _ & _ & -> & ->).
  set (tw := mkWrapper _ t l _).
  assert (Hkey : DispatchKeySet_has (key_set_ (base_ tw)) kGradWrapperKey = true)
    by apply wrapper_key_set_has_key.
  destruct (view_of_installed w tw Hkey) as (_ & _ & Hv & Hc).
  rewrite (makeTensorWrapper_spec _ _ _ Hc).
  unfold level_check. rewrite Hv. reflexivity.
Qed.

(** C1 (amended): the constructor fails its assertions exactly when the
    underlying tensor is undefined or the use-value-sizes flag is false;
    [makeTensorWrapper] fails an assertion exactly when the underlying
    tensor is undefined or is a wrapper whose [level()] is not strictly
    less than the new level: an alive inner wrapper of a level that is not
    below the new one is rejected, and a dead inner wrapper, whose
    [level()] is absent, passes the check whatever level it was created
    at; it succeeds otherwise, given that the wrapper key sits on a wrapper
    object.  For a value [v] that can be wrapped at [l1], and [l1 < l2]:
    wrapping at [l1] and then at [l2] succeeds, while wrapping at [l2] and
    then at [l1], the wrapper of [l2] being alive as it is created, fails
    the level assertion. *)
Theorem C1_construction_assertions (ks : DispatchKeySet) (h : LifeHandle)
    (use_value_sizes_strides : bool) (t v : Tensor) (l l1 l2 : Z) (w : World) :
  (is_AssertionFailure (TensorWrapper_ctor ks t l h use_value_sizes_strides w)
     = negb (defined t) || negb use_value_sizes_strides
   /\ is_Ok (TensorWrapper_ctor ks t l h use_value_sizes_strides w)
     = defined t && use_value_sizes_strides)
  /\ (is_AssertionFailure (makeTensorWrapper t l w) = true
      <-> defined t = false
          \/ exists tw, proxy_view w t = Some tw
                        /\ alive_in w tw = true /\ ~ level_ tw < l)
  /\ is_Ok (makeTensorWrapper t l w)
     = cast_ok w t && negb (is_AssertionFailure (makeTensorWrapper t l w))
  /\ (l1 < l2 ->
      defined v = true -> cast_ok w v = true -> level_check w v l1 = true ->
      (exists r1 w1 r2 w2,
          makeTensorWrapper v l1 w = Ok (r1, w1)
          /\ makeTensorWrapper r1 l2 w1 = Ok (r2, w2))
      /\ (flags w (getLifeHandleForLevel l2) = true ->
          exists r2 w2,
            makeTensorWrapper v l2 w = Ok (r2, w2)
            /\ makeTensorWrapper r2 l1 w2
               = AssertionFailure "wrapped->level() < level")).
Proof.
  split; [|split; [|split]].
  - rewrite TensorWrapper_ctor_spec.
    by destruct (defined t), use_value_sizes_strides.
  - destruct (cast_ok w t) eqn:Hct.
    + rewrite (makeTensorWrapper_spec _ _ _ Hct).
      destruct (level_check w t l) eqn:Hl.
      * destruct (defined t); cbn; split; try done; try (by left).
        intros [?|Hex]; [done|].
        apply level_check_false in Hex. congruence.
      * cbn. split; [|done]. intros _. right. by apply level_check_false.
    + rewrite (makeTensorWrapper_bad_cast _ _ _ Hct). cbn. split; [done|].
      unfold cast_ok, proxy_view in *.
      intros [Hd|(tw & Hv & _)].
      * destruct t; [|done]. unfold maybeGetTensorWrapper in Hct.
        by destruct (negb _).
      * destruct (maybeGetTensorWrapper w t) as [a|]; [|done].
        by destruct (impls w a).
  - destruct (cast_ok w t) eqn:Hct.
    + rewrite (makeTensorWrapper_spec _ _ _ Hct).
      by destruct (level_check w t l), (defined t).
    + by rewrite (makeTensorWrapper_bad_cast _ _ _ Hct).
  - intros Hlt Hdv Hcv Hlv. split.
    + pose proof (makeTensorWrapper_spec v l1 w Hcv) as H1.
      rewrite Hlv, Hdv in H1.
      pose proof (makeTensorWrapper_again _ _ l2 _ _ _ H1) as H2.
      replace (optional_lt _ l2) with true in H2.
      * eexists _, _, _, _. split; [exact H1 | exact H2].
      * destruct (flags w (LevelHandle l1)); cbn; [|done].
        symmetry. apply bool_decide_eq_true_2. lia.
    + intros Hlive.
      pose proof (makeTensorWrapper_spec v l2 w Hcv) as H1.
      rewrite (level_check_mono _ _ _ _ Hlt Hlv), Hdv in H1.
      pose proof (makeTensorWrapper_again _ _ l1 _ _ _ H1) as H2.
      unfold getLifeHandleForLevel in Hlive. rewrite Hlive in H2. cbn in H2.
      rewrite bool_decide_eq_false_2 in H2 by lia.
      eexists _, _. split; [exact H1 | exact H2].
Qed.

Lemma makeTensorWrapperPtr_Ok_inv (t : Tensor) (l : Z) (b : bool) (w w' : World) (a : addr) :
  makeTensorWrapperPtr t l b w = Ok (a, w') ->
  defined t = true /\ a = next_impl w
  /\ exists h w0,
       w' = install w0 (WrapperImpl
              (mkWrapper (mirrored_base (wrapper_key_set w t) w t) t l h))
       /\ next_impl w0 = next_impl w
       /\ (if b then h = getLifeHandleForLevel l /\ w0 = w
           else h = OwnedHandle (next_flag w) /\ w0 = new_cell w false).
Proof.
  rewrite makeTensorWrapperPtr_spec.
  destruct (defined t); [|done].
  destruct b; intros [= <- <-]; (split; [done|split; [done|]]);
    eexists _, _; (split; [reflexivity|by split]).
Qed.

Lemma key_set_installed (w : World) (tw : TensorWrapper) :
  key_set (install w (WrapperImpl tw)) (TensorRef (next_impl w)) = key_set_ (base_ tw).
Proof.
  unfold key_set, tensor_base, install. cbn [impls]. by rewrite fn_lookup_insert.
Qed.

(** C5: the key set of a wrapper is the key set of the wrapped value,
    filtered against the mask that the factory supplies (the propagation
    mask joined with the three Autograd backend keys; filtering against the
    propagation mask alone gives the same set), unioned with the three
    Autograd backend keys and with the wrapper key.  It always has the
    Autograd backend keys and the wrapper key.  Both factories compute it
    in the same way at every construction, from the key set of the value
    alone. *)
Theorem C5_wrapper_key_set (t : Tensor) (l : Z) (w w' : World) (r : Tensor) :
  makeTensorWrapper t l w = Ok (r, w') ->
  key_set w' r
  = (key_set w t ∩ (kKeysToPropagateToWrapper ∪ autograd_backend_keys))
    ∪ autograd_backend_keys ∪ {[ kGradWrapperKey ]}
  /\ key_set w' r
     = (key_set w t ∩ kKeysToPropagateToWrapper)
       ∪ autograd_backend_keys ∪ {[ kGradWrapperKey ]}
  /\ DispatchKeySet_has (key_set w' r) kGradWrapperKey = true
  /\ (forall k, k ∈ autograd_backend_keys ->
        DispatchKeySet_has (key_set w' r) k = true)
  /\ (forall l2 b w2 a2 w2',
        makeTensorWrapperPtr t l2 b w2 = Ok (a2, w2') ->
        key_set w2 t = key_set w t ->
        key_set w2' (TensorRef a2) = key_set w' r)
  /\ (forall l2 w2 r2 w2',
        makeTensorWrapper t l2 w2 = Ok (r2, w2') ->
        key_set w2 t = key_set w t ->
        key_set w2' r2 = key_set w' r).
Proof.
  intros Hok.
  destruct (makeTensorWrapper_Ok_inv _ _ _ _ _ Hok) as (_ & _ & _ & -> & ->).
  rewrite key_set_installed. cbn [base_ mirrored_base key_set_].
  unfold wrapper_key_set.
  split; [done|]. split; [|split; [|split; [|split]]].
  - apply set_eq. intros k.
    repeat (rewrite elem_of_union || rewrite elem_of_intersection). tauto.
  - apply bool_decide_eq_true_2.
    apply elem_of_union_r. by apply elem_of_singleton.
  - intros k Hk. apply bool_decide_eq_true_2.
    apply elem_of_union_l. by apply elem_of_union_r.
  - intros l2 b w2 a2 w2' Hp Hks.
    destruct (makeTensorWrapperPtr_Ok_inv _ _ _ _ _ _ Hp)
      as (_ & -> & h & w0 & -> & <- & _).
    rewrite key_set_installed. cbn [base_ mirrored_base key_set_].
    unfold wrapper_key_set. by rewrite Hks.
  - intros l2 w2 r2 w2' Hm Hks.
    destruct (makeTensorWrapper_Ok_inv _ _ _ _ _ Hm) as (_ & _ & _ & -> & ->).
    rewrite key_set_installed. cbn [base_ mirrored_base key_set_].
    unfold wrapper_key_set. by rewrite Hks.
Qed.


(** When the cached members of the wrapped value agree with its sizes and
    strides, the mirrored element count and contiguity flag are those that
    the value itself reports. *)
Corollary mirrored_cached_members (v : Tensor) (l : Z) (w w' : World) (r : Tensor) :
  makeTensorWrapper v l w = Ok (r, w') ->
  base_consistent (tensor_base w v) ->
  numel w' r = numel w v /\ is_contiguous w' r = is_contiguous w v.
Proof.
  intros Hok [Hn Hc].
  destruct (makeTensorWrapper_Ok_inv _ _ _ _ _ Hok) as (_ & _ & _ & -> & ->).
  unfold numel, is_contiguous, tensor_base at 1 3.
  unfold install. cbn [impls]. rewrite !fn_lookup_insert. cbn.
  by rewrite Hn, Hc.
Qed.

(** C7: [set_size], [set_stride], [set_storage_offset] and
    [shallow_copy_from] fail their assertion for every wrapper, every
    argument and every store; no store results from the call. *)
Theorem C7_unsupported_mutators (this impl : addr) (d x : Z) (w : World) :
  TensorWrapper_set_size this d x w
    = AssertionFailure "Can't set_size for TensorWrapper"
  /\ TensorWrapper_set_stride this d x w
    = AssertionFailure "Can't set_stride for TensorWrapper"
  /\ TensorWrapper_set_storage_offset this x w
    = AssertionFailure "Can't set_storage_offset for TensorWrapper"
  /\ TensorWrapper_shallow_copy_from this impl w = AssertionFailure "NYI"
  /\ (forall w', TensorWrapper_set_size this d x w <> Ok (tt, w')
               /\ TensorWrapper_set_stride this d x w <> Ok (tt, w')
               /\ TensorWrapper_set_storage_offset this x w <> Ok (tt, w')
               /\ TensorWrapper_shallow_copy_from this impl w <> Ok (tt, w')).
Proof. by repeat split. Qed.

End Construction.

(** ** The handler of [copy_] *)

Section CopyHandler.
Context `{host : Host}.

Lemma proxy_view_Some (w : World) (t : Tensor) (tw : TensorWrapper) :
  proxy_view w t = Some tw ->
  exists a, maybeGetTensorWrapper w t = Some a /\ impls w a = WrapperImpl tw.
Proof.
  unfold proxy_view.
  destruct (maybeGetTensorWrapper w t) as [a|]; [|done].
  destruct (impls w a) as [|tw'] eqn:Ha; [done|].
  intros [= ->]. by exists a.
Qed.

(** [copy_wrapper_tensor_] in closed form. *)
Lemma copy_wrapper_tensor__spec (self src : Tensor) (nb : bool) (w : World) :
  cast_ok w self = true -> cast_ok w src = true ->
  copy_wrapper_tensor_ self src nb w
  = match proxy_view w self, proxy_view w src with
    | Some a, Some b =>
        if optional_ne (level_in w a) (level_in w b)
        then Ok (self, warned w copy_warning)
        else Tensor_copy_ (value_ a) (value_ b) nb w
    | _, _ => Ok (self, warned w copy_warning)
    end.
Proof.
  intros Hc1 Hc2. unfold copy_wrapper_tensor_.
  unfold mbind at 1. unfold M_bind, bind at 1. unfold get_world at 1.
  cbv beta iota zeta.
  destruct (maybeGetTensorWrapper w self) as [a|] eqn:Hm1.
  - destruct (cast_ok_view _ _ _ Hc1 Hm1) as (twa & Ha & ->).
    destruct (maybeGetTensorWrapper w src) as [b|] eqn:Hm2.
    + destruct (cast_ok_view _ _ _ Hc2 Hm2) as (twb & Hb & ->).
      rewrite (bind_Ok _ _ _ _ _ (TensorWrapper_level_ok _ _ _ Ha)).
      rewrite (bind_Ok _ _ _ _ _ (TensorWrapper_level_ok _ _ _ Hb)).
      destruct (optional_ne _ _); [reflexivity|].
      rewrite (bind_Ok _ _ _ _ _ (TensorWrapper_value_ok _ _ _ Ha)).
      by rewrite (bind_Ok _ _ _ _ _ (TensorWrapper_value_ok _ _ _ Hb)).
    + by rewrite (proxy_view_None _ _ Hm2).
  - by rewrite (proxy_view_None _ _ Hm1).
Qed.

Lemma proxy_view_cast_ok (w : World) (t : Tensor) (tw : TensorWrapper) :
  proxy_view w t = Some tw -> cast_ok w t = true.
Proof.
  intros (a & Hm & Ha)%proxy_view_Some. unfold cast_ok. by rewrite Hm, Ha.
Qed.

(** The soft rejection: when an operand is not a wrapper, or the two
    [level()] values differ, the handler warns and returns [self]; no
    object and no flag changes. *)
Lemma copy_wrapper_tensor__rejects (self src : Tensor) (nb : bool) (w : World) :
  cast_ok w self = true -> cast_ok w src = true ->
  (proxy_view w self = None \/ proxy_view w src = None
   \/ exists a b, proxy_view w self = Some a /\ proxy_view w src = Some b
                  /\ level_in w a <> level_in w b) ->
  copy_wrapper_tensor_ self src nb w = Ok (self, warned w copy_warning)
  /\ impls (warned w copy_warning) = impls w
  /\ flags (warned w copy_warning) = flags w
  /\ warnings (warned w copy_warning) = warnings w ++ [copy_warning].
Proof.
  intros Hc1 Hc2 Hcase. rewrite copy_wrapper_tensor__spec by done.
  repeat split.
  destruct Hcase as [->| [Hs | (a & b & -> & -> & Hne)]]; [done| |].
  - rewrite Hs. by destruct (proxy_view w self).
  - unfold optional_ne. by rewrite bool_decide_eq_false_2.
Qed.

(** Same [level()] on both sides: the handler is the host's [copy_] on the
    two underlying values, and returns what that call returns. *)
Lemma copy_wrapper_tensor__copies (self src : Tensor) (nb : bool) (w : World)
    (a b : TensorWrapper) :
  proxy_view w self = Some a -> proxy_view w src = Some b ->
  level_in w a = level_in w b ->
  copy_wrapper_tensor_ self src nb w = Tensor_copy_ (value_ a) (value_ b) nb w.
Proof.
  intros Ha Hb Heq.
  rewrite copy_wrapper_tensor__spec by eauto using proxy_view_cast_ok.
  rewrite Ha, Hb. unfold optional_ne. by rewrite bool_decide_eq_true_2.
Qed.

(** With a [copy_] that returns its receiver, the handler returns the
    underlying value of [self] when it copies. *)
Lemma copy_wrapper_tensor__returns_underlying (self src : Tensor) (nb : bool)
    (w w' : World) (a b : TensorWrapper) (r : Tensor) :
  host_copy_returns_receiver ->
  proxy_view w self = Some a -> proxy_view w src = Some b ->
  level_in w a = level_in w b ->
  copy_wrapper_tensor_ self src nb w = Ok (r, w') ->
  r = value_ a.
Proof.
  intros Hrecv Ha Hb Heq.
  rewrite (copy_wrapper_tensor__copies _ _ _ _ _ _ Ha Hb Heq).
  apply Hrecv.
Qed.

(** C9: the handler compares the [level()] values, which are absent for
    dead wrappers.  For every pair of wrappers: if both are dead, they
    compare as equal whatever their creation levels, and the handler is
    then exactly the host's [copy_] on the underlying values, run from the
    unchanged store (no warning, no no-op); if one is dead and the other
    alive, they compare as unequal whatever their creation levels (also
    when these are the same), and the handler appends the warning and
    returns [self] without any other change. *)
Theorem C9_copy_compares_optional_levels
    (self src : Tensor) (nb : bool) (w : World) (a b : TensorWrapper) :
  proxy_view w self = Some a -> proxy_view w src = Some b ->
  (alive_in w a = false -> alive_in w b = false ->
     optional_ne (level_in w a) (level_in w b) = false
     /\ copy_wrapper_tensor_ self src nb w
        = Tensor_copy_ (value_ a) (value_ b) nb w)
  /\ (alive_in w a = negb (alive_in w b) ->
       optional_ne (level_in w a) (level_in w b) = true
       /\ copy_wrapper_tensor_ self src nb w = Ok (self, warned w copy_warning)
       /\ impls (warned w copy_warning) = impls w
       /\ flags (warned w copy_warning) = flags w
       /\ warnings (warned w copy_warning) = warnings w ++ [copy_warning]).
Proof.
  intros Ha Hb. split.
  - intros Hda Hdb.
    assert (Heq : level_in w a = level_in w b)
      by (unfold level_in; by rewrite Hda, Hdb).
    split.
    + unfold optional_ne. by rewrite bool_decide_eq_true_2.
    + by apply copy_wrapper_tensor__copies.
  - intros Hmix.
    assert (Hne : level_in w a <> level_in w b)
      by (unfold level_in; rewrite Hmix; by destruct (alive_in w b)).
    split; [|split; [|done]].
    + unfold optional_ne. by rewrite bool_decide_eq_false_2.
    + apply copy_wrapper_tensor__rejects; eauto 10 using proxy_view_cast_ok.
Qed.

End CopyHandler.

(** C9 at concrete stores.  Address 2: a wrapper of level 1.  Address 3:
    a wrapper of level 2.  Address 4: a wrapper of level 1 that was
    constructed dead.  In the first store level 2 has ended and level 1 is
    active; in the second store both levels have ended, so that every
    wrapper is dead. *)
Lemma C9_copy_compares_optional_levels_witness :
  let w1 := store_after (@makeTensorWrapper demo_host (TensorRef 0) 1) w_demo in
  let w2 := store_after (@makeTensorWrapper demo_host (TensorRef 1) 2) w1 in
  let w3 := store_after (@makeTensorWrapperPtr demo_host (TensorRef 0) 1 false) w2 in
  let w4 := store_after (markDead (LevelHandle 2)) w3 in
  let w5 := store_after (markDead (LevelHandle 1)) w4 in
  (@copy_wrapper_tensor_ demo_host (TensorRef 4) (TensorRef 3) false w4
   = dense_copy_ (TensorRef 0) (TensorRef 1) false w4)
  /\ (@copy_wrapper_tensor_ demo_host (TensorRef 2) (TensorRef 4) false w4
      = Ok (TensorRef 2, warned w4 copy_warning))
  /\ (@copy_wrapper_tensor_ demo_host (TensorRef 2) (TensorRef 3) false w5
      = dense_copy_ (TensorRef 0) (TensorRef 1) false w5).
Proof.
  cbv zeta.
  set (w4 := store_after (markDead (LevelHandle 2)) _).
  set (w5 := store_after (markDead (LevelHandle 1)) w4).
  assert (H2 : exists a, proxy_view w4 (TensorRef 2) = Some a
                         /\ alive_in w4 a = true)
    by (eexists; split; vm_compute; reflexivity).
  assert (H3 : exists a, proxy_view w4 (TensorRef 3) = Some a
                         /\ alive_in w4 a = false /\ value_ a = TensorRef 1)
    by (eexists; split; [|split]; vm_compute; reflexivity).
  assert (H4 : exists a, proxy_view w4 (TensorRef 4) = Some a
                         /\ alive_in w4 a = false /\ value_ a = TensorRef 0)
    by (eexists; split; [|split]; vm_compute; reflexivity).
  assert (H2' : exists a, proxy_view w5 (TensorRef 2) = Some a
                          /\ alive_in w5 a = false /\ value_ a = TensorRef 0)
    by (eexists; split; [|split]; vm_compute; reflexivity).
  assert (H3' : exists a, proxy_view w5 (TensorRef 3) = Some a
                          /\ alive_in w5 a = false /\ value_ a = TensorRef 1)
    by (eexists; split; [|split]; vm_compute; reflexivity).
  destruct H2 as (a2 & Hv2 & Hl2), H3 as (a3 & Hv3 & Hd3 & Hu3),
    H4 as (a4 & Hv4 & Hd4 & Hu4), H2' as (a2' & Hv2' & Hd2' & Hu2'),
    H3' as (a3' & Hv3' & Hd3' & Hu3').
  destruct (@C9_copy_compares_optional_levels demo_host
              (TensorRef 4) (TensorRef 3) false w4 a4 a3 Hv4 Hv3)
    as [Hdead _].
  destruct (Hdead Hd4 Hd3) as [_ Hcopy].
  destruct (@C9_copy_compares_optional_levels demo_host
              (TensorRef 2) (TensorRef 4) false w4 a2 a4 Hv2 Hv4)
    as [_ Hmixed].
  destruct (Hmixed ltac:(rewrite Hl2, Hd4; reflexivity)) as (_ & Hwarn & _).
  destruct (@C9_copy_compares_optional_levels demo_host
              (TensorRef 2) (TensorRef 3) false w5 a2' a3' Hv2' Hv3')
    as [Hdead' _].
  destruct (Hdead' Hd2' Hd3') as [_ Hcopy'].
  rewrite Hu4, Hu3 in Hcopy. rewrite Hu2', Hu3' in Hcopy'.
  split; [exact Hcopy|]. split; [exact Hwarn | exact Hcopy'].
Defined.

(** C3: two alive wrappers of level 1 over the dense tensors at addresses
    0 and 1.  The handler copies the elements of the second tensor into the
    first and emits no warning, but the tensor it returns is the underlying
    tensor at address 0, not the destination wrapper at address 2. *)
Theorem C3_copy_returns_underlying :
  let w1 := store_after (@makeTensorWrapper demo_host (TensorRef 0) 1) w_demo in
  let w2 := store_after (@makeTensorWrapper demo_host (TensorRef 1) 1) w1 in
  let self := TensorRef 2 in
  let src := TensorRef 3 in
  let w3 := store_after (@copy_wrapper_tensor_ demo_host self src false) w2 in
  (exists a b, proxy_view w2 self = Some a /\ proxy_view w2 src = Some b
               /\ level_in w2 a = Some 1 /\ level_in w2 b = Some 1
               /\ value_ a = TensorRef 0 /\ value_ b = TensorRef 1)
  /\ @copy_wrapper_tensor_ demo_host self src false w2 = Ok (TensorRef 0, w3)
  /\ TensorRef 0 <> self
  /\ impls w3 0%nat = dense {[ CPU ]} [(2, 3); (3, 1)] [7; 8; 9; 10; 11; 12]
  /\ warnings w3 = [].
Proof.
  cbv zeta. split; [|split; [|split; [|split]]].
  - eexists _, _.
    split; [|split; [|split; [|split; [|split]]]]; vm_compute; reflexivity.
  - vm_compute; reflexivity.
  - discriminate.
  - vm_compute; reflexivity.
  - vm_compute; reflexivity.
Qed.

(** ** The dead-wrapper fallback *)

Section Fallback.
Context `{host : Host}.

Lemma unwrapIfDeadAndIncrement_spec (t : Tensor) (c : Z) (w : World) :
  cast_ok w t = true ->
  unwrapIfDeadAndIncrement t c w
  = Ok (match proxy_view w t with
        | Some tw => if alive_in w tw then (t, c) else (value_ tw, c + 1)
        | None => (t, c)
        end, w).
Proof.
  intros Hc. unfold unwrapIfDeadAndIncrement.
  unfold mbind at 1. unfold M_bind, bind at 1. unfold get_world at 1.
  cbv beta iota.
  destruct (maybeGetTensorWrapper w t) as [a|] eqn:Hm.
  - destruct (cast_ok_view _ _ _ Hc Hm) as (tw & Ha & ->).
    rewrite (bind_Ok _ _ _ _ _ (TensorWrapper_is_alive_ok _ _ _ Ha)).
    destruct (alive_in w tw); [reflexivity|].
    by rewrite (bind_Ok _ _ _ _ _ (TensorWrapper_value_ok _ _ _ Ha)).
  - by rewrite (proxy_view_None _ _ Hm).
Qed.

Lemma count_dead_nonneg (w : World) (ivs : list IValue) : 0 <= count_dead w ivs.
Proof.
  induction ivs as [|iv ivs IH]; cbn; [done|].
  fold (count_dead w ivs). destruct (is_dead_proxy w iv); lia.
Qed.

Lemma count_dead_pos (w : World) (ivs : list IValue) :
  bool_decide (count_dead w ivs > 0) = existsb (is_dead_proxy w) ivs.
Proof.
  induction ivs as [|iv ivs IH]; cbn; [done|].
  fold (count_dead w ivs). pose proof (count_dead_nonneg w ivs).
  destruct (is_dead_proxy w iv); cbn; [|done].
  apply bool_decide_eq_true_2. lia.
Qed.

(** The scan over [mid], the part of the stack between [pre] and [post]:
    every operand is replaced by [unwrap_if_dead] of it, the counter grows
    by the number of dead proxies, the store is not touched. *)
Lemma foreachTensorInplace_loop_spec (pre mid post : list IValue) (c : Z) (w : World) :
  Forall (fun iv => operand_cast_ok w iv = true) mid ->
  foreachTensorInplace_loop (length mid) (Z.of_nat (length pre))
    unwrapIfDeadAndIncrement (pre ++ mid ++ post) c w
  = Ok ((pre ++ (unwrap_if_dead w <$> mid) ++ post, c + count_dead w mid), w).
Proof.
  revert pre c. induction mid as [|iv mid IH]; intros pre c Hok.
  - cbn. unfold ret. by rewrite Z.add_0_r.
  - apply Forall_cons in Hok as [Hiv Hmid].
    cbn [length foreachTensorInplace_loop].
    rewrite bool_decide_eq_true_2 by lia.
    rewrite <- !app_comm_cons.
    rewrite Nat2Z.id, list_lookup_middle by done.
    assert (Hnext : Z.of_nat (length pre) + 1 = Z.of_nat (length (pre ++ [unwrap_if_dead w iv])))
      by (rewrite length_app; cbn; lia).
    assert (Hshape : forall x, pre ++ x :: mid ++ post = (pre ++ [x]) ++ mid ++ post)
      by (intros x; by rewrite <- app_assoc).
    destruct iv as [t|z].
    + cbn in Hiv.
      rewrite (bind_Ok _ _ _ _ _ (unwrapIfDeadAndIncrement_spec t c w Hiv)).
      cbn [app fmap list_fmap].
      replace (<[length pre:=_]> (pre ++ IVTensor t :: mid ++ post))
        with ((pre ++ [unwrap_if_dead w (IVTensor t)]) ++ mid ++ post).
      * rewrite Hnext, IH by done. rewrite <- app_assoc. cbn [app].
        cbn [count_dead foldr unwrap_if_dead is_dead_proxy].
        fold (count_dead w mid).
        destruct (proxy_view w t) as [tw|]; [destruct (alive_in w tw)|];
          cbn; do 3 f_equal; lia.
      * rewrite <- Hshape, insert_app_r_alt, Nat.sub_diag by lia. cbn.
        by destruct (proxy_view w t) as [tw|]; [destruct (alive_in w tw)|].
    + rewrite (Hshape (IVOther z)), Hnext.
      replace (pre ++ [unwrap_if_dead w (IVOther z)]) with (pre ++ [IVOther z]) by done.
      rewrite IH by done. rewrite <- app_assoc. by cbn.
Qed.

(** C2: the fallback replaces every operand that is a dead proxy by its
    underlying value and leaves every other operand and the rest of the
    stack as they are; it fails its assertion when no operand is a dead
    proxy; otherwise it is one call of the dispatcher on the substituted
    stack, from the unchanged store. *)
Theorem C2_dead_tensor_wrapper_fallback (op : OperatorHandle) (stack : list IValue)
    (w : World) :
  (schema_arguments_size op <= length stack)%nat ->
  Z.of_nat (length stack) < 2 ^ 63 ->
  Forall (fun iv => operand_cast_ok w iv = true)
         (drop (length stack - schema_arguments_size op) stack) ->
  let begin := (length stack - schema_arguments_size op)%nat in
  let stack' := take begin stack ++ (unwrap_if_dead w <$> drop begin stack) in
  dead_tensor_wrapper_fallback op stack w
  = (if existsb (is_dead_proxy w) (drop begin stack)
     then callBoxed op stack' w
     else AssertionFailure "Should have at least one dead wrapper")
  /\ length stack' = length stack
  /\ (forall i iv, stack !! i = Some iv ->
        stack' !! i
        = Some (if bool_decide (begin <= i)%nat then unwrap_if_dead w iv else iv))
  /\ (forall t tw, proxy_view w t = Some tw -> alive_in w tw = false ->
        unwrap_if_dead w (IVTensor t) = IVTensor (value_ tw))
  /\ (forall iv, is_dead_proxy w iv = false -> unwrap_if_dead w iv = iv).
Proof.
  intros Hn Hsz Hok begin stack'.
  split; [|split; [|split; [|split]]].
  - unfold dead_tensor_wrapper_fallback, foreachTensorInplace.
    cbv zeta.
    assert (Hb : to_int64 (size_t_sub (Z.of_nat (length stack))
                             (Z.of_nat (schema_arguments_size op)))
                 = Z.of_nat (length (take begin stack))).
    { rewrite length_take. unfold size_t_sub, to_int64, begin.
      rewrite Z.mod_small by lia. rewrite bool_decide_eq_true_2 by lia. lia. }
    assert (He : to_int64 (Z.of_nat (length stack)) = Z.of_nat (length stack))
      by (unfold to_int64; by rewrite bool_decide_eq_true_2).
    rewrite Hb, He.
    replace (Z.to_nat (Z.of_nat (length stack) - Z.of_nat (length (take begin stack))))
      with (length (drop begin stack))
      by (rewrite length_take, length_drop; unfold begin; lia).
    rewrite <- (take_drop begin stack) at 3.
    rewrite <- (app_nil_r (drop begin stack)) at 2.
    rewrite (bind_Ok _ _ _ _ _
               (foreachTensorInplace_loop_spec _ _ [] 0 w Hok)).
    cbn [fst snd]. rewrite app_nil_r, Z.add_0_l, count_dead_pos.
    fold begin. fold stack'.
    by destruct (existsb _ _).
  - unfold stack'. rewrite length_app, length_fmap, <- length_app.
    by rewrite take_drop.
  - intros i iv Hi. unfold stack'.
    destruct (decide (begin <= i)%nat) as [Hge|Hlt].
    + rewrite bool_decide_eq_true_2 by done.
      rewrite lookup_app_r by (rewrite length_take; lia).
      rewrite list_lookup_fmap, lookup_drop, length_take.
      replace (begin + (i - begin `min` length stack))%nat with i by lia.
      by rewrite Hi.
    + rewrite bool_decide_eq_false_2 by done.
      rewrite lookup_app_l by (rewrite length_take; apply lookup_lt_Some in Hi; lia).
      rewrite lookup_take_lt by lia. done.
  - intros t tw Hv Hd. cbn. by rewrite Hv, Hd.
  - intros [t|z]; cbn; [|done].
    destruct (proxy_view w t) as [tw|]; [|done].
    by destruct (alive_in w tw).
Qed.

End Fallback.

(** C2 at a concrete store: an operator of two arguments on a stack of
    three values.  The operand at address 3 is a dead wrapper of the dense
    tensor at address 1; the operand at address 2 is an alive wrapper. *)
Lemma C2_dead_tensor_wrapper_fallback_witness :
  let w1 := store_after (@makeTensorWrapper demo_host (TensorRef 0) 1) w_demo in
  let w2 := store_after (@makeTensorWrapper demo_host (TensorRef 1) 2) w1 in
  let w3 := store_after (markDead (LevelHandle 2)) w2 in
  @dead_tensor_wrapper_fallback demo_host (mkOp "add" 2)
     [IVOther 7; IVTensor (TensorRef 2); IVTensor (TensorRef 3)] w3
  = Ok ([IVOther 7; IVTensor (TensorRef 2); IVTensor (TensorRef 1)], w3).
Proof.
  cbv zeta.
  set (w3 := store_after (markDead (LevelHandle 2)) _).
  rewrite (proj1 (@C2_dead_tensor_wrapper_fallback demo_host (mkOp "add" 2)
                    [IVOther 7; IVTensor (TensorRef 2); IVTensor (TensorRef 3)] w3
                    ltac:(cbn; lia) ltac:(cbn; lia)
                    ltac:(repeat constructor))).
  vm_compute. reflexivity.
Defined.

(** ** Duplication *)

Section Duplication.
Context `{host : Host}.

Lemma shallow_copy_and_detach_spec (this : addr) (vc : nat) (allow : bool)
    (w : World) (tw : TensorWrapper) :
  impls w this = WrapperImpl tw -> defined (value_ tw) = true ->
  exists w' tw',
    TensorWrapper_shallow_copy_and_detach this vc allow w = Ok (next_impl w, w')
    /\ impls w' (next_impl w) = WrapperImpl tw'
    /\ value_ tw' = value_ tw /\ level_ tw' = level_ tw
    /\ is_alive_ tw'
       = (if alive_in w tw then getLifeHandleForLevel (level_ tw)
          else OwnedHandle (next_flag w))
    /\ flags w'
       = (if alive_in w tw then flags w
          else <[OwnedHandle (next_flag w) := false]> (flags w))
    /\ (forall b, b <> next_impl w -> impls w' b = impls w b)
    /\ next_impl w' = S (next_impl w)
    /\ version_counter_ (base_ tw') = vc
    /\ allow_tensor_metadata_change_ (base_ tw') = allow
    /\ key_set_ (base_ tw') = wrapper_key_set w (value_ tw).
Proof.
  intros Hthis Hdef. unfold TensorWrapper_shallow_copy_and_detach.
  rewrite (bind_Ok _ _ _ _ _ (TensorWrapper_value_ok _ _ _ Hthis)).
  rewrite (bind_Ok _ _ _ _ _ (as_wrapper_ok _ _ _ Hthis)).
  rewrite (bind_Ok _ _ _ _ _ (TensorWrapper_is_alive_ok _ _ _ Hthis)).
  unfold mbind at 1. unfold M_bind, bind at 1.
  rewrite makeTensorWrapperPtr_spec, Hdef.
  unfold update_base. unfold_monad.
  destruct (alive_in w tw); cbv beta iota;
    (eexists _, _; split; [reflexivity|]);
    unfold install, new_cell; cbn [impls flags next_impl next_flag];
    rewrite !fn_lookup_insert; cbn [set_base];
    (split; [reflexivity|]); cbn;
    repeat split; try reflexivity;
    intros b Hb; by rewrite !fn_lookup_insert_ne.
Qed.

(** C8: duplicating a wrapper [p] that satisfies the invariant of wrapper
    objects gives a new object (at a fresh address; [p] and every other
    object stay as they are) that holds the same handle to the underlying
    value, the same level, and is alive exactly if [p] is; [level()] of the
    duplicate is [level()] of [p]. *)
Theorem C8_shallow_copy_and_detach (this : addr) (vc : nat) (allow : bool)
    (w : World) (tw : TensorWrapper) :
  (this < next_impl w)%nat ->
  impls w this = WrapperImpl tw ->
  proxy_inv w tw ->
  exists dest w' tw',
    TensorWrapper_shallow_copy_and_detach this vc allow w = Ok (dest, w')
    /\ dest <> this
    /\ impls w' dest = WrapperImpl tw'
    /\ (forall b, b <> dest -> impls w' b = impls w b)
    /\ value_ tw' = value_ tw
    /\ level_ tw' = level_ tw
    /\ alive_in w' tw' = alive_in w tw
    /\ alive_in w' tw = alive_in w tw
    /\ level_in w' tw' = level_in w tw.
Proof.
  intros Halloc Hthis [Hdef Hhandle].
  destruct (shallow_copy_and_detach_spec this vc allow w tw Hthis Hdef)
    as (w' & tw' & Hrun & Hdest & Hval & Hlvl & Hh & Hflags & Hrest & _).
  assert (Ha' : alive_in w' tw' = alive_in w tw).
  { unfold alive_in at 1. rewrite Hh, Hflags.
    destruct (alive_in w tw) eqn:Ha.
    - rewrite <- (Hhandle eq_refl). exact Ha.
    - apply fn_lookup_insert. }
  assert (Ha : alive_in w' tw = alive_in w tw).
  { unfold alive_in at 1. rewrite Hflags.
    destruct (alive_in w tw) eqn:Hal; [exact Hal|].
    destruct (decide (OwnedHandle (next_flag w) = is_alive_ tw)) as [<-|Hne].
    - apply fn_lookup_insert.
    - rewrite fn_lookup_insert_ne by done. exact Hal. }
  exists (next_impl w), w', tw'.
  repeat split; try done; try lia.
  unfold level_in. by rewrite Ha', Hlvl.
Qed.

(** The invariant holds for what the factories build, and lasts as long
    as no flag is revived. *)
Lemma makeTensorWrapper_proxy_inv (t : Tensor) (l : Z) (w w' : World) (r : Tensor) :
  makeTensorWrapper t l w = Ok (r, w') ->
  exists tw, proxy_view w' r = Some tw /\ proxy_inv w' tw.
Proof.
  intros Hok.
  destruct (makeTensorWrapper_Ok_inv _ _ _ _ _ Hok) as (_ & _ & Hd & -> & ->).
  set (tw := mkWrapper _ t l _).
  destruct (view_of_installed w tw (wrapper_key_set_has_key _ _)) as (_ & _ & Hv & _).
  exists tw. by repeat split.
Qed.

Lemma makeTensorWrapperPtr_proxy_inv (t : Tensor) (l : Z) (b : bool)
    (w w' : World) (a : addr) :
  makeTensorWrapperPtr t l b w = Ok (a, w') ->
  exists tw, impls w' a = WrapperImpl tw /\ proxy_inv w' tw.
Proof.
  rewrite makeTensorWrapperPtr_spec.
  destruct (defined t) eqn:Hd; [|done].
  destruct b; intros [= <- <-]; eexists;
    (split; [unfold install; cbn [impls]; apply fn_lookup_insert|]);
    (split; [done|]).
  - done.
  - unfold alive_in, install, new_cell. cbn. by rewrite fn_lookup_insert.
Qed.

Lemma proxy_inv_keeps (w w' : World) (tw : TensorWrapper) :
  keeps_dead w w' -> proxy_inv w tw -> proxy_inv w' tw.
Proof.
  intros Hk [Hd Hh]. split; [done|].
  intros Ha. apply Hh. unfold alive_in in *.
  destruct (flags w (is_alive_ tw)) eqn:Hf; [done|].
  by rewrite (Hk _ Hf) in Ha.
Qed.

End Duplication.

(** C8 at a concrete store: the alive wrapper at address 2 and the
    wrapper at address 3, which was constructed dead. *)
Lemma C8_shallow_copy_and_detach_witness :
  let w1 := store_after (@makeTensorWrapper demo_host (TensorRef 0) 1) w_demo in
  let w2 := store_after (@makeTensorWrapperPtr demo_host (TensorRef 1) 4 false) w1 in
  (exists dest w' tw',
      @TensorWrapper_shallow_copy_and_detach demo_host 2%nat 9%nat false w2
      = Ok (dest, w')
      /\ dest <> 2%nat
      /\ impls w' dest = WrapperImpl tw'
      /\ value_ tw' = TensorRef 0 /\ level_ tw' = 1 /\ alive_in w' tw' = true)
  /\ (exists dest w' tw',
        @TensorWrapper_shallow_copy_and_detach demo_host 3%nat 9%nat false w2
        = Ok (dest, w')
        /\ dest <> 3%nat
        /\ impls w' dest = WrapperImpl tw'
        /\ value_ tw' = TensorRef 1 /\ level_ tw' = 4 /\ alive_in w' tw' = false).
Proof.
  cbv zeta.
  set (w2 := store_after (@makeTensorWrapperPtr demo_host (TensorRef 1) 4 false) _).
  assert (H2 : exists tw, impls w2 2%nat = WrapperImpl tw
                 /\ value_ tw = TensorRef 0 /\ level_ tw = 1
                 /\ is_alive_ tw = LevelHandle 1 /\ alive_in w2 tw = true)
    by (eexists; split; [|split; [|split; [|split]]]; vm_compute; reflexivity).
  assert (H3 : exists tw, impls w2 3%nat = WrapperImpl tw
                 /\ value_ tw = TensorRef 1 /\ level_ tw = 4
                 /\ alive_in w2 tw = false)
    by (eexists; split; [|split; [|split]]; vm_compute; reflexivity).
  assert (Hn : next_impl w2 = 4%nat) by (vm_compute; reflexivity).
  destruct H2 as (tw2 & Hi2 & Hv2 & Hl2 & Hh2 & Ha2),
    H3 as (tw3 & Hi3 & Hv3 & Hl3 & Ha3).
  split.
  - destruct (@C8_shallow_copy_and_detach demo_host 2%nat 9%nat false w2 tw2
                ltac:(rewrite Hn; lia) Hi2
                ltac:(split; [by rewrite Hv2 | intros _; by rewrite Hh2, Hl2]))
      as (dest & w' & tw' & Hrun & Hne & Hi & _ & Hv & Hl & Ha & _).
    exists dest, w', tw'. repeat split; congruence.
  - destruct (@C8_shallow_copy_and_detach demo_host 3%nat 9%nat false w2 tw3
                ltac:(rewrite Hn; lia) Hi3
                ltac:(split; [by rewrite Hv3 | intros Hc; congruence]))
      as (dest & w' & tw' & Hrun & Hne & Hi & _ & Hv & Hl & Ha & _).
    exists dest, w', tw'. repeat split; congruence.
Defined.

(** ** Liveness *)

Section Liveness.
Context `{host : Host}.

Lemma keeps_dead_refl (w : World) : keeps_dead w w.
Proof. by intros h. Qed.

Lemma keeps_dead_trans (w1 w2 w3 : World) :
  keeps_dead w1 w2 -> keeps_dead w2 w3 -> keeps_dead w1 w3.
Proof. intros H12 H23 h Hh. by apply H23, H12. Qed.

Lemma keeps_dead_same_flags (w w' : World) :
  flags w' = flags w -> keeps_dead w w'.
Proof. intros Hf h Hh. by rewrite Hf. Qed.

Lemma keeps_dead_cleared (w w' : World) (h0 : LifeHandle) :
  flags w' = <[h0 := false]> (flags w) -> keeps_dead w w'.
Proof.
  intros Hf h Hh. rewrite Hf.
  destruct (decide (h0 = h)) as [->|Hne].
  - apply fn_lookup_insert.
  - by rewrite fn_lookup_insert_ne.
Qed.

Lemma markDead_keeps_dead (h : LifeHandle) (w w' : World) :
  markDead h w = Ok (tt, w') -> keeps_dead w w'.
Proof. intros [= <-]. by apply (keeps_dead_cleared _ _ h). Qed.

Lemma makeTensorWrapper_keeps_dead (t : Tensor) (l : Z) (w w' : World) (r : Tensor) :
  makeTensorWrapper t l w = Ok (r, w') -> keeps_dead w w'.
Proof.
  intros Hok.
  destruct (makeTensorWrapper_Ok_inv _ _ _ _ _ Hok) as (_ & _ & _ & _ & ->).
  by apply keeps_dead_same_flags.
Qed.

Lemma makeTensorWrapperPtr_keeps_dead (t : Tensor) (l : Z) (b : bool)
    (w w' : World) (a : addr) :
  makeTensorWrapperPtr t l b w = Ok (a, w') -> keeps_dead w w'.
Proof.
  rewrite makeTensorWrapperPtr_spec.
  destruct (defined t); [|done].
  destruct b; intros [= <- <-].
  - by apply keeps_dead_same_flags.
  - by apply (keeps_dead_cleared _ _ (OwnedHandle (next_flag w))).
Qed.

Lemma shallow_copy_and_detach_keeps_dead (this : addr) (vc : nat) (allow : bool)
    (w w' : World) (a : addr) :
  TensorWrapper_shallow_copy_and_detach this vc allow w = Ok (a, w') ->
  keeps_dead w w'.
Proof.
  intros Hok.
  destruct (impls w this) as [b d|tw] eqn:Hthis.
  { unfold TensorWrapper_shallow_copy_and_detach, TensorWrapper_value, as_wrapper in Hok.
    unfold_monad. by rewrite Hthis in Hok. }
  destruct (defined (value_ tw)) eqn:Hdef.
  - destruct (shallow_copy_and_detach_spec this vc allow w tw Hthis Hdef)
      as (w1 & tw' & Hrun & _ & _ & _ & _ & Hflags & _).
    rewrite Hrun in Hok. injection Hok as _ <-.
    destruct (alive_in w tw).
    + by apply keeps_dead_same_flags.
    + by apply (keeps_dead_cleared _ _ (OwnedHandle (next_flag w))).
  - unfold TensorWrapper_shallow_copy_and_detach in Hok.
    rewrite (bind_Ok _ _ _ _ _ (TensorWrapper_value_ok _ _ _ Hthis)) in Hok.
    rewrite (bind_Ok _ _ _ _ _ (as_wrapper_ok _ _ _ Hthis)) in Hok.
    rewrite (bind_Ok _ _ _ _ _ (TensorWrapper_is_alive_ok _ _ _ Hthis)) in Hok.
    unfold mbind at 1 in Hok. unfold M_bind, bind at 1 in Hok.
    by rewrite makeTensorWrapperPtr_spec, Hdef in Hok.
Qed.

Lemma bind_UndefinedBehaviour {A B} (m : M A) (k : A -> M B) (w : World) :
  m w = UndefinedBehaviour -> (m ≫= k) w = UndefinedBehaviour.
Proof. intros Hm. unfold_monad. by rewrite Hm. Qed.

Lemma TensorWrapper_level_bad_cast (a : addr) (w : World) b d :
  impls w a = DenseImpl b d -> TensorWrapper_level a w = UndefinedBehaviour.
Proof.
  intros Ha. unfold TensorWrapper_level, TensorWrapper_is_alive, as_wrapper.
  unfold_monad. by rewrite Ha.
Qed.

(** What a successful call of the handler has done: warned, or called
    the host's [copy_]. *)
Lemma copy_wrapper_tensor__outcome (self src : Tensor) (nb : bool)
    (w w' : World) (r : Tensor) :
  copy_wrapper_tensor_ self src nb w = Ok (r, w') ->
  w' = warned w copy_warning
  \/ exists x y, Tensor_copy_ x y nb w = Ok (r, w').
Proof.
  unfold copy_wrapper_tensor_.
  unfold mbind at 1. unfold M_bind, bind at 1. unfold get_world at 1.
  cbv beta iota zeta.
  assert (Hwarn : (TORCH_WARN copy_warning ≫= λ _ : (), ret self) w = Ok (r, w') ->
                  w' = warned w copy_warning
                  \/ exists x y, Tensor_copy_ x y nb w = Ok (r, w'))
    by (intros [= _ <-]; by left).
  destruct (maybeGetTensorWrapper w self) as [a|]; [|exact Hwarn].
  destruct (maybeGetTensorWrapper w src) as [b|]; [|exact Hwarn].
  destruct (impls w a) as [|twa] eqn:Ha.
  { by rewrite (bind_UndefinedBehaviour _ _ _ (TensorWrapper_level_bad_cast _ _ _ _ Ha)). }
  rewrite (bind_Ok _ _ _ _ _ (TensorWrapper_level_ok _ _ _ Ha)).
  destruct (impls w b) as [|twb] eqn:Hb.
  { by rewrite (bind_UndefinedBehaviour _ _ _ (TensorWrapper_level_bad_cast _ _ _ _ Hb)). }
  rewrite (bind_Ok _ _ _ _ _ (TensorWrapper_level_ok _ _ _ Hb)).
  destruct (optional_ne _ _); [exact Hwarn|].
  rewrite (bind_Ok _ _ _ _ _ (TensorWrapper_value_ok _ _ _ Ha)).
  rewrite (bind_Ok _ _ _ _ _ (TensorWrapper_value_ok _ _ _ Hb)).
  intros Hok. right. eauto.
Qed.

Lemma copy_wrapper_tensor__keeps_dead (self src : Tensor) (nb : bool)
    (w w' : World) (r : Tensor) :
  host_keeps_dead ->
  copy_wrapper_tensor_ self src nb w = Ok (r, w') -> keeps_dead w w'.
Proof.
  intros [Hcopy _] [->|(x & y & Hxy)]%copy_wrapper_tensor__outcome.
  - by apply keeps_dead_same_flags.
  - by eapply Hcopy.
Qed.

(** The scan of the fallback reads the store and does not write it. *)
Lemma unwrapIfDeadAndIncrement_store (t : Tensor) (c : Z) (w w' : World) x :
  unwrapIfDeadAndIncrement t c w = Ok (x, w') -> w' = w.
Proof.
  unfold unwrapIfDeadAndIncrement.
  unfold mbind at 1. unfold M_bind, bind at 1. unfold get_world at 1.
  cbv beta iota.
  destruct (maybeGetTensorWrapper w t) as [a|]; [|by intros [= _ <-]].
  destruct (impls w a) as [|tw] eqn:Ha.
  { unfold TensorWrapper_is_alive, as_wrapper. unfold_monad. by rewrite Ha. }
  rewrite (bind_Ok _ _ _ _ _ (TensorWrapper_is_alive_ok _ _ _ Ha)).
  destruct (alive_in w tw); [by intros [= _ <-]|].
  rewrite (bind_Ok _ _ _ _ _ (TensorWrapper_value_ok _ _ _ Ha)).
  by intros [= _ <-].
Qed.

Lemma foreachTensorInplace_loop_store (n : nat) (idx : Z) (args : list IValue)
    (c : Z) (w w' : World) x :
  foreachTensorInplace_loop n idx unwrapIfDeadAndIncrement args c w = Ok (x, w') ->
  w' = w.
Proof.
  revert idx args c. induction n as [|n IH]; intros idx args c.
  - by intros [= _ <-].
  - cbn [foreachTensorInplace_loop].
    destruct (bool_decide (0 <= idx)); [|done].
    destruct (args !! Z.to_nat idx) as [[t|z]|]; [| |done].
    + unfold mbind, M_bind, bind.
      destruct (unwrapIfDeadAndIncrement t c w) as [[y w1]| |] eqn:Hf; try done.
      apply unwrapIfDeadAndIncrement_store in Hf as ->. apply IH.
    + apply IH.
Qed.

Lemma dead_tensor_wrapper_fallback_keeps_dead (op : OperatorHandle)
    (st : list IValue) (w w' : World) r :
  host_keeps_dead ->
  dead_tensor_wrapper_fallback op st w = Ok (r, w') -> keeps_dead w w'.
Proof.
  intros [_ Hcall]. unfold dead_tensor_wrapper_fallback, foreachTensorInplace.
  cbv zeta. unfold mbind, M_bind, bind.
  destruct (foreachTensorInplace_loop _ _ _ _ _ _) as [[y w1]| |] eqn:Hloop; try done.
  apply foreachTensorInplace_loop_store in Hloop as ->.
  unfold TORCH_INTERNAL_ASSERT, ret, fail_assert.
  destruct (bool_decide (y.2 > 0)); [|done].
  apply Hcall.
Qed.

(** No call into this file revives a liveness flag. *)
Lemma step_keeps_dead (w w' : World) :
  host_keeps_dead -> step w w' -> keeps_dead w w'.
Proof.
  intros Hhost Hstep. destruct Hstep.
  - by eapply markDead_keeps_dead.
  - by eapply makeTensorWrapper_keeps_dead.
  - by eapply makeTensorWrapperPtr_keeps_dead.
  - by eapply shallow_copy_and_detach_keeps_dead.
  - by eapply copy_wrapper_tensor__keeps_dead.
  - by eapply dead_tensor_wrapper_fallback_keeps_dead.
Qed.

Lemma steps_keep_dead (w w' : World) :
  host_keeps_dead -> rtc step w w' -> keeps_dead w w'.
Proof.
  intros Hhost Hsteps. induction Hsteps as [w|w1 w2 w3 H12 _ IH].
  - apply keeps_dead_refl.
  - eapply keeps_dead_trans; [by apply step_keeps_dead | exact IH].
Qed.

(** No call into this file removes a wrapper object or assigns its
    underlying value, its level or its liveness handle. *)
Lemma same_proxy_refl (tw : TensorWrapper) : same_proxy tw tw.
Proof. by repeat split. Qed.

Lemma keeps_proxies_same_impls (w w' : World) :
  impls w' = impls w -> next_impl w' = next_impl w -> keeps_proxies w w'.
Proof.
  intros Hi Hn. split; [lia|]. intros a tw _ Ha.
  exists tw. rewrite Hi. split; [done | apply same_proxy_refl].
Qed.

Lemma keeps_proxies_trans (w1 w2 w3 : World) :
  keeps_proxies w1 w2 -> keeps_proxies w2 w3 -> keeps_proxies w1 w3.
Proof.
  intros [Hn12 H12] [Hn23 H23]. split; [lia|].
  intros a tw Ha Hi.
  destruct (H12 a tw Ha Hi) as (tw2 & Hi2 & Hv & Hl & Hh).
  destruct (H23 a tw2 ltac:(lia) Hi2) as (tw3 & Hi3 & Hv' & Hl' & Hh').
  exists tw3. split; [done|]. repeat split; congruence.
Qed.

Lemma keeps_proxies_install (w : World) (i : TensorImpl) :
  keeps_proxies w (install w i).
Proof.
  split; [cbn; lia|]. intros a tw Ha Hi. exists tw.
  split; [|apply same_proxy_refl].
  unfold install. cbn [impls]. rewrite fn_lookup_insert_ne by lia. done.
Qed.

Lemma makeTensorWrapper_keeps_proxies (t : Tensor) (l : Z) (w w' : World) (r : Tensor) :
  makeTensorWrapper t l w = Ok (r, w') -> keeps_proxies w w'.
Proof.
  intros Hok.
  destruct (makeTensorWrapper_Ok_inv _ _ _ _ _ Hok) as (_ & _ & _ & _ & ->).
  apply keeps_proxies_install.
Qed.

Lemma makeTensorWrapperPtr_keeps_proxies (t : Tensor) (l : Z) (b : bool)
    (w w' : World) (a : addr) :
  makeTensorWrapperPtr t l b w = Ok (a, w') -> keeps_proxies w w'.
Proof.
  rewrite makeTensorWrapperPtr_spec.
  destruct (defined t); [|done].
  destruct b; intros [= <- <-].
  - apply keeps_proxies_install.
  - apply (keeps_proxies_trans _ (new_cell w false)).
    + by apply keeps_proxies_same_impls.
    + apply keeps_proxies_install.
Qed.

Lemma shallow_copy_and_detach_keeps_proxies (this : addr) (vc : nat) (allow : bool)
    (w w' : World) (a : addr) :
  TensorWrapper_shallow_copy_and_detach this vc allow w = Ok (a, w') ->
  keeps_proxies w w'.
Proof.
  intros Hok.
  destruct (impls w this) as [b d|tw] eqn:Hthis.
  { unfold TensorWrapper_shallow_copy_and_detach, TensorWrapper_value, as_wrapper in Hok.
    unfold_monad. by rewrite Hthis in Hok. }
  destruct (defined (value_ tw)) eqn:Hdef.
  - destruct (shallow_copy_and_detach_spec this vc allow w tw Hthis Hdef)
      as (w1 & tw' & Hrun & _ & _ & _ & _ & _ & Hrest & Hnext & _).
    rewrite Hrun in Hok. injection Hok as _ <-.
    split; [lia|]. intros b twb Hb Hi. exists twb.
    split; [|apply same_proxy_refl]. rewrite Hrest by lia. done.
  - unfold TensorWrapper_shallow_copy_and_detach in Hok.
    rewrite (bind_Ok _ _ _ _ _ (TensorWrapper_value_ok _ _ _ Hthis)) in Hok.
    rewrite (bind_Ok _ _ _ _ _ (as_wrapper_ok _ _ _ Hthis)) in Hok.
    rewrite (bind_Ok _ _ _ _ _ (TensorWrapper_is_alive_ok _ _ _ Hthis)) in Hok.
    unfold mbind at 1 in Hok. unfold M_bind, bind at 1 in Hok.
    by rewrite makeTensorWrapperPtr_spec, Hdef in Hok.
Qed.

Lemma step_keeps_proxies (w w' : World) :
  host_keeps_proxies -> step w w' -> keeps_proxies w w'.
Proof.
  intros [Hcopy Hcall] Hstep. destruct Hstep as
    [h w w' Hm | t l w r w' Hm | t l b w a w' Hm | this vc allow w a w' Hm
    | self src nb w r w' Hm | op st w r w' Hm].
  - injection Hm as <-. by apply keeps_proxies_same_impls.
  - by eapply makeTensorWrapper_keeps_proxies.
  - by eapply makeTensorWrapperPtr_keeps_proxies.
  - by eapply shallow_copy_and_detach_keeps_proxies.
  - apply copy_wrapper_tensor__outcome in Hm as [->|(x & y & Hxy)].
    + by apply keeps_proxies_same_impls.
    + by eapply Hcopy.
  - unfold dead_tensor_wrapper_fallback, foreachTensorInplace in Hm.
    cbv zeta in Hm. unfold mbind, M_bind, bind in Hm.
    destruct (foreachTensorInplace_loop _ _ _ _ _ _) as [[y w1]| |] eqn:Hloop; try done.
    apply foreachTensorInplace_loop_store in Hloop as ->.
    unfold TORCH_INTERNAL_ASSERT, ret, fail_assert in Hm.
    destruct (bool_decide (y.2 > 0)); [|done].
    by eapply Hcall.
Qed.

Lemma steps_keep_proxies (w w' : World) :
  host_keeps_proxies -> rtc step w w' -> keeps_proxies w w'.
Proof.
  intros Hhost Hsteps. induction Hsteps as [w|w1 w2 w3 H12 _ IH].
  - by apply keeps_proxies_same_impls.
  - eapply keeps_proxies_trans; [by apply step_keeps_proxies | exact IH].
Qed.

(** C4: [level()] of a wrapper is present, and is the creation level,
    exactly while its liveness flag is true, and [is_alive()] returns the
    flag; once the flag has been marked dead, [level()] is absent and
    [is_alive()] is false, and this stays so after any further calls into
    this file or ends of scopes: the wrapper is still there, with the same
    level and handle, and its flag is never true again. *)
Theorem C4_level_follows_liveness (p : addr) (tw : TensorWrapper)
    (w wd w' : World) :
  host_keeps_dead -> host_keeps_proxies ->
  (p < next_impl w)%nat ->
  impls w p = WrapperImpl tw ->
  markDead (is_alive_ tw) w = Ok (tt, wd) ->
  rtc step wd w' ->
  (TensorWrapper_is_alive p w = Ok (flags w (is_alive_ tw), w)
   /\ TensorWrapper_level p w
      = Ok (if flags w (is_alive_ tw) then Some (level_ tw) else None, w))
  /\ (TensorWrapper_is_alive p wd = Ok (false, wd)
      /\ TensorWrapper_level p wd = Ok (None, wd))
  /\ (flags w' (is_alive_ tw) = false
      /\ (exists tw', impls w' p = WrapperImpl tw' /\ same_proxy tw tw')
      /\ TensorWrapper_is_alive p w' = Ok (false, w')
      /\ TensorWrapper_level p w' = Ok (None, w')).
Proof.
  intros Hhost Hhost' Halloc Hp Hmark Hsteps.
  assert (Hpd : impls wd p = WrapperImpl tw) by (by injection Hmark as <-).
  assert (Hnd : next_impl wd = next_impl w) by (by injection Hmark as <-).
  assert (Hd : flags wd (is_alive_ tw) = false)
    by (injection Hmark as <-; cbn; apply fn_lookup_insert).
  assert (Hd' : flags w' (is_alive_ tw) = false)
    by (by apply (steps_keep_dead wd w' Hhost Hsteps)).
  destruct (steps_keep_proxies wd w' Hhost' Hsteps) as [_ Hkeep].
  destruct (Hkeep p tw ltac:(lia) Hpd) as (tw' & Hp' & Hv & Hl & Hh).
  split; [|split].
  - rewrite (TensorWrapper_is_alive_ok _ _ _ Hp), (TensorWrapper_level_ok _ _ _ Hp).
    done.
  - rewrite (TensorWrapper_is_alive_ok _ _ _ Hpd), (TensorWrapper_level_ok _ _ _ Hpd).
    unfold level_in, alive_in. by rewrite Hd.
  - rewrite (TensorWrapper_is_alive_ok _ _ _ Hp'), (TensorWrapper_level_ok _ _ _ Hp').
    unfold level_in, alive_in. rewrite Hh, Hd'.
    repeat split; try done. by exists tw'.
Qed.

End Liveness.

Lemma demo_host_keeps_dead : @host_keeps_dead demo_host.
Proof.
  split.
  - intros dst src nb w r w'. cbn. unfold dense_copy_.
    destruct dst as [|a]; [intros [= _ <-]; apply keeps_dead_refl|].
    destruct src as [|b]; [intros [= _ <-]; apply keeps_dead_refl|].
    destruct (impls w a); [|intros [= _ <-]; apply keeps_dead_refl].
    destruct (impls w b); intros [= _ <-];
      (apply keeps_dead_refl || by apply keeps_dead_same_flags).
  - intros op st w r w'. cbn. intros [= _ <-]. apply keeps_dead_refl.
Qed.

Lemma demo_host_keeps_proxies : @host_keeps_proxies demo_host.
Proof.
  split.
  - intros dst src nb w r w'. cbn. unfold dense_copy_.
    assert (Hsame : forall x, Ok (x, w) = Ok (r, w') -> keeps_proxies w w')
      by (intros x [= _ <-]; by apply keeps_proxies_same_impls).
    destruct dst as [|a]; [apply Hsame|].
    destruct src as [|b]; [apply Hsame|].
    destruct (impls w a) as [ba da|] eqn:Ha; [|apply Hsame].
    destruct (impls w b) as [bb db|]; [|apply Hsame].
    intros [= _ <-]. split; [cbn; lia|].
    intros c tw _ Hc. exists tw. split; [|apply same_proxy_refl].
    cbn [impls]. rewrite fn_lookup_insert_ne; [done|].
    intros ->. congruence.
  - intros op st w r w'. cbn. intros [= _ <-]. by apply keeps_proxies_same_impls.
Qed.

(** C4 at a concrete store: the wrapper of level 1 at address 2; after
    its level is marked dead, another wrapper is made and level 3 ends. *)
Lemma C4_level_follows_liveness_witness :
  let w1 := store_after (@makeTensorWrapper demo_host (TensorRef 0) 1) w_demo in
  let wd := store_after (markDead (LevelHandle 1)) w1 in
  let w2 := store_after (@makeTensorWrapper demo_host (TensorRef 1) 3) wd in
  let w3 := store_after (markDead (LevelHandle 3)) w2 in
  TensorWrapper_level 2%nat w1 = Ok (Some 1, w1)
  /\ TensorWrapper_level 2%nat wd = Ok (None, wd)
  /\ TensorWrapper_level 2%nat w3 = Ok (None, w3)
  /\ TensorWrapper_is_alive 2%nat w3 = Ok (false, w3).
Proof.
  cbv zeta.
  set (w1 := store_after (@makeTensorWrapper demo_host (TensorRef 0) 1) w_demo).
  set (wd := store_after (markDead (LevelHandle 1)) w1).
  set (w2 := store_after (@makeTensorWrapper demo_host (TensorRef 1) 3) wd).
  set (w3 := store_after (markDead (LevelHandle 3)) w2).
  assert (Hp : exists tw, impls w1 2%nat = WrapperImpl tw
                 /\ is_alive_ tw = LevelHandle 1 /\ level_ tw = 1)
    by (eexists; split; [|split]; vm_compute; reflexivity).
  destruct Hp as (tw & Hp1 & Hh & Hl).
  assert (Hn : (2 < next_impl w1)%nat) by (vm_compute; lia).
  assert (Hsteps : rtc (@step demo_host) wd w3).
  { eapply rtc_l.
    - eapply (@step_makeTensorWrapper demo_host (TensorRef 1) 3 wd (TensorRef 3) w2).
      vm_compute; reflexivity.
    - eapply rtc_once.
      eapply (@step_markDead demo_host (LevelHandle 3) w2 w3). reflexivity. }
  destruct (@C4_level_follows_liveness demo_host 2%nat tw w1 wd w3
              demo_host_keeps_dead demo_host_keeps_proxies Hn Hp1
              ltac:(rewrite Hh; reflexivity) Hsteps)
    as [[_ H1] [[_ Hd] [_ [_ [Ha3 H3]]]]].
  rewrite Hh, Hl in H1.
  replace (flags w1 (LevelHandle 1)) with true in H1 by (vm_compute; reflexivity).
  by repeat split.
Defined.

(** C5 at a concrete store: the wrapper of the CPU tensor at address 0,
    which carries no Autograd key itself. *)
Lemma C5_wrapper_key_set_witness :
  let w1 := store_after (@makeTensorWrapper demo_host (TensorRef 0) 1) w_demo in
  key_set w1 (TensorRef 2)
  = (key_set w_demo (TensorRef 0) ∩ @kKeysToPropagateToWrapper demo_host)
    ∪ autograd_backend_keys ∪ {[ kGradWrapperKey ]}
  /\ DispatchKeySet_has (key_set w1 (TensorRef 2)) AutogradCUDA = true
  /\ DispatchKeySet_has (key_set w1 (TensorRef 2)) kGradWrapperKey = true.
Proof.
  cbv zeta.
  assert (Hok : @makeTensorWrapper demo_host (TensorRef 0) 1 w_demo
                = Ok (TensorRef 2,
                      store_after (@makeTensorWrapper demo_host (TensorRef 0) 1) w_demo))
    by (vm_compute; reflexivity).
  destruct (@C5_wrapper_key_set demo_host (TensorRef 0) 1 w_demo _ _ Hok)
    as (_ & Heq & Hkey & Hauto & _).
  split; [exact Heq|]. split; [|exact Hkey].
  apply Hauto. unfold autograd_backend_keys.
  apply elem_of_union_l. apply elem_of_union_r. by apply elem_of_singleton.
Defined.


(** C1 at a concrete store: the dense tensor at address 0, levels 1 and
    2, both active. *)
Lemma C1_construction_assertions_witness :
  (exists r1 w1 r2 w2,
      @makeTensorWrapper demo_host (TensorRef 0) 1 w_demo = Ok (r1, w1)
      /\ @makeTensorWrapper demo_host r1 2 w1 = Ok (r2, w2))
  /\ (exists r2 w2,
        @makeTensorWrapper demo_host (TensorRef 0) 2 w_demo = Ok (r2, w2)
        /\ @makeTensorWrapper demo_host r2 1 w2
           = AssertionFailure "wrapped->level() < level").
Proof.
  destruct (@C1_construction_assertions demo_host ∅ (LevelHandle 1) true
              (TensorRef 1) (TensorRef 0) 1 1 2 w_demo)
    as (_ & _ & _ & Hnested).
  destruct (Hnested ltac:(lia) ltac:(reflexivity) ltac:(reflexivity)
              ltac:(reflexivity))
    as [Hfwd Hrev].
  split; [exact Hfwd | exact (Hrev ltac:(reflexivity))].
Defined.

(** C1 as stated fails: the wrapper at address 2 is created at level 5,
    and level 5 ends.  The wrapper is a proxy whose level, 5, is not
    strictly less than 3, yet wrapping it at level 3 fails no assertion:
    its [level()] is absent. *)
Lemma C1_counterexample :
  let w5 := store_after (@makeTensorWrapper demo_host (TensorRef 0) 5) w_demo in
  let w5d := store_after (markDead (LevelHandle 5)) w5 in
  @makeTensorWrapper demo_host (TensorRef 0) 5 w_demo = Ok (TensorRef 2, w5)
  /\ (exists tw, proxy_view w5d (TensorRef 2) = Some tw
                 /\ level_ tw = 5 /\ ~ level_ tw < 3)
  /\ TensorWrapper_level 2%nat w5d = Ok (None, w5d)
  /\ is_AssertionFailure (@makeTensorWrapper demo_host (TensorRef 2) 3 w5d) = false
  /\ is_Ok (@makeTensorWrapper demo_host (TensorRef 2) 3 w5d) = true.
Proof.
  cbv zeta.
  split; [vm_compute; reflexivity|]. split.
  { eexists. split; [vm_compute; reflexivity|]. cbn. split; [reflexivity | lia]. }
  split; [vm_compute; reflexivity|].
  split; vm_compute; reflexivity.
Qed.

(** C10 at a concrete store: the dense tensor at address 0, wrapped at
    level 1. *)
Lemma C10_wrap_then_view_witness :
  exists r w',
    @makeTensorWrapper demo_host (TensorRef 0) 1 w_demo = Ok (r, w')
    /\ exists a tw,
         maybeGetTensorWrapper w' r = Some a
         /\ impls w' a = WrapperImpl tw
         /\ value_ tw = TensorRef 0 /\ level_ tw = 1.
Proof.
  eexists _, _. split; [vm_compute; reflexivity|].
  destruct (@C10_wrap_then_view demo_host (TensorRef 0) 1 w_demo _ _ eq_refl)
    as [(a & tw & _ & Hm & Hi & _ & Hv & Hl) _].
  exists a, tw. repeat split; assumption.
Defined.

(** * Further properties *)

(** ** Reading a store *)

Lemma tensor_base_agree (w w' : World) (t : Tensor) :
  (forall a, t = TensorRef a -> impls w' a = impls w a) ->
  tensor_base w' t = tensor_base w t.
Proof. intros H. destruct t as [|a]; cbn; [done|]. by rewrite (H a). Qed.

Lemma maybeGetTensorWrapper_agree (w w' : World) (t : Tensor) :
  (forall a, t = TensorRef a -> impls w' a = impls w a) ->
  maybeGetTensorWrapper w' t = maybeGetTensorWrapper w t.
Proof.
  intros H. unfold maybeGetTensorWrapper, key_set.
  by rewrite (tensor_base_agree _ _ _ H).
Qed.

Lemma proxy_view_agree (w w' : World) (t : Tensor) :
  (forall a, t = TensorRef a -> impls w' a = impls w a) ->
  proxy_view w' t = proxy_view w t.
Proof.
  intros H. unfold proxy_view. rewrite (maybeGetTensorWrapper_agree _ _ _ H).
  destruct (maybeGetTensorWrapper w t) as [a|] eqn:Hm; [|done].
  assert (t = TensorRef a) as Ht.
  { unfold maybeGetTensorWrapper in Hm.
    destruct (negb _); [done|]. destruct t; congruence. }
  by rewrite (H a Ht).
Qed.

Lemma cast_ok_agree (w w' : World) (t : Tensor) :
  (forall a, t = TensorRef a -> impls w' a = impls w a) ->
  cast_ok w' t = cast_ok w t.
Proof.
  intros H. unfold cast_ok. rewrite (maybeGetTensorWrapper_agree _ _ _ H).
  destruct (maybeGetTensorWrapper w t) as [a|] eqn:Hm; [|done].
  assert (t = TensorRef a) as Ht.
  { unfold maybeGetTensorWrapper in Hm.
    destruct (negb _); [done|]. destruct t; congruence. }
  by rewrite (H a Ht).
Qed.

Lemma install_old (w : World) (i : TensorImpl) (t : Tensor) :
  allocated w t ->
  forall a, t = TensorRef a -> impls (install w i) a = impls w a.
Proof.
  intros Ht a ->. unfold allocated in Ht. cbn in Ht.
  unfold install. cbn [impls]. apply fn_lookup_insert_ne. lia.
Qed.

Lemma proxy_view_defined (w : World) (t : Tensor) (tw : TensorWrapper) :
  proxy_view w t = Some tw -> exists a, t = TensorRef a /\ impls w a = WrapperImpl tw.
Proof.
  unfold proxy_view, maybeGetTensorWrapper.
  destruct (negb _); [done|]. destruct t as [|a]; [done|].
  destruct (impls w a) as [|tw'] eqn:Ha; [done|].
  intros [= ->]. by exists a.
Qed.

Lemma tensor_base_installed (w : World) (tw : TensorWrapper) :
  tensor_base (install w (WrapperImpl tw)) (TensorRef (next_impl w)) = base_ tw.
Proof. unfold tensor_base, install. cbn [impls]. by rewrite fn_lookup_insert. Qed.

(** ** What the factories do to the store *)

Section Factories.
Context `{host : Host}.

(** [makeTensorWrapper] allocates one object at the next free address. *)
Lemma makeTensorWrapper_allocates (t : Tensor) (l : Z) (w w' : World) (r : Tensor) :
  makeTensorWrapper t l w = Ok (r, w') ->
  r = TensorRef (next_impl w)
  /\ next_impl w' = S (next_impl w)
  /\ (forall a, a <> next_impl w -> impls w' a = impls w a)
  /\ flags w' = flags w
  /\ next_flag w' = next_flag w
  /\ warnings w' = warnings w.
Proof.
  intros Hok.
  destruct (makeTensorWrapper_Ok_inv _ _ _ _ _ Hok) as (_ & _ & _ & -> & ->).
  repeat split. intros a Ha. unfold install. cbn [impls].
  by rewrite fn_lookup_insert_ne.
Qed.

(** X1: [makeTensorWrapper] allocates exactly one object, at the next free
    address, and touches nothing else: every other object, every liveness
    flag and the diagnostics stay as they were, so a tensor that existed
    before is seen as before: the same wrapper view, key set, sizes and
    strides. *)
Theorem makeTensorWrapper_frame (t t' : Tensor) (l : Z) (w w' : World) (r : Tensor) :
  makeTensorWrapper t l w = Ok (r, w') ->
  allocated w t' ->
  r = TensorRef (next_impl w)
  /\ next_impl w' = S (next_impl w)
  /\ (forall a, a <> next_impl w -> impls w' a = impls w a)
  /\ flags w' = flags w
  /\ next_flag w' = next_flag w
  /\ warnings w' = warnings w
  /\ proxy_view w' t' = proxy_view w t'
  /\ key_set w' t' = key_set w t'
  /\ sizes w' t' = sizes w t'
  /\ strides w' t' = strides w t'.
Proof.
  intros Hok Halloc.
  destruct (makeTensorWrapper_allocates _ _ _ _ _ Hok)
    as (Hr & Hn & Hold & Hf & Hnf & Hw).
  assert (Hsame : forall a, t' = TensorRef a -> impls w' a = impls w a).
  { intros a ->. apply Hold. unfold allocated in Halloc. cbn in Halloc. lia. }
  split; [done|]. split; [done|]. split; [done|].
  split; [done|]. split; [done|]. split; [done|].
  split; [by apply proxy_view_agree|].
  unfold key_set, sizes, strides.
  by rewrite (tensor_base_agree _ _ _ Hsame).
Qed.

(** X2: [makeTensorWrapperPtr] makes no level check.  It succeeds on every
    defined tensor and fails only the [value_.defined()] assertion; in
    particular it wraps an alive wrapper at a level that is not above the
    wrapper's own, where [makeTensorWrapper] fails its level assertion. *)
Theorem makeTensorWrapperPtr_skips_level_check (t : Tensor) (l : Z) (b : bool)
    (w : World) :
  cast_ok w t = true ->
  level_check w t l = false ->
  makeTensorWrapper t l w = AssertionFailure "wrapped->level() < level"
  /\ exists inner a w' tw,
       proxy_view w t = Some inner /\ alive_in w inner = true /\ ~ level_ inner < l
       /\ makeTensorWrapperPtr t l b w = Ok (a, w')
       /\ impls w' a = WrapperImpl tw
       /\ value_ tw = t /\ level_ tw = l.
Proof.
  intros Hc Hl. split.
  - by rewrite (makeTensorWrapper_spec _ _ _ Hc), Hl.
  - apply level_check_false in Hl as (inner & Hv & Ha & Hlt).
    destruct (proxy_view_defined _ _ _ Hv) as (a0 & -> & _).
    rewrite makeTensorWrapperPtr_spec. cbn [defined].
    exists inner. destruct b; eexists _, _, _;
      (split; [done|split; [done|split; [done|split; [reflexivity|]]]]);
      unfold install; cbn [impls]; rewrite fn_lookup_insert; by repeat split.
Qed.

(** X3: [makeTensorWrapperPtr] succeeds exactly on the defined tensors,
    whatever the level, the liveness request and the store, and an
    undefined tensor fails the [value_.defined()] assertion. *)
Theorem makeTensorWrapperPtr_succeeds_iff_defined (t : Tensor) (l : Z) (b : bool)
    (w : World) :
  is_Ok (makeTensorWrapperPtr t l b w) = defined t
  /\ (if defined t then True
     else makeTensorWrapperPtr t l b w = AssertionFailure "value_.defined()").
Proof.
  rewrite makeTensorWrapperPtr_spec. by destruct (defined t), b.
Qed.

(** X4: a wrapper that [makeTensorWrapperPtr] builds with
    [should_be_alive = false] owns a fresh flag that is false: it is dead
    from the start, whatever the state of its level, no other flag changes,
    and it stays dead, with an absent [level()], after any further calls
    into this file and ends of scopes. *)
Theorem makeTensorWrapperPtr_dead_forever (t : Tensor) (l : Z)
    (w w' w'' : World) (a : addr) :
  host_keeps_dead -> host_keeps_proxies ->
  makeTensorWrapperPtr t l false w = Ok (a, w') ->
  rtc step w' w'' ->
  (exists tw, impls w' a = WrapperImpl tw
              /\ is_alive_ tw = OwnedHandle (next_flag w)
              /\ level_ tw = l)
  /\ (forall h, h <> OwnedHandle (next_flag w) -> flags w' h = flags w h)
  /\ TensorWrapper_is_alive a w' = Ok (false, w')
  /\ TensorWrapper_level a w' = Ok (None, w')
  /\ TensorWrapper_is_alive a w'' = Ok (false, w'')
  /\ TensorWrapper_level a w'' = Ok (None, w'').
Proof.
  intros Hhost Hhost' Hok Hsteps.
  rewrite makeTensorWrapperPtr_spec in Hok.
  destruct (defined t); [|done]. injection Hok as <- <-.
  set (tw := mkWrapper _ t l (OwnedHandle (next_flag w))).
  set (w' := install (new_cell w false) (WrapperImpl tw)) in *.
  assert (Hi : impls w' (next_impl w) = WrapperImpl tw)
    by (unfold w', install; cbn [impls new_cell next_impl]; apply fn_lookup_insert).
  assert (Hd : flags w' (is_alive_ tw) = false)
    by (unfold w', install, new_cell; cbn; apply fn_lookup_insert).
  assert (Hd' : flags w'' (is_alive_ tw) = false)
    by (by apply (steps_keep_dead w' w'' Hhost Hsteps)).
  destruct (steps_keep_proxies w' w'' Hhost' Hsteps) as [_ Hkeep].
  destruct (Hkeep (next_impl w) tw ltac:(unfold w'; cbn; lia) Hi)
    as (tw'' & Hi'' & _ & _ & Hh).
  split; [by exists tw|]. split.
  { intros h Hh'. unfold w', install, new_cell. cbn [flags].
    by rewrite fn_lookup_insert_ne. }
  rewrite (TensorWrapper_is_alive_ok _ _ _ Hi), (TensorWrapper_level_ok _ _ _ Hi).
  rewrite (TensorWrapper_is_alive_ok _ _ _ Hi''), (TensorWrapper_level_ok _ _ _ Hi'').
  unfold level_in, alive_in. rewrite Hh, Hd, Hd'. by repeat split.
Qed.

(** X5: wrapping a wrapper gives the outer wrapper the key set of the
    inner one: the key set is stable under nesting. *)
Theorem nested_wrapper_key_set (v : Tensor) (l1 l2 : Z) (w w1 w2 : World)
    (r1 r2 : Tensor) :
  makeTensorWrapper v l1 w = Ok (r1, w1) ->
  makeTensorWrapper r1 l2 w1 = Ok (r2, w2) ->
  key_set w2 r2 = key_set w1 r1.
Proof.
  intros H1 H2.
  destruct (makeTensorWrapper_Ok_inv _ _ _ _ _ H1) as (_ & _ & _ & -> & ->).
  destruct (makeTensorWrapper_Ok_inv _ _ _ _ _ H2) as (_ & _ & _ & -> & ->).
  rewrite !key_set_installed. cbn [base_ mirrored_base key_set_].
  unfold wrapper_key_set at 1. rewrite key_set_installed.
  cbn [base_ mirrored_base key_set_]. unfold wrapper_key_set.
  apply set_eq. intros k.
  repeat (rewrite elem_of_union || rewrite elem_of_intersection). tauto.
Qed.

(** X6: wrapping a wrapper mirrors the metadata of the innermost value:
    sizes, strides, number of dimensions and storage offset of the outer
    wrapper are those of the value first wrapped, and its element count and
    contiguity flag are those of the inner wrapper. *)
Theorem nested_wrapper_metadata (v : Tensor) (l1 l2 : Z) (w w1 w2 : World)
    (r1 r2 : Tensor) :
  makeTensorWrapper v l1 w = Ok (r1, w1) ->
  makeTensorWrapper r1 l2 w1 = Ok (r2, w2) ->
  sizes w2 r2 = sizes w v
  /\ strides w2 r2 = strides w v
  /\ dim w2 r2 = dim w v
  /\ storage_offset w2 r2 = storage_offset w v
  /\ numel w2 r2 = numel w1 r1
  /\ is_contiguous w2 r2 = is_contiguous w1 r1.
Proof.
  intros H1 H2.
  destruct (makeTensorWrapper_Ok_inv _ _ _ _ _ H1) as (_ & _ & _ & -> & ->).
  destruct (makeTensorWrapper_Ok_inv _ _ _ _ _ H2) as (_ & _ & _ & -> & ->).
  unfold sizes, strides, dim, storage_offset, numel, is_contiguous.
  rewrite !tensor_base_installed.
  cbn [base_ mirrored_base sizes_and_strides_ storage_offset_ numel_ is_contiguous_].
  unfold storage_offset. rewrite !tensor_base_installed.
  by repeat split.
Qed.

End Factories.

(** ** Wrappers made in sequence *)

Section Sequences.
Context `{host : Host}.

(** The wrapper that [makeTensorWrapper] has made, seen from any store
    that holds the same object at its address. *)
Lemma made_view (v : Tensor) (l : Z) (w w1 w3 : World) (r : Tensor) :
  makeTensorWrapper v l w = Ok (r, w1) ->
  impls w3 (next_impl w) = impls w1 (next_impl w) ->
  r = TensorRef (next_impl w)
  /\ exists tw, proxy_view w3 r = Some tw
                /\ impls w3 (next_impl w) = WrapperImpl tw
                /\ value_ tw = v /\ level_ tw = l
                /\ is_alive_ tw = getLifeHandleForLevel l
                /\ base_ tw = mirrored_base (wrapper_key_set w v) w v.
Proof.
  intros Hok Hsame.
  destruct (makeTensorWrapper_Ok_inv _ _ _ _ _ Hok) as (_ & _ & _ & -> & ->).
  split; [done|].
  set (tw := mkWrapper _ v l _) in *.
  destruct (view_of_installed w tw (wrapper_key_set_has_key _ _)) as (Hi & _ & Hv & _).
  exists tw. rewrite Hsame, Hi.
  split; [|by repeat split].
  rewrite <- Hv. apply proxy_view_agree. intros a [= <-]. exact Hsame.
Qed.

(** Two wrappers made one after the other, seen from any store that holds
    the same objects. *)
Lemma made_twice_views (v1 v2 : Tensor) (l1 l2 : Z) (w w1 w2 w3 : World)
    (r1 r2 : Tensor) :
  makeTensorWrapper v1 l1 w = Ok (r1, w1) ->
  makeTensorWrapper v2 l2 w1 = Ok (r2, w2) ->
  impls w3 = impls w2 ->
  r1 <> r2
  /\ (exists tw1, proxy_view w3 r1 = Some tw1
                  /\ value_ tw1 = v1 /\ level_ tw1 = l1
                  /\ is_alive_ tw1 = getLifeHandleForLevel l1
                  /\ base_ tw1 = mirrored_base (wrapper_key_set w v1) w v1)
  /\ (exists tw2, proxy_view w3 r2 = Some tw2
                  /\ value_ tw2 = v2 /\ level_ tw2 = l2
                  /\ is_alive_ tw2 = getLifeHandleForLevel l2).
Proof.
  intros H1 H2 Hsame.
  destruct (makeTensorWrapper_allocates _ _ _ _ _ H1) as (Hr1 & Hn1 & _).
  destruct (makeTensorWrapper_allocates _ _ _ _ _ H2) as (Hr2 & _ & Hold & _).
  assert (Hne : next_impl w <> next_impl w1) by lia.
  destruct (made_view _ _ _ _ w3 _ H1) as (_ & tw1 & Hv1 & _ & Hrest1).
  { rewrite Hsame. by apply Hold. }
  destruct (made_view _ _ _ _ w3 _ H2) as (_ & tw2 & Hv2 & _ & Hval & Hlvl & Hh & _).
  { by rewrite Hsame. }
  split; [congruence|]. split; [by exists tw1 | by exists tw2].
Qed.

End Sequences.

(** ** More on the dead-wrapper fallback *)

Section FallbackMore.
Context `{host : Host}.

(** The fallback in closed form. *)
Lemma dead_tensor_wrapper_fallback_closed (op : OperatorHandle)
    (stack : list IValue) (w : World) :
  (schema_arguments_size op <= length stack)%nat ->
  Z.of_nat (length stack) < 2 ^ 63 ->
  Forall (fun iv => operand_cast_ok w iv = true)
         (drop (length stack - schema_arguments_size op) stack) ->
  dead_tensor_wrapper_fallback op stack w
  = if existsb (is_dead_proxy w)
         (drop (length stack - schema_arguments_size op) stack)
    then callBoxed op
           (take (length stack - schema_arguments_size op) stack
            ++ (unwrap_if_dead w
                  <$> drop (length stack - schema_arguments_size op) stack)) w
    else AssertionFailure "Should have at least one dead wrapper".
Proof.
  intros Hn Hsz Hok.
  set (begin := (length stack - schema_arguments_size op)%nat) in *.
  unfold dead_tensor_wrapper_fallback, foreachTensorInplace. cbv zeta.
  assert (Hb : to_int64 (size_t_sub (Z.of_nat (length stack))
                           (Z.of_nat (schema_arguments_size op)))
               = Z.of_nat (length (take begin stack))).
  { rewrite length_take. unfold size_t_sub, to_int64, begin.
    rewrite Z.mod_small by lia. rewrite bool_decide_eq_true_2 by lia. lia. }
  assert (He : to_int64 (Z.of_nat (length stack)) = Z.of_nat (length stack))
    by (unfold to_int64; by rewrite bool_decide_eq_true_2).
  rewrite Hb, He.
  replace (Z.to_nat (Z.of_nat (length stack) - Z.of_nat (length (take begin stack))))
    with (length (drop begin stack))
    by (rewrite length_take, length_drop; unfold begin; lia).
  rewrite <- (take_drop begin stack) at 3.
  rewrite <- (app_nil_r (drop begin stack)) at 2.
  rewrite (bind_Ok _ _ _ _ _ (foreachTensorInplace_loop_spec _ _ [] 0 w Hok)).
  cbn [fst snd]. rewrite app_nil_r, Z.add_0_l, count_dead_pos.
  by destruct (existsb _ _).
Qed.

(** On a single tensor operand. *)
Lemma dead_tensor_wrapper_fallback_single (op : OperatorHandle) (t : Tensor)
    (w : World) :
  schema_arguments_size op = 1%nat ->
  cast_ok w t = true ->
  dead_tensor_wrapper_fallback op [IVTensor t] w
  = if is_dead_proxy w (IVTensor t)
    then callBoxed op [unwrap_if_dead w (IVTensor t)] w
    else AssertionFailure "Should have at least one dead wrapper".
Proof.
  intros Hone Hc.
  rewrite dead_tensor_wrapper_fallback_closed; rewrite ?Hone; cbn [length];
    [| lia | lia | by repeat constructor].
  cbn [drop take existsb fmap list_fmap app Nat.sub].
  by destruct (is_dead_proxy w (IVTensor t)).
Qed.

(** X7: a value is wrapped at level [l1] and the result at level [l2];
    then level [l2] ends while [l1] is still active.  An operation on the
    outer wrapper goes through the fallback and is re-submitted on the
    inner wrapper, which still reports level [l1] and the sizes of the
    value. *)
Theorem fallback_reaches_inner_wrapper (op : OperatorHandle) (v : Tensor)
    (l1 l2 : Z) (w w1 w2 w3 : World) (r1 r2 : Tensor) :
  schema_arguments_size op = 1%nat ->
  makeTensorWrapper v l1 w = Ok (r1, w1) ->
  makeTensorWrapper r1 l2 w1 = Ok (r2, w2) ->
  impls w3 = impls w2 ->
  flags w3 (getLifeHandleForLevel l1) = true ->
  flags w3 (getLifeHandleForLevel l2) = false ->
  dead_tensor_wrapper_fallback op [IVTensor r2] w3 = callBoxed op [IVTensor r1] w3
  /\ (exists a1, r1 = TensorRef a1 /\ TensorWrapper_level a1 w3 = Ok (Some l1, w3))
  /\ sizes w3 r1 = sizes w v.
Proof.
  intros Hone H1 H2 Hsame Hlive Hdead.
  destruct (made_twice_views _ _ _ _ _ _ _ w3 _ _ H1 H2 Hsame)
    as (_ & (tw1 & Hv1 & Hval1 & Hlvl1 & Hh1 & Hb1) & (tw2 & Hv2 & Hval2 & Hlvl2 & Hh2)).
  split; [|split].
  - rewrite dead_tensor_wrapper_fallback_single
      by eauto using proxy_view_cast_ok.
    cbn [is_dead_proxy unwrap_if_dead]. rewrite Hv2.
    unfold alive_in. rewrite Hh2, Hdead. cbn. by rewrite Hval2.
  - destruct (proxy_view_defined _ _ _ Hv1) as (a1 & -> & Hi1).
    exists a1. split; [done|].
    rewrite (TensorWrapper_level_ok _ _ _ Hi1).
    unfold level_in, alive_in. by rewrite Hh1, Hlive, Hlvl1.
  - destruct (proxy_view_defined _ _ _ Hv1) as (a1 & -> & Hi1).
    unfold sizes, tensor_base at 1. by rewrite Hi1; cbn; rewrite Hb1.
Qed.

(** X8: the fallback removes one layer per invocation.  When both levels
    have ended, the operation on the outer wrapper is re-submitted on the
    inner wrapper, which is itself a dead wrapper; the fallback on that one
    is re-submitted on the value. *)
Theorem fallback_unwraps_one_layer (op : OperatorHandle) (v : Tensor)
    (l1 l2 : Z) (w w1 w2 w3 : World) (r1 r2 : Tensor) :
  schema_arguments_size op = 1%nat ->
  makeTensorWrapper v l1 w = Ok (r1, w1) ->
  makeTensorWrapper r1 l2 w1 = Ok (r2, w2) ->
  impls w3 = impls w2 ->
  flags w3 (getLifeHandleForLevel l1) = false ->
  flags w3 (getLifeHandleForLevel l2) = false ->
  dead_tensor_wrapper_fallback op [IVTensor r2] w3 = callBoxed op [IVTensor r1] w3
  /\ is_dead_proxy w3 (IVTensor r1) = true
  /\ dead_tensor_wrapper_fallback op [IVTensor r1] w3 = callBoxed op [IVTensor v] w3.
Proof.
  intros Hone H1 H2 Hsame Hdead1 Hdead2.
  destruct (made_twice_views _ _ _ _ _ _ _ w3 _ _ H1 H2 Hsame)
    as (_ & (tw1 & Hv1 & Hval1 & Hlvl1 & Hh1 & Hb1) & (tw2 & Hv2 & Hval2 & Hlvl2 & Hh2)).
  assert (Hd1 : is_dead_proxy w3 (IVTensor r1) = true)
    by (cbn; rewrite Hv1; unfold alive_in; by rewrite Hh1, Hdead1).
  split; [|split; [done|]].
  - rewrite dead_tensor_wrapper_fallback_single
      by eauto using proxy_view_cast_ok.
    cbn [is_dead_proxy unwrap_if_dead]. rewrite Hv2.
    unfold alive_in. rewrite Hh2, Hdead2. cbn. by rewrite Hval2.
  - rewrite dead_tensor_wrapper_fallback_single
      by eauto using proxy_view_cast_ok.
    rewrite Hd1. cbn [unwrap_if_dead]. rewrite Hv1.
    unfold alive_in. rewrite Hh1, Hdead1. by rewrite Hval1.
Qed.

(** X9: when no argument of the operator is a tensor (in particular, when
    the operator has no argument), the fallback fails its assertion: there
    is nothing to unwrap, and the operation is not re-submitted. *)
Theorem fallback_without_tensor_argument_fails (op : OperatorHandle)
    (stack : list IValue) (w : World) :
  (schema_arguments_size op <= length stack)%nat ->
  Z.of_nat (length stack) < 2 ^ 63 ->
  Forall (fun iv => exists z, iv = IVOther z)
         (drop (length stack - schema_arguments_size op) stack) ->
  dead_tensor_wrapper_fallback op stack w
  = AssertionFailure "Should have at least one dead wrapper".
Proof.
  intros Hn Hsz Hother.
  rewrite dead_tensor_wrapper_fallback_closed; [|done|done|].
  - replace (existsb _ _) with false; [done|].
    symmetry. induction Hother as [|iv ivs [z ->] _ IH]; [done|]. cbn. exact IH.
  - eapply Forall_impl; [exact Hother|]. by intros iv [z ->].
Qed.

End FallbackMore.

(** ** More on the handler of [copy_] *)

Section CopyMore.
Context `{host : Host}.

(** X10: an operand without the wrapper key (an ordinary or an undefined
    tensor, on either side) makes the handler warn once and return [self];
    no level is read of the other operand, and no object or flag
    changes. *)
Theorem copy_without_wrapper_key_warns (self src : Tensor) (nb : bool) (w : World) :
  DispatchKeySet_has (key_set w self) kGradWrapperKey = false
  \/ DispatchKeySet_has (key_set w src) kGradWrapperKey = false ->
  copy_wrapper_tensor_ self src nb w = Ok (self, warned w copy_warning)
  /\ impls (warned w copy_warning) = impls w
  /\ flags (warned w copy_warning) = flags w
  /\ warnings (warned w copy_warning) = warnings w ++ [copy_warning].
Proof.
  intros Hkey. split; [|done].
  unfold copy_wrapper_tensor_.
  unfold mbind at 1. unfold M_bind, bind at 1. unfold get_world at 1.
  cbv beta iota zeta.
  destruct Hkey as [Hk|Hk]; apply maybeGetTensorWrapper_None in Hk; rewrite Hk.
  - reflexivity.
  - by destruct (maybeGetTensorWrapper w self).
Qed.

(** X11: copying a wrapper onto itself is never rejected, whether the
    wrapper is alive or dead: the handler is the host's [copy_] of the
    underlying value onto itself, and no warning is emitted. *)
Theorem copy_onto_itself (t : Tensor) (nb : bool) (w : World) (tw : TensorWrapper) :
  proxy_view w t = Some tw ->
  copy_wrapper_tensor_ t t nb w = Tensor_copy_ (value_ tw) (value_ tw) nb w.
Proof. intros Hv. by apply copy_wrapper_tensor__copies. Qed.

(** X12: two wrappers that [makeTensorWrapper] made at the same level
    share the liveness flag of that level, so their [level()] values agree
    in every later state of the flags: the handler always copies between
    them, in both directions, while the level is active and after it has
    ended. *)
Theorem same_level_wrappers_always_copy (v1 v2 : Tensor) (l : Z) (nb : bool)
    (w w1 w2 w3 : World) (r1 r2 : Tensor) :
  makeTensorWrapper v1 l w = Ok (r1, w1) ->
  makeTensorWrapper v2 l w1 = Ok (r2, w2) ->
  impls w3 = impls w2 ->
  copy_wrapper_tensor_ r1 r2 nb w3 = Tensor_copy_ v1 v2 nb w3
  /\ copy_wrapper_tensor_ r2 r1 nb w3 = Tensor_copy_ v2 v1 nb w3.
Proof.
  intros H1 H2 Hsame.
  destruct (made_twice_views _ _ _ _ _ _ _ w3 _ _ H1 H2 Hsame)
    as (_ & (tw1 & Hv1 & Hval1 & Hlvl1 & Hh1 & _) & (tw2 & Hv2 & Hval2 & Hlvl2 & Hh2)).
  assert (Heq : level_in w3 tw1 = level_in w3 tw2)
    by (unfold level_in, alive_in; by rewrite Hh1, Hh2, Hlvl1, Hlvl2).
  rewrite <- Hval1, <- Hval2.
  split; by apply copy_wrapper_tensor__copies.
Qed.

(** X13: two wrappers that [makeTensorWrapper] made at different levels:
    the handler rejects the copy with the warning as long as at least one
    of the two levels is active, and copies between the underlying values
    once both levels have ended. *)
Theorem different_level_wrappers_copy_when_dead (v1 v2 : Tensor) (l1 l2 : Z)
    (nb : bool) (w w1 w2 w3 : World) (r1 r2 : Tensor) :
  l1 <> l2 ->
  makeTensorWrapper v1 l1 w = Ok (r1, w1) ->
  makeTensorWrapper v2 l2 w1 = Ok (r2, w2) ->
  impls w3 = impls w2 ->
  copy_wrapper_tensor_ r1 r2 nb w3
  = if flags w3 (getLifeHandleForLevel l1) || flags w3 (getLifeHandleForLevel l2)
    then Ok (r1, warned w3 copy_warning)
    else Tensor_copy_ v1 v2 nb w3.
Proof.
  intros Hne H1 H2 Hsame.
  destruct (made_twice_views _ _ _ _ _ _ _ w3 _ _ H1 H2 Hsame)
    as (_ & (tw1 & Hv1 & Hval1 & Hlvl1 & Hh1 & _) & (tw2 & Hv2 & Hval2 & Hlvl2 & Hh2)).
  rewrite copy_wrapper_tensor__spec by eauto using proxy_view_cast_ok.
  rewrite Hv1, Hv2. unfold level_in, alive_in, optional_ne.
  rewrite Hh1, Hh2, Hlvl1, Hlvl2, Hval1, Hval2.
  destruct (flags w3 (getLifeHandleForLevel l1)),
    (flags w3 (getLifeHandleForLevel l2)); cbn;
    try (rewrite bool_decide_eq_false_2 by congruence; reflexivity).
  by rewrite bool_decide_eq_true_2.
Qed.

End CopyMore.

(** ** Duplicates of wrappers that the factories made *)

Section DuplicationMore.
Context `{host : Host}.

Lemma shallow_copy_and_detach_base (this : addr) (vc : nat) (allow : bool)
    (w : World) (tw : TensorWrapper) :
  impls w this = WrapperImpl tw -> defined (value_ tw) = true ->
  exists w' tw',
    TensorWrapper_shallow_copy_and_detach this vc allow w = Ok (next_impl w, w')
    /\ impls w' (next_impl w) = WrapperImpl tw'
    /\ value_ tw' = value_ tw
    /\ base_ tw'
       = set_allow_tensor_metadata_change allow
           (set_version_counter vc
              (mirrored_base (wrapper_key_set w (value_ tw)) w (value_ tw)))
    /\ (forall b, b <> next_impl w -> impls w' b = impls w b)
    /\ next_impl w' = S (next_impl w).
Proof.
  intros Hthis Hdef. unfold TensorWrapper_shallow_copy_and_detach.
  rewrite (bind_Ok _ _ _ _ _ (TensorWrapper_value_ok _ _ _ Hthis)).
  rewrite (bind_Ok _ _ _ _ _ (as_wrapper_ok _ _ _ Hthis)).
  rewrite (bind_Ok _ _ _ _ _ (TensorWrapper_is_alive_ok _ _ _ Hthis)).
  unfold mbind at 1. unfold M_bind, bind at 1.
  rewrite makeTensorWrapperPtr_spec, Hdef.
  unfold update_base. unfold_monad.
  destruct (alive_in w tw); cbv beta iota;
    (eexists _, _; split; [reflexivity|]);
    unfold install, new_cell; cbn [impls flags next_impl next_flag];
    rewrite !fn_lookup_insert; cbn [set_base];
    (split; [reflexivity|]); cbn;
    repeat split; try reflexivity;
    intros b Hb; by rewrite !fn_lookup_insert_ne.
Qed.

(** X14: the duplicate of a wrapper that [makeTensorWrapper] has just made
    of an allocated value reports the same key set and the same sizes,
    strides, storage offset, element count and contiguity as the original;
    it carries the version counter and the allow-metadata-change flag that
    were passed, and the original is left as it was. *)
Theorem duplicate_of_made_wrapper (v : Tensor) (l : Z) (vc : nat) (allow : bool)
    (w w1 : World) (r : Tensor) :
  allocated w v ->
  makeTensorWrapper v l w = Ok (r, w1) ->
  exists a dest w2,
    r = TensorRef a
    /\ TensorWrapper_shallow_copy_and_detach a vc allow w1 = Ok (dest, w2)
    /\ dest <> a
    /\ impls w2 a = impls w1 a
    /\ key_set w2 (TensorRef dest) = key_set w1 r
    /\ sizes w2 (TensorRef dest) = sizes w1 r
    /\ strides w2 (TensorRef dest) = strides w1 r
    /\ storage_offset w2 (TensorRef dest) = storage_offset w1 r
    /\ numel w2 (TensorRef dest) = numel w1 r
    /\ is_contiguous w2 (TensorRef dest) = is_contiguous w1 r
    /\ version_counter_ (tensor_base w2 (TensorRef dest)) = vc
    /\ allow_tensor_metadata_change_ (tensor_base w2 (TensorRef dest)) = allow.
Proof.
  intros Halloc Hok.
  destruct (makeTensorWrapper_allocates _ _ _ _ _ Hok) as (Hr & Hn & _).
  destruct (made_view _ _ _ _ w1 _ Hok eq_refl)
    as (_ & tw & Hv & Hi & Hval & _ & _ & Hb).
  destruct (makeTensorWrapper_Ok_inv _ _ _ _ _ Hok) as (_ & _ & Hd & _ & Hw1).
  destruct (shallow_copy_and_detach_base (next_impl w) vc allow w1 tw Hi
              ltac:(by rewrite Hval))
    as (w2 & tw' & Hrun & Hi' & _ & Hb' & Hold & _).
  assert (Hbase : tensor_base w1 v = tensor_base w v).
  { apply tensor_base_agree. rewrite Hw1. by apply install_old. }
  assert (Hsame : mirrored_base (wrapper_key_set w1 v) w1 v
                  = mirrored_base (wrapper_key_set w v) w v).
  { unfold mirrored_base, wrapper_key_set, storage_offset, key_set.
    by rewrite Hbase. }
  exists (next_impl w), (next_impl w1), w2.
  split; [done|]. split; [done|]. split; [lia|]. split; [apply Hold; lia|].
  unfold key_set, sizes, strides, storage_offset, numel, is_contiguous.
  replace (tensor_base w2 (TensorRef (next_impl w1))) with (base_ tw')
    by (unfold tensor_base; by rewrite Hi').
  replace (tensor_base w1 r) with (base_ tw)
    by (rewrite Hr; unfold tensor_base; by rewrite Hi).
  rewrite Hb', Hb, Hval, Hsame. by repeat split.
Qed.

(** The store stays well formed when one wrapper is added that wraps an
    allocated, defined tensor. *)
Lemma store_ok_extend (w w' : World) (tw : TensorWrapper) :
  store_ok w ->
  next_impl w' = S (next_impl w) ->
  (forall b, b <> next_impl w -> impls w' b = impls w b) ->
  impls w' (next_impl w) = WrapperImpl tw ->
  defined (value_ tw) = true -> allocated w (value_ tw) ->
  store_ok w'.
Proof.
  intros [Hord Htag] Hn Hold Hnew Hdef Halloc. split.
  - intros a tw0 Ha Hi.
    destruct (decide (a = next_impl w)) as [->|Hne].
    + rewrite Hnew in Hi. injection Hi as <-. by split.
    + rewrite Hold in Hi by done. apply Hord; [lia | done].
  - intros a Ha.
    destruct (decide (a = next_impl w)) as [->|Hne].
    + unfold cast_ok. destruct (maybeGetTensorWrapper _ _) as [b|] eqn:Hm; [|done].
      assert (b = next_impl w) as ->.
      { unfold maybeGetTensorWrapper in Hm. destruct (negb _); congruence. }
      by rewrite Hnew.
    + rewrite <- (Htag a ltac:(lia)). apply cast_ok_agree.
      intros b [= <-]. by apply Hold.
Qed.

(** [makeTensorWrapper] keeps the store well formed. *)
Lemma makeTensorWrapper_store_ok (t : Tensor) (l : Z) (w w' : World) (r : Tensor) :
  store_ok w -> allocated w t ->
  makeTensorWrapper t l w = Ok (r, w') ->
  store_ok w' /\ allocated w' r /\ (rank t < rank r)%nat.
Proof.
  intros Hok Halloc Hm.
  destruct (makeTensorWrapper_allocates _ _ _ _ _ Hm) as (-> & Hn & Hold & _).
  destruct (made_view _ _ _ _ w' _ Hm eq_refl) as (_ & tw & _ & Hi & Hval & _).
  destruct (makeTensorWrapper_Ok_inv _ _ _ _ _ Hm) as (_ & _ & Hd & _).
  split; [|split].
  - eapply store_ok_extend; eauto; by rewrite Hval.
  - unfold allocated. cbn. lia.
  - unfold allocated in Halloc. cbn. lia.
Qed.

(** X15: the factories keep the store well formed.  In a store where every
    wrapper wraps a defined, older tensor and only wrappers carry the
    wrapper key, wrapping an allocated tensor with [makeTensorWrapper] or
    [makeTensorWrapperPtr], or duplicating a wrapper, gives a store of the
    same kind, and the new tensor is allocated: no cycle of wrappers is
    ever built. *)
Theorem factories_keep_store_ok (t : Tensor) (this : addr) (w : World) :
  store_ok w -> allocated w t -> (this < next_impl w)%nat ->
  (forall l r w', makeTensorWrapper t l w = Ok (r, w') ->
     store_ok w' /\ allocated w' r /\ (rank t < rank r)%nat)
  /\ (forall l b a w', makeTensorWrapperPtr t l b w = Ok (a, w') ->
        store_ok w' /\ allocated w' (TensorRef a) /\ (rank t <= a)%nat)
  /\ (forall vc allow a w',
        TensorWrapper_shallow_copy_and_detach this vc allow w = Ok (a, w') ->
        store_ok w' /\ allocated w' (TensorRef a)).
Proof.
  intros Hok Halloc Hthis. split; [|split].
  - intros l r w' Hm. by apply (makeTensorWrapper_store_ok t l w).
  - intros l b a w' Hm.
    destruct (makeTensorWrapperPtr_Ok_inv _ _ _ _ _ _ Hm)
      as (Hd & -> & h & w0 & -> & Hn0 & Hw0).
    assert (Himpls : impls w0 = impls w) by (destruct b, Hw0 as [_ ->]; done).
    split; [|split].
    + eapply (store_ok_extend w); eauto.
      * cbn. by rewrite Hn0.
      * intros c Hc. unfold install. cbn [impls].
        rewrite fn_lookup_insert_ne by lia. by rewrite Himpls.
      * unfold install. cbn [impls]. rewrite Hn0. apply fn_lookup_insert.
      * exact Hd.
      * exact Halloc.
    + unfold allocated. cbn. lia.
    + exact Halloc.
  - intros vc allow a w' Hm.
    destruct (impls w this) as [bb d|tw] eqn:Hi.
    { unfold TensorWrapper_shallow_copy_and_detach, TensorWrapper_value, as_wrapper in Hm.
      unfold_monad. by rewrite Hi in Hm. }
    destruct Hok as [Hord Htag].
    destruct (Hord this tw Hthis Hi) as [Hdef Hrank].
    destruct (shallow_copy_and_detach_base this vc allow w tw Hi Hdef)
      as (w2 & tw' & Hrun & Hi' & Hval & _ & Hold & Hn).
    rewrite Hrun in Hm. injection Hm as <- <-.
    split.
    + eapply (store_ok_extend w); eauto; [by split | by rewrite Hval |].
      rewrite Hval. unfold allocated. lia.
    + unfold allocated. cbn. lia.
Qed.

End DuplicationMore.

(** ** The diagnostic dump *)

Lemma string_app_assoc (s1 s2 s3 : string) :
  (s1 +:+ s2) +:+ s3 = s1 +:+ (s2 +:+ s3).
Proof.
  induction s1 as [|c s1 IH]; [done|].
  change (String c ((s1 +:+ s2) +:+ s3) = String c (s1 +:+ (s2 +:+ s3))).
  by f_equal.
Qed.

Lemma stream_prefix_close (ss : string) (r : option (result string)) :
  stream_close (stream_prefix ss r) = stream_prefix ss (stream_close r).
Proof.
  destruct r as [[out| |]|]; unfold stream_close, stream_prefix; try done.
  by rewrite string_app_assoc.
Qed.

Lemma stream_prefix_prefix (s1 s2 : string) (r : option (result string)) :
  stream_prefix s1 (stream_prefix s2 r) = stream_prefix (s1 +:+ s2) r.
Proof.
  destruct r as [[out| |]|]; unfold stream_close, stream_prefix; try done.
  by rewrite string_app_assoc.
Qed.

Section DumpProperties.
Context `{host : Host}.
Variable maybeGetBatchedImpl : Tensor -> option BatchedView.
Variable show_int64 : Z -> string.
Variable show_sizes : list Z -> string.

Local Abbreviation dump := (dumpTensor maybeGetBatchedImpl show_int64 show_sizes).

Lemma dumpTensor_step (fuel : nat) (w : World) (ss : string) (t : Tensor) :
  dump (S fuel) w ss t
  = match maybeGetTensorWrapper w t with
    | None =>
        match maybeGetBatchedImpl t with
        | Some batched =>
            stream_close
              (dump fuel w
                 (((((ss +:+ "Batched[lvl=") +:+ show_int64 (batched_level batched))
                     +:+ " dim=") +:+ show_int64 (batched_bdim batched)) +:+ ", ")
                 (batched_value batched))
        | None => Some (Ok ((ss +:+ "Tensor") +:+ show_sizes (sizes w t)))
        end
    | Some wrapped =>
        match TensorWrapper_level wrapped w with
        | Ok (lvl, _) =>
            match TensorWrapper_value wrapped w with
            | Ok (v, _) =>
                stream_close
                  (dump fuel w
                     match lvl with
                     | Some l => (((ss +:+ "Wrapper[") +:+ "lvl=") +:+ show_int64 l) +:+ ", "
                     | None => (ss +:+ "Wrapper[") +:+ "dead, "
                     end v)
            | AssertionFailure msg => Some (AssertionFailure msg)
            | UndefinedBehaviour => Some UndefinedBehaviour
            end
        | AssertionFailure msg => Some (AssertionFailure msg)
        | UndefinedBehaviour => Some UndefinedBehaviour
        end
    end.
Proof. reflexivity. Qed.

(** The dump on a stream that holds [ss] is [ss], then the dump on an empty
    stream. *)
Lemma dumpTensor_prefix (fuel : nat) (w : World) (ss : string) (t : Tensor) :
  dump fuel w ss t = stream_prefix ss (dump fuel w "" t).
Proof.
  revert ss t. induction fuel as [|fuel IH]; intros ss t; [done|].
  rewrite !dumpTensor_step.
  assert (Hrec : forall s1 s2 x,
            s1 = ss +:+ s2 ->
            stream_close (dump fuel w s1 x)
            = stream_prefix ss (stream_close (dump fuel w s2 x))).
  { intros s1 s2 x ->. rewrite (IH (ss +:+ s2)), (IH s2).
    by rewrite <- !stream_prefix_close, stream_prefix_prefix. }
  destruct (maybeGetTensorWrapper w t) as [a|].
  - destruct (TensorWrapper_level a w) as [[lvl w1]| |]; [|done|done].
    destruct (TensorWrapper_value a w) as [[v w2]| |]; [|done|done].
    apply Hrec. destruct lvl; by rewrite ?string_app_assoc.
  - destruct (maybeGetBatchedImpl t) as [bv|].
    + cbv zeta. apply Hrec. by rewrite ?string_app_assoc.
    + unfold stream_prefix. by rewrite !string_app_assoc.
Qed.

(** X16: the dump only appends to the stream.  What it writes, and whether
    it fails, does not depend on the text the stream already holds: the dump
    on a stream that holds [s1 +:+ s2] is [s1], then the dump on a stream
    that holds [s2]. *)
Theorem dumpTensor_appends (fuel : nat) (w : World) (s1 s2 : string) (t : Tensor) :
  dump fuel w (s1 +:+ s2) t = stream_prefix s1 (dump fuel w s2 t).
Proof.
  rewrite (dumpTensor_prefix fuel w (s1 +:+ s2)), (dumpTensor_prefix fuel w s2).
  by rewrite stream_prefix_prefix.
Qed.

(** More fuel does not change a dump that has been completed. *)
Lemma dumpTensor_more_fuel (fuel : nat) (w : World) (ss : string) (t : Tensor) r :
  dump fuel w ss t = Some r -> dump (S fuel) w ss t = Some r.
Proof.
  revert ss t r. induction fuel as [|fuel IH]; intros ss t r; [done|].
  intros Hrun. rewrite dumpTensor_step in Hrun. rewrite (dumpTensor_step (S fuel)).
  destruct (maybeGetTensorWrapper w t) as [a|].
  - destruct (TensorWrapper_level a w) as [[lvl w1]| |]; [|done|done].
    destruct (TensorWrapper_value a w) as [[v w2]| |]; [|done|done].
    destruct (dump fuel w _ v) as [r0|] eqn:Hsub; [|done].
    by rewrite (IH _ _ _ Hsub).
  - destruct (maybeGetBatchedImpl t) as [bv|]; [|done].
    destruct (dump fuel w _ (batched_value bv)) as [r0|] eqn:Hsub; [|done].
    by rewrite (IH _ _ _ Hsub).
Qed.

(** In a well-formed store, fuel above the age of the tensor completes the
    dump. *)
Lemma dumpTensor_completes (fuel : nat) (w : World) (ss : string) (t : Tensor) :
  store_ok w -> batched_older maybeGetBatchedImpl ->
  allocated w t -> (rank t < fuel)%nat ->
  exists out, dump fuel w ss t = Some (Ok out).
Proof.
  intros [Hord Htag] Hbatched. revert ss t.
  induction fuel as [|fuel IH]; intros ss t Halloc Hrank; [lia|].
  rewrite dumpTensor_step.
  destruct (maybeGetTensorWrapper w t) as [a|] eqn:Hm.
  - assert (t = TensorRef a) as ->.
    { unfold maybeGetTensorWrapper in Hm. destruct (negb _); [done|].
      destruct t; congruence. }
    unfold allocated in Halloc. cbn in Halloc, Hrank.
    destruct (cast_ok_view _ _ _ (Htag a ltac:(lia)) Hm) as (tw & Hi & _).
    rewrite (TensorWrapper_level_ok _ _ _ Hi), (TensorWrapper_value_ok _ _ _ Hi).
    destruct (Hord a tw ltac:(lia) Hi) as [_ Hval].
    match goal with
    | |- context [dumpTensor _ _ _ fuel w ?s (value_ tw)] =>
        destruct (IH s (value_ tw)) as (out & Hout)
    end.
    { unfold allocated. lia. }
    { lia. }
    rewrite Hout. cbn. eauto.
  - destruct (maybeGetBatchedImpl t) as [bv|] eqn:Hb; [|eauto].
    cbv zeta. pose proof (Hbatched _ _ Hb) as Hlt.
    match goal with
    | |- context [dumpTensor _ _ _ fuel w ?s (batched_value bv)] =>
        destruct (IH s (batched_value bv)) as (out & Hout)
    end.
    { unfold allocated in *. lia. }
    { lia. }
    rewrite Hout. cbn. eauto.
Qed.

(** X17: in a store where every wrapper wraps a defined, older tensor and
    only wrappers carry the wrapper key, the dump of an allocated tensor
    terminates and writes a text: its recursion through [value()] is
    bounded by the age of the tensor, and any larger bound gives the same
    text. *)
Theorem dumpTensor_terminates (w : World) (ss : string) (t : Tensor) (extra : nat) :
  store_ok w -> batched_older maybeGetBatchedImpl -> allocated w t ->
  exists out,
    dump (S (rank t)) w ss t = Some (Ok out)
    /\ dump (S (rank t) + extra) w ss t = Some (Ok out).
Proof.
  intros Hok Hb Halloc.
  destruct (dumpTensor_completes (S (rank t)) w ss t Hok Hb Halloc ltac:(lia))
    as (out & Hout).
  exists out. split; [done|].
  induction extra as [|extra IH].
  - by rewrite Nat.add_0_r.
  - rewrite Nat.add_succ_r. by apply dumpTensor_more_fuel.
Qed.

(** A store that agrees with [w] on the allocated objects and on the flags
    dumps the allocated tensors as [w] does. *)
Lemma dumpTensor_agree (fuel : nat) (w w' : World) (ss : string) (t : Tensor) :
  store_ok w -> batched_older maybeGetBatchedImpl ->
  (forall a, (a < next_impl w)%nat -> impls w' a = impls w a) ->
  flags w' = flags w ->
  allocated w t ->
  dump fuel w' ss t = dump fuel w ss t.
Proof.
  intros [Hord Htag] Hbatched Hold Hflags. revert ss t.
  induction fuel as [|fuel IH]; intros ss t Halloc; [done|].
  rewrite !dumpTensor_step.
  assert (Hagree : forall a, t = TensorRef a -> impls w' a = impls w a).
  { intros a ->. apply Hold. unfold allocated in Halloc. cbn in Halloc. lia. }
  rewrite (maybeGetTensorWrapper_agree _ _ _ Hagree).
  destruct (maybeGetTensorWrapper w t) as [a|] eqn:Hm.
  - assert (t = TensorRef a) as ->.
    { unfold maybeGetTensorWrapper in Hm. destruct (negb _); [done|].
      destruct t; congruence. }
    unfold allocated in Halloc. cbn in Halloc.
    destruct (cast_ok_view _ _ _ (Htag a ltac:(lia)) Hm) as (tw & Hi & _).
    assert (Hi' : impls w' a = WrapperImpl tw) by (by rewrite (Hagree a eq_refl)).
    rewrite (TensorWrapper_level_ok _ _ _ Hi), (TensorWrapper_value_ok _ _ _ Hi).
    rewrite (TensorWrapper_level_ok _ _ _ Hi'), (TensorWrapper_value_ok _ _ _ Hi').
    destruct (Hord a tw ltac:(lia) Hi) as [_ Hval].
    unfold level_in, alive_in. rewrite Hflags.
    rewrite IH; [done|]. unfold allocated. lia.
  - destruct (maybeGetBatchedImpl t) as [bv|] eqn:Hb.
    + cbv zeta. pose proof (Hbatched _ _ Hb) as Hlt.
      rewrite IH; [done|]. unfold allocated in *. lia.
    + unfold sizes. by rewrite (tensor_base_agree _ _ _ Hagree).
Qed.

(** X18: [makeTensorWrapper] does not change how the tensors that exist
    already are dumped. *)
Theorem makeTensorWrapper_keeps_dumps (fuel : nat) (v t : Tensor) (l : Z)
    (w w' : World) (r : Tensor) (ss : string) :
  store_ok w -> batched_older maybeGetBatchedImpl -> allocated w t ->
  makeTensorWrapper v l w = Ok (r, w') ->
  dump fuel w' ss t = dump fuel w ss t.
Proof.
  intros Hok Hb Halloc Hm.
  destruct (makeTensorWrapper_allocates _ _ _ _ _ Hm) as (_ & _ & Hold & Hflags & _).
  apply dumpTensor_agree; try done.
  intros a Ha. apply Hold. lia.
Qed.

(** The dump of a wrapper: the header with its [level()], the dump of its
    underlying value, and the closing bracket. *)
Lemma dumpTensor_wrapper (fuel : nat) (w : World) (ss : string) (t : Tensor)
    (tw : TensorWrapper) :
  proxy_view w t = Some tw ->
  dump (S fuel) w ss t
  = stream_prefix (ss +:+ "Wrapper[" +:+ level_text show_int64 (level_in w tw))
      (stream_close (dump fuel w "" (value_ tw))).
Proof.
  intros (a & Hm & Hi)%proxy_view_Some. rewrite dumpTensor_step, Hm.
  rewrite (TensorWrapper_level_ok _ _ _ Hi), (TensorWrapper_value_ok _ _ _ Hi).
  rewrite dumpTensor_prefix, stream_prefix_close. f_equal.
  unfold level_text. destruct (level_in w tw); by rewrite ?string_app_assoc.
Qed.

(** X19: a tensor that is neither a wrapper nor batched is wrapped at
    level [l1] and the result at level [l2].  The dump of the outer wrapper
    is [Wrapper[..., Wrapper[..., Tensor<sizes>]]], where each header is
    [lvl=l] while the level is active and [dead] once it has ended. *)
Theorem dumpTensor_of_nested_wrappers (fuel : nat) (v : Tensor) (l1 l2 : Z)
    (w w1 w2 w3 : World) (r1 r2 : Tensor) (ss : string) :
  allocated w v ->
  maybeGetTensorWrapper w v = None ->
  maybeGetBatchedImpl v = None ->
  makeTensorWrapper v l1 w = Ok (r1, w1) ->
  makeTensorWrapper r1 l2 w1 = Ok (r2, w2) ->
  impls w3 = impls w2 ->
  dump (S (S (S fuel))) w3 ss r2
  = Some (Ok (ss +:+ "Wrapper["
              +:+ level_text show_int64
                    (if flags w3 (getLifeHandleForLevel l2) then Some l2 else None)
              +:+ "Wrapper["
              +:+ level_text show_int64
                    (if flags w3 (getLifeHandleForLevel l1) then Some l1 else None)
              +:+ "Tensor" +:+ show_sizes (sizes w v) +:+ "]" +:+ "]")).
Proof.
  intros Halloc Hplain Hnb H1 H2 Hsame.
  destruct (made_twice_views _ _ _ _ _ _ _ w3 _ _ H1 H2 Hsame)
    as (_ & (tw1 & Hv1 & Hval1 & Hlvl1 & Hh1 & _) & (tw2 & Hv2 & Hval2 & Hlvl2 & Hh2)).
  destruct (makeTensorWrapper_allocates _ _ _ _ _ H1) as (_ & Hn1 & Hold1 & _).
  destruct (makeTensorWrapper_allocates _ _ _ _ _ H2) as (_ & _ & Hold2 & _).
  assert (Hv : forall a, v = TensorRef a -> impls w3 a = impls w a).
  { intros a ->. unfold allocated in Halloc. cbn in Halloc.
    rewrite Hsame, Hold2, Hold1 by lia. done. }
  rewrite (dumpTensor_wrapper _ _ _ _ _ Hv2), Hval2.
  rewrite (dumpTensor_wrapper _ _ _ _ _ Hv1), Hval1.
  rewrite dumpTensor_step.
  rewrite (maybeGetTensorWrapper_agree _ _ _ Hv), Hplain, Hnb.
  unfold sizes. rewrite (tensor_base_agree _ _ _ Hv).
  unfold level_in, alive_in. rewrite Hh1, Hh2, Hlvl1, Hlvl2.
  cbn [stream_prefix stream_close]. do 2 f_equal.
  rewrite !string_app_assoc. reflexivity.
Qed.

End DumpProperties.

(** ** Refreshing the metadata *)

Section Refresh.
Context `{host : Host}.

(** X20: [refreshMetadata] overwrites the sizes, strides, storage offset,
    element count and contiguity flag from the underlying value and reads
    nothing of their earlier contents: two wrapper objects that differ only
    in these members are refreshed to the same object.  The store is left
    as it was, the other members are kept, and refreshing a second time
    changes nothing. *)
Theorem refreshMetadata_idempotent (tw tw1 : TensorWrapper) (w w1 : World) :
  TensorWrapper_refreshMetadata tw w = Ok (tw1, w1) ->
  w1 = w
  /\ value_ tw1 = value_ tw /\ level_ tw1 = level_ tw /\ is_alive_ tw1 = is_alive_ tw
  /\ key_set_ (base_ tw1) = key_set_ (base_ tw)
  /\ version_counter_ (base_ tw1) = version_counter_ (base_ tw)
  /\ TensorWrapper_refreshMetadata tw1 w = Ok (tw1, w)
  /\ (forall ss off n c,
        TensorWrapper_refreshMetadata
          (mkWrapper
             (mkBase (key_set_ (base_ tw)) ss off n c (version_counter_ (base_ tw))
                     (allow_tensor_metadata_change_ (base_ tw))
                     (storage_access_should_throw_ (base_ tw)))
             (value_ tw) (level_ tw) (is_alive_ tw)) w
        = Ok (tw1, w)).
Proof.
  rewrite TensorWrapper_refreshMetadata_spec. intros [= <- <-].
  split; [done|]. split; [done|]. split; [done|]. split; [done|].
  split; [done|]. split; [done|].
  split; [|intros ss off n c]; by rewrite TensorWrapper_refreshMetadata_spec.
Qed.

End Refresh.

(** ** The further properties at concrete stores *)

Lemma markDead_impls (h : LifeHandle) (w : World) :
  impls (store_after (markDead h) w) = impls w.
Proof. reflexivity. Qed.

Lemma w_demo_store_ok : store_ok w_demo.
Proof.
  split.
  - intros a tw _ Hi. by destruct a.
  - intros a Ha. destruct a as [|[|a]]; [vm_compute; reflexivity.. |].
    cbn in Ha. lia.
Qed.

Lemma no_batched_older : batched_older (fun _ => None).
Proof. intros t bv Hb. discriminate Hb. Qed.

(** X1 at a concrete store: wrapping the tensor at address 0 leaves the
    tensor at address 1 as it was. *)
Lemma makeTensorWrapper_frame_witness :
  let w1 := store_after (@makeTensorWrapper demo_host (TensorRef 0) 1) w_demo in
  next_impl w1 = 3%nat
  /\ proxy_view w1 (TensorRef 1) = proxy_view w_demo (TensorRef 1)
  /\ key_set w1 (TensorRef 1) = key_set w_demo (TensorRef 1)
  /\ sizes w1 (TensorRef 1) = sizes w_demo (TensorRef 1).
Proof.
  cbv zeta.
  assert (Hok : @makeTensorWrapper demo_host (TensorRef 0) 1 w_demo
                = Ok (TensorRef 2,
                      store_after (@makeTensorWrapper demo_host (TensorRef 0) 1) w_demo))
    by (vm_compute; reflexivity).
  assert (Halloc : allocated w_demo (TensorRef 1)) by (vm_compute; lia).
  destruct (@makeTensorWrapper_frame demo_host (TensorRef 0) (TensorRef 1) 1
              w_demo _ _ Hok Halloc)
    as (_ & Hn & _ & _ & _ & _ & Hv & Hk & Hs & _).
  split; [exact Hn|]. split; [exact Hv|]. split; [exact Hk | exact Hs].
Defined.

(** X2 at a concrete store: the alive wrapper of level 5 at address 2 is
    wrapped at level 1 by [makeTensorWrapperPtr], not by
    [makeTensorWrapper]. *)
Lemma makeTensorWrapperPtr_skips_level_check_witness :
  let w5 := store_after (@makeTensorWrapper demo_host (TensorRef 0) 5) w_demo in
  @makeTensorWrapper demo_host (TensorRef 2) 1 w5
  = AssertionFailure "wrapped->level() < level"
  /\ exists a w' tw,
       @makeTensorWrapperPtr demo_host (TensorRef 2) 1 true w5 = Ok (a, w')
       /\ impls w' a = WrapperImpl tw
       /\ value_ tw = TensorRef 2 /\ level_ tw = 1.
Proof.
  cbv zeta.
  set (w5 := store_after (@makeTensorWrapper demo_host (TensorRef 0) 5) w_demo).
  assert (Hc : cast_ok w5 (TensorRef 2) = true) by (vm_compute; reflexivity).
  assert (Hl : level_check w5 (TensorRef 2) 1 = false) by (vm_compute; reflexivity).
  destruct (@makeTensorWrapperPtr_skips_level_check demo_host (TensorRef 2) 1 true
              w5 Hc Hl)
    as [Hf (inner & a & w' & tw & _ & _ & _ & Hm & Hi & Hv & Hlv)].
  split; [exact Hf|]. exists a, w', tw.
  split; [exact Hm|]. split; [exact Hi|]. split; [exact Hv | exact Hlv].
Defined.

(** X4 at a concrete store: a wrapper built dead at level 1 stays dead
    while another wrapper is made and level 3 ends. *)
Lemma makeTensorWrapperPtr_dead_forever_witness :
  let w1 := store_after (@makeTensorWrapperPtr demo_host (TensorRef 0) 1 false) w_demo in
  let w2 := store_after (@makeTensorWrapper demo_host (TensorRef 1) 3) w1 in
  let w3 := store_after (markDead (LevelHandle 3)) w2 in
  TensorWrapper_is_alive 2%nat w1 = Ok (false, w1)
  /\ TensorWrapper_level 2%nat w1 = Ok (None, w1)
  /\ TensorWrapper_is_alive 2%nat w3 = Ok (false, w3)
  /\ TensorWrapper_level 2%nat w3 = Ok (None, w3).
Proof.
  cbv zeta.
  set (w1 := store_after (@makeTensorWrapperPtr demo_host (TensorRef 0) 1 false) w_demo).
  set (w2 := store_after (@makeTensorWrapper demo_host (TensorRef 1) 3) w1).
  set (w3 := store_after (markDead (LevelHandle 3)) w2).
  assert (Hok : @makeTensorWrapperPtr demo_host (TensorRef 0) 1 false w_demo
                = Ok (2%nat, w1))
    by (vm_compute; reflexivity).
  assert (Hsteps : rtc (@step demo_host) w1 w3).
  { eapply rtc_l.
    - eapply (@step_makeTensorWrapper demo_host (TensorRef 1) 3 w1 (TensorRef 3) w2).
      vm_compute; reflexivity.
    - eapply rtc_once.
      eapply (@step_markDead demo_host (LevelHandle 3) w2 w3). reflexivity. }
  destruct (@makeTensorWrapperPtr_dead_forever demo_host (TensorRef 0) 1
              w_demo w1 w3 2%nat demo_host_keeps_dead demo_host_keeps_proxies
              Hok Hsteps)
    as (_ & _ & Ha1 & Hl1 & Ha3 & Hl3).
  split; [exact Ha1|]. split; [exact Hl1|]. split; [exact Ha3 | exact Hl3].
Defined.

(** X5 at a concrete store: the tensor at address 1 wrapped at levels 1
    and 2. *)
Lemma nested_wrapper_key_set_witness :
  let w1 := store_after (@makeTensorWrapper demo_host (TensorRef 1) 1) w_demo in
  let w2 := store_after (@makeTensorWrapper demo_host (TensorRef 2) 2) w1 in
  key_set w2 (TensorRef 3) = key_set w1 (TensorRef 2).
Proof.
  cbv zeta.
  set (w1 := store_after (@makeTensorWrapper demo_host (TensorRef 1) 1) w_demo).
  set (w2 := store_after (@makeTensorWrapper demo_host (TensorRef 2) 2) w1).
  assert (H1 : @makeTensorWrapper demo_host (TensorRef 1) 1 w_demo
               = Ok (TensorRef 2, w1)) by (vm_compute; reflexivity).
  assert (H2 : @makeTensorWrapper demo_host (TensorRef 2) 2 w1
               = Ok (TensorRef 3, w2)) by (vm_compute; reflexivity).
  exact (@nested_wrapper_key_set demo_host (TensorRef 1) 1 2 w_demo w1 w2
           (TensorRef 2) (TensorRef 3) H1 H2).
Defined.

(** X6 at a concrete store: the outer wrapper reports the shape [2,3] of
    the tensor at address 0. *)
Lemma nested_wrapper_metadata_witness :
  let w1 := store_after (@makeTensorWrapper demo_host (TensorRef 0) 1) w_demo in
  let w2 := store_after (@makeTensorWrapper demo_host (TensorRef 2) 2) w1 in
  sizes w2 (TensorRef 3) = [2; 3]
  /\ strides w2 (TensorRef 3) = [3; 1]
  /\ numel w2 (TensorRef 3) = 6.
Proof.
  cbv zeta.
  set (w1 := store_after (@makeTensorWrapper demo_host (TensorRef 0) 1) w_demo).
  set (w2 := store_after (@makeTensorWrapper demo_host (TensorRef 2) 2) w1).
  assert (H1 : @makeTensorWrapper demo_host (TensorRef 0) 1 w_demo
               = Ok (TensorRef 2, w1)) by (vm_compute; reflexivity).
  assert (H2 : @makeTensorWrapper demo_host (TensorRef 2) 2 w1
               = Ok (TensorRef 3, w2)) by (vm_compute; reflexivity).
  destruct (@nested_wrapper_metadata demo_host (TensorRef 0) 1 2 w_demo w1 w2
              (TensorRef 2) (TensorRef 3) H1 H2)
    as (Hs & Hst & _ & _ & Hn & _).
  rewrite Hs, Hst, Hn.
  split; [reflexivity|]. split; [reflexivity | vm_compute; reflexivity].
Defined.

(** X7 at a concrete store: levels 1 and 2, level 2 has ended. *)
Lemma fallback_reaches_inner_wrapper_witness :
  let w1 := store_after (@makeTensorWrapper demo_host (TensorRef 0) 1) w_demo in
  let w2 := store_after (@makeTensorWrapper demo_host (TensorRef 2) 2) w1 in
  let w3 := store_after (markDead (LevelHandle 2)) w2 in
  @dead_tensor_wrapper_fallback demo_host (mkOp "neg" 1) [IVTensor (TensorRef 3)] w3
  = @callBoxed demo_host (mkOp "neg" 1) [IVTensor (TensorRef 2)] w3
  /\ TensorWrapper_level 2%nat w3 = Ok (Some 1, w3).
Proof.
  cbv zeta.
  set (w1 := store_after (@makeTensorWrapper demo_host (TensorRef 0) 1) w_demo).
  set (w2 := store_after (@makeTensorWrapper demo_host (TensorRef 2) 2) w1).
  set (w3 := store_after (markDead (LevelHandle 2)) w2).
  assert (H1 : @makeTensorWrapper demo_host (TensorRef 0) 1 w_demo
               = Ok (TensorRef 2, w1)) by (vm_compute; reflexivity).
  assert (H2 : @makeTensorWrapper demo_host (TensorRef 2) 2 w1
               = Ok (TensorRef 3, w2)) by (vm_compute; reflexivity).
  assert (Hlive : flags w3 (getLifeHandleForLevel 1) = true)
    by (vm_compute; reflexivity).
  assert (Hdead : flags w3 (getLifeHandleForLevel 2) = false)
    by (vm_compute; reflexivity).
  destruct (@fallback_reaches_inner_wrapper demo_host (mkOp "neg" 1) (TensorRef 0)
              1 2 w_demo w1 w2 w3 (TensorRef 2) (TensorRef 3)
              eq_refl H1 H2 (markDead_impls _ w2) Hlive Hdead)
    as (Hf & (a1 & Ha & Hl) & _).
  split; [exact Hf|]. injection Ha as <-. exact Hl.
Defined.

(** X8 at a concrete store: levels 1 and 2 have both ended. *)
Lemma fallback_unwraps_one_layer_witness :
  let w1 := store_after (@makeTensorWrapper demo_host (TensorRef 0) 1) w_demo in
  let w2 := store_after (@makeTensorWrapper demo_host (TensorRef 2) 2) w1 in
  let w3 := store_after (markDead (LevelHandle 2)) w2 in
  let w4 := store_after (markDead (LevelHandle 1)) w3 in
  @dead_tensor_wrapper_fallback demo_host (mkOp "neg" 1) [IVTensor (TensorRef 3)] w4
  = @callBoxed demo_host (mkOp "neg" 1) [IVTensor (TensorRef 2)] w4
  /\ @dead_tensor_wrapper_fallback demo_host (mkOp "neg" 1) [IVTensor (TensorRef 2)] w4
     = @callBoxed demo_host (mkOp "neg" 1) [IVTensor (TensorRef 0)] w4.
Proof.
  cbv zeta.
  set (w1 := store_after (@makeTensorWrapper demo_host (TensorRef 0) 1) w_demo).
  set (w2 := store_after (@makeTensorWrapper demo_host (TensorRef 2) 2) w1).
  set (w3 := store_after (markDead (LevelHandle 2)) w2).
  set (w4 := store_after (markDead (LevelHandle 1)) w3).
  assert (H1 : @makeTensorWrapper demo_host (TensorRef 0) 1 w_demo
               = Ok (TensorRef 2, w1)) by (vm_compute; reflexivity).
  assert (H2 : @makeTensorWrapper demo_host (TensorRef 2) 2 w1
               = Ok (TensorRef 3, w2)) by (vm_compute; reflexivity).
  assert (Hd1 : flags w4 (getLifeHandleForLevel 1) = false)
    by (vm_compute; reflexivity).
  assert (Hd2 : flags w4 (getLifeHandleForLevel 2) = false)
    by (vm_compute; reflexivity).
  assert (Hsame : impls w4 = impls w2)
    by (unfold w4; rewrite markDead_impls; apply markDead_impls).
  destruct (@fallback_unwraps_one_layer demo_host (mkOp "neg" 1) (TensorRef 0)
              1 2 w_demo w1 w2 w4 (TensorRef 2) (TensorRef 3)
              eq_refl H1 H2 Hsame Hd1 Hd2)
    as (Hf & _ & Hg).
  split; [exact Hf | exact Hg].
Defined.

(** X9 at a concrete stack: an operator whose one argument is a number. *)
Lemma fallback_without_tensor_argument_fails_witness :
  @dead_tensor_wrapper_fallback demo_host (mkOp "seed" 1)
    [IVTensor (TensorRef 0); IVOther 5] w_demo
  = AssertionFailure "Should have at least one dead wrapper".
Proof.
  apply (@fallback_without_tensor_argument_fails demo_host (mkOp "seed" 1)
           [IVTensor (TensorRef 0); IVOther 5] w_demo).
  - cbn. lia.
  - cbn. lia.
  - cbn. constructor; [|constructor]. exists 5. reflexivity.
Defined.

(** X10 at a concrete store: a dense receiver and a wrapper as source. *)
Lemma copy_without_wrapper_key_warns_witness :
  let w1 := store_after (@makeTensorWrapper demo_host (TensorRef 0) 1) w_demo in
  @copy_wrapper_tensor_ demo_host (TensorRef 1) (TensorRef 2) false w1
  = Ok (TensorRef 1, warned w1 copy_warning)
  /\ warnings (warned w1 copy_warning) = warnings w1 ++ [copy_warning].
Proof.
  cbv zeta.
  set (w1 := store_after (@makeTensorWrapper demo_host (TensorRef 0) 1) w_demo).
  assert (Hk : DispatchKeySet_has (key_set w1 (TensorRef 1)) kGradWrapperKey = false
               \/ DispatchKeySet_has (key_set w1 (TensorRef 2)) kGradWrapperKey = false)
    by (left; vm_compute; reflexivity).
  destruct (@copy_without_wrapper_key_warns demo_host (TensorRef 1) (TensorRef 2)
              false w1 Hk)
    as (Hc & _ & _ & Hw).
  split; [exact Hc | exact Hw].
Defined.

(** X11 at a concrete store: the wrapper at address 2 copied onto
    itself. *)
Lemma copy_onto_itself_witness :
  let w1 := store_after (@makeTensorWrapper demo_host (TensorRef 0) 1) w_demo in
  @copy_wrapper_tensor_ demo_host (TensorRef 2) (TensorRef 2) false w1
  = @Tensor_copy_ demo_host (TensorRef 0) (TensorRef 0) false w1.
Proof.
  cbv zeta.
  set (w1 := store_after (@makeTensorWrapper demo_host (TensorRef 0) 1) w_demo).
  assert (Hv : exists tw, proxy_view w1 (TensorRef 2) = Some tw
                          /\ value_ tw = TensorRef 0)
    by (eexists; split; vm_compute; reflexivity).
  destruct Hv as (tw & Hv & Hval).
  rewrite <- Hval.
  exact (@copy_onto_itself demo_host (TensorRef 2) false w1 tw Hv).
Defined.

(** X12 at a concrete store: two wrappers of level 1, after level 1 has
    ended. *)
Lemma same_level_wrappers_always_copy_witness :
  let w1 := store_after (@makeTensorWrapper demo_host (TensorRef 0) 1) w_demo in
  let w2 := store_after (@makeTensorWrapper demo_host (TensorRef 1) 1) w1 in
  let w3 := store_after (markDead (LevelHandle 1)) w2 in
  @copy_wrapper_tensor_ demo_host (TensorRef 2) (TensorRef 3) false w3
  = @Tensor_copy_ demo_host (TensorRef 0) (TensorRef 1) false w3
  /\ @copy_wrapper_tensor_ demo_host (TensorRef 3) (TensorRef 2) false w3
     = @Tensor_copy_ demo_host (TensorRef 1) (TensorRef 0) false w3.
Proof.
  cbv zeta.
  set (w1 := store_after (@makeTensorWrapper demo_host (TensorRef 0) 1) w_demo).
  set (w2 := store_after (@makeTensorWrapper demo_host (TensorRef 1) 1) w1).
  set (w3 := store_after (markDead (LevelHandle 1)) w2).
  assert (H1 : @makeTensorWrapper demo_host (TensorRef 0) 1 w_demo
               = Ok (TensorRef 2, w1)) by (vm_compute; reflexivity).
  assert (H2 : @makeTensorWrapper demo_host (TensorRef 1) 1 w1
               = Ok (TensorRef 3, w2)) by (vm_compute; reflexivity).
  exact (@same_level_wrappers_always_copy demo_host (TensorRef 0) (TensorRef 1) 1
           false w_demo w1 w2 w3 (TensorRef 2) (TensorRef 3) H1 H2
           (markDead_impls _ w2)).
Defined.

(** X13 at a concrete store: wrappers of levels 1 and 2; the copy is
    rejected while level 1 is active and made once both have ended. *)
Lemma different_level_wrappers_copy_when_dead_witness :
  let w1 := store_after (@makeTensorWrapper demo_host (TensorRef 0) 1) w_demo in
  let w2 := store_after (@makeTensorWrapper demo_host (TensorRef 1) 2) w1 in
  let w3 := store_after (markDead (LevelHandle 2)) w2 in
  let w4 := store_after (markDead (LevelHandle 1)) w3 in
  @copy_wrapper_tensor_ demo_host (TensorRef 2) (TensorRef 3) false w3
  = Ok (TensorRef 2, warned w3 copy_warning)
  /\ @copy_wrapper_tensor_ demo_host (TensorRef 2) (TensorRef 3) false w4
     = @Tensor_copy_ demo_host (TensorRef 0) (TensorRef 1) false w4.
Proof.
  cbv zeta.
  set (w1 := store_after (@makeTensorWrapper demo_host (TensorRef 0) 1) w_demo).
  set (w2 := store_after (@makeTensorWrapper demo_host (TensorRef 1) 2) w1).
  set (w3 := store_after (markDead (LevelHandle 2)) w2).
  set (w4 := store_after (markDead (LevelHandle 1)) w3).
  assert (H1 : @makeTensorWrapper demo_host (TensorRef 0) 1 w_demo
               = Ok (TensorRef 2, w1)) by (vm_compute; reflexivity).
  assert (H2 : @makeTensorWrapper demo_host (TensorRef 1) 2 w1
               = Ok (TensorRef 3, w2)) by (vm_compute; reflexivity).
  assert (Hne : 1 <> 2) by lia.
  assert (Hsame : impls w4 = impls w2)
    by (unfold w4; rewrite markDead_impls; apply markDead_impls).
  assert (F31 : flags w3 (getLifeHandleForLevel 1) = true) by (vm_compute; reflexivity).
  assert (F41 : flags w4 (getLifeHandleForLevel 1) = false) by (vm_compute; reflexivity).
  assert (F42 : flags w4 (getLifeHandleForLevel 2) = false) by (vm_compute; reflexivity).
  split.
  - rewrite (@different_level_wrappers_copy_when_dead demo_host (TensorRef 0)
               (TensorRef 1) 1 2 false w_demo w1 w2 w3 (TensorRef 2) (TensorRef 3)
               Hne H1 H2 (markDead_impls _ w2)).
    rewrite F31. reflexivity.
  - rewrite (@different_level_wrappers_copy_when_dead demo_host (TensorRef 0)
               (TensorRef 1) 1 2 false w_demo w1 w2 w4 (TensorRef 2) (TensorRef 3)
               Hne H1 H2 Hsame).
    rewrite F41, F42. reflexivity.
Defined.

(** X14 at a concrete store: the wrapper of the tensor at address 0,
    duplicated with version counter 7. *)
Lemma duplicate_of_made_wrapper_witness :
  let w1 := store_after (@makeTensorWrapper demo_host (TensorRef 0) 1) w_demo in
  exists dest w2,
    @TensorWrapper_shallow_copy_and_detach demo_host 2%nat 7%nat false w1
    = Ok (dest, w2)
    /\ dest <> 2%nat
    /\ key_set w2 (TensorRef dest) = key_set w1 (TensorRef 2)
    /\ sizes w2 (TensorRef dest) = sizes w1 (TensorRef 2)
    /\ version_counter_ (tensor_base w2 (TensorRef dest)) = 7%nat.
Proof.
  cbv zeta.
  set (w1 := store_after (@makeTensorWrapper demo_host (TensorRef 0) 1) w_demo).
  assert (H1 : @makeTensorWrapper demo_host (TensorRef 0) 1 w_demo
               = Ok (TensorRef 2, w1)) by (vm_compute; reflexivity).
  assert (Halloc : allocated w_demo (TensorRef 0)) by (vm_compute; lia).
  destruct (@duplicate_of_made_wrapper demo_host (TensorRef 0) 1 7%nat false
              w_demo w1 (TensorRef 2) Halloc H1)
    as (a & dest & w2 & Ha & Hrun & Hne & _ & Hk & Hs & _ & _ & _ & _ & Hvc & _).
  injection Ha as <-.
  exists dest, w2.
  split; [exact Hrun|]. split; [exact Hne|]. split; [exact Hk|].
  split; [exact Hs | exact Hvc].
Defined.

(** X15 at a concrete store: wrapping the tensor at address 0. *)
Lemma factories_keep_store_ok_witness :
  let w1 := store_after (@makeTensorWrapper demo_host (TensorRef 0) 1) w_demo in
  let w2 := store_after (@makeTensorWrapperPtr demo_host (TensorRef 0) 1 false) w_demo in
  (store_ok w1 /\ allocated w1 (TensorRef 2))
  /\ (store_ok w2 /\ allocated w2 (TensorRef 2)).
Proof.
  cbv zeta.
  set (w1 := store_after (@makeTensorWrapper demo_host (TensorRef 0) 1) w_demo).
  set (w2 := store_after (@makeTensorWrapperPtr demo_host (TensorRef 0) 1 false) w_demo).
  assert (H1 : @makeTensorWrapper demo_host (TensorRef 0) 1 w_demo
               = Ok (TensorRef 2, w1)) by (vm_compute; reflexivity).
  assert (H2 : @makeTensorWrapperPtr demo_host (TensorRef 0) 1 false w_demo
               = Ok (2%nat, w2)) by (vm_compute; reflexivity).
  assert (Halloc : allocated w_demo (TensorRef 0)) by (vm_compute; lia).
  assert (Hthis : (0 < next_impl w_demo)%nat) by (vm_compute; lia).
  destruct (@factories_keep_store_ok demo_host (TensorRef 0) 0%nat w_demo
              w_demo_store_ok Halloc Hthis)
    as (Hm & Hp & _).
  destruct (Hm 1 _ _ H1) as (Hok1 & Ha1 & _).
  destruct (Hp 1 false _ _ H2) as (Hok2 & Ha2 & _).
  split; split; assumption.
Defined.

(** X17 at a concrete store: the dump of the wrapper at address 2. *)
Lemma dumpTensor_terminates_witness :
  let w1 := store_after (@makeTensorWrapper demo_host (TensorRef 0) 1) w_demo in
  dumpTensor (fun _ => None) show_decimal show_array 4 w1 "" (TensorRef 2)
  = Some (Ok "Wrapper[lvl=1, Tensor[2, 3]]")
  /\ dumpTensor (fun _ => None) show_decimal show_array (4 + 4) w1 "" (TensorRef 2)
     = Some (Ok "Wrapper[lvl=1, Tensor[2, 3]]").
Proof.
  cbv zeta.
  set (w1 := store_after (@makeTensorWrapper demo_host (TensorRef 0) 1) w_demo).
  assert (H1 : @makeTensorWrapper demo_host (TensorRef 0) 1 w_demo
               = Ok (TensorRef 2, w1)) by (vm_compute; reflexivity).
  assert (Halloc : allocated w_demo (TensorRef 0)) by (vm_compute; lia).
  destruct (@makeTensorWrapper_store_ok demo_host _ _ _ _ _ w_demo_store_ok Halloc H1)
    as (Hok & Ha & _).
  destruct (dumpTensor_terminates (fun _ => None) show_decimal show_array
              w1 "" (TensorRef 2) 4 Hok no_batched_older Ha)
    as (out & Hout & Hmore).
  assert (Hrun : dumpTensor (fun _ => None) show_decimal show_array 4 w1 ""
                   (TensorRef 2)
                 = Some (Ok "Wrapper[lvl=1, Tensor[2, 3]]"))
    by (vm_compute; reflexivity).
  split; [exact Hrun|].
  change (S (rank (TensorRef 2))) with 4%nat in Hout, Hmore.
  rewrite Hmore. rewrite Hrun in Hout. by rewrite Hout.
Defined.

(** X18 at a concrete store: the dump of the wrapper at address 2, before
    and after the tensor at address 1 is wrapped. *)
Lemma makeTensorWrapper_keeps_dumps_witness :
  let w1 := store_after (@makeTensorWrapper demo_host (TensorRef 0) 1) w_demo in
  let w2 := store_after (@makeTensorWrapper demo_host (TensorRef 1) 3) w1 in
  dumpTensor (fun _ => None) show_decimal show_array 5 w2 "" (TensorRef 2)
  = dumpTensor (fun _ => None) show_decimal show_array 5 w1 "" (TensorRef 2).
Proof.
  cbv zeta.
  set (w1 := store_after (@makeTensorWrapper demo_host (TensorRef 0) 1) w_demo).
  set (w2 := store_after (@makeTensorWrapper demo_host (TensorRef 1) 3) w1).
  assert (H1 : @makeTensorWrapper demo_host (TensorRef 0) 1 w_demo
               = Ok (TensorRef 2, w1)) by (vm_compute; reflexivity).
  assert (H2 : @makeTensorWrapper demo_host (TensorRef 1) 3 w1
               = Ok (TensorRef 3, w2)) by (vm_compute; reflexivity).
  assert (Halloc : allocated w_demo (TensorRef 0)) by (vm_compute; lia).
  destruct (@makeTensorWrapper_store_ok demo_host _ _ _ _ _ w_demo_store_ok Halloc H1)
    as (Hok & Ha & _).
  exact (@makeTensorWrapper_keeps_dumps demo_host (fun _ => None) show_decimal
           show_array 5 (TensorRef 1) (TensorRef 2) 3 w1 w2 (TensorRef 3) ""
           Hok no_batched_older Ha H2).
Defined.

(** X19 at a concrete store: levels 1 and 2, level 2 has ended. *)
Lemma dumpTensor_of_nested_wrappers_witness :
  let w1 := store_after (@makeTensorWrapper demo_host (TensorRef 0) 1) w_demo in
  let w2 := store_after (@makeTensorWrapper demo_host (TensorRef 2) 2) w1 in
  let w3 := store_after (markDead (LevelHandle 2)) w2 in
  dumpTensor (fun _ => None) show_decimal show_array 3 w3 "" (TensorRef 3)
  = Some (Ok "Wrapper[dead, Wrapper[lvl=1, Tensor[2, 3]]]").
Proof.
  cbv zeta.
  set (w1 := store_after (@makeTensorWrapper demo_host (TensorRef 0) 1) w_demo).
  set (w2 := store_after (@makeTensorWrapper demo_host (TensorRef 2) 2) w1).
  set (w3 := store_after (markDead (LevelHandle 2)) w2).
  assert (H1 : @makeTensorWrapper demo_host (TensorRef 0) 1 w_demo
               = Ok (TensorRef 2, w1)) by (vm_compute; reflexivity).
  assert (H2 : @makeTensorWrapper demo_host (TensorRef 2) 2 w1
               = Ok (TensorRef 3, w2)) by (vm_compute; reflexivity).
  assert (Halloc : allocated w_demo (TensorRef 0)) by (vm_compute; lia).
  assert (Hplain : maybeGetTensorWrapper w_demo (TensorRef 0) = None)
    by (vm_compute; reflexivity).
  rewrite (@dumpTensor_of_nested_wrappers demo_host (fun _ => None) show_decimal
             show_array 0 (TensorRef 0) 1 2 w_demo w1 w2 w3 (TensorRef 2)
             (TensorRef 3) "" Halloc Hplain eq_refl H1 H2 (markDead_impls _ w2)).
  vm_compute. reflexivity.
Defined.

(** X20 at a concrete object: a wrapper object of the tensor at address 0
    that still has the default shape of a new object, and one that holds
    a stale shape. *)
Lemma refreshMetadata_idempotent_witness :
  let fresh := mkWrapper (@TensorImpl_ctor {[ CPU ]}) (TensorRef 0) 1 (LevelHandle 1) in
  let stale := mkWrapper (mkBase {[ CPU ]} [(7, 1)] 4 7 false 0%nat true false)
                         (TensorRef 0) 1 (LevelHandle 1) in
  exists tw1,
    @TensorWrapper_refreshMetadata demo_host fresh w_demo = Ok (tw1, w_demo)
    /\ sizes_and_strides_ (base_ tw1) = [(2, 3); (3, 1)]
    /\ @TensorWrapper_refreshMetadata demo_host tw1 w_demo = Ok (tw1, w_demo)
    /\ @TensorWrapper_refreshMetadata demo_host stale w_demo = Ok (tw1, w_demo).
Proof.
  cbv zeta.
  set (fresh := mkWrapper (@TensorImpl_ctor {[ CPU ]}) (TensorRef 0) 1 (LevelHandle 1)).
  assert (Hrun : exists tw1,
             @TensorWrapper_refreshMetadata demo_host fresh w_demo = Ok (tw1, w_demo)
             /\ sizes_and_strides_ (base_ tw1) = [(2, 3); (3, 1)]).
  { rewrite TensorWrapper_refreshMetadata_spec. eexists. split; reflexivity. }
  destruct Hrun as (tw1 & Hrun & Hss).
  destruct (@refreshMetadata_idempotent demo_host fresh tw1 w_demo w_demo Hrun)
    as (_ & _ & _ & _ & _ & _ & Hagain & Hany).
  exists tw1. split; [exact Hrun|]. split; [exact Hss|]. split; [exact Hagain|].
  exact (Hany [(7, 1)] 4 7 false).
Defined.
